(** * Signed-authorization protocol of the deep-link transfer system

    A shallow embedding of the signature service
    ([backend/services/signature-service.js]), of the signer-side canonical
    encoder ([frontend/js/security-utils.js]) and of the nonce manager
    ([backend/services/nonce-manager.js]), followed by the properties of the
    verification pipeline.

    JavaScript values are modelled by [jsval]; objects used as records by
    [gmap string jsval]; the nonce stores (Redis and the in-process [Map])
    by finite maps; exceptions by a sum type; the clock readings and the
    outcome of each Redis command are inputs of a call ([Env]). *)

From Stdlib Require Import ZArith Ascii String List Bool Lia.
From stdpp Require Import base option strings gmap fin_maps pretty.

Local Open Scope string_scope.
Local Open Scope Z_scope.

(** ** JavaScript values *)

Module JS.

(** Numbers.  A finite number [Dec m e] stands for [m / 10^e]; this covers
    every integer and every decimal literal the protocol handles (amounts,
    slippage, millisecond instants), with exact comparisons.  The values
    are exact decimals: where JavaScript rounds a literal to the nearest
    double (more than 17 significant digits, an exponent beyond the range of
    doubles), the model keeps the value of the literal. *)
Inductive number :=
  | NaN
  | Inf (neg : bool)
  | Dec (m : Z) (e : nat).

(** Objects carry a reference (their identity) and their own properties. *)
#[local] Unset Elimination Schemes.
Inductive jsval :=
  | JUndefined
  | JNull
  | JBool (b : bool)
  | JNum (n : number)
  | JStr (s : string)
  | JObj (ref : nat) (fields : gmap string jsval).
#[local] Set Elimination Schemes.

Definition pow10 (e : nat) : Z := 10 ^ Z.of_nat e.

(** Three-way comparison of numbers; [None] when a NaN is involved. *)
Definition num_cmp (a b : number) : option comparison :=
  match a, b with
  | NaN, _ | _, NaN => None
  | Inf n1, Inf n2 =>
      Some (match n1, n2 with
            | true, false => Lt
            | false, true => Gt
            | _, _ => Eq
            end)
  | Inf n, Dec _ _ => Some (if n then Lt else Gt)
  | Dec _ _, Inf n => Some (if n then Gt else Lt)
  | Dec m1 e1, Dec m2 e2 => Some (Z.compare (m1 * pow10 e2) (m2 * pow10 e1))
  end.

(** [a > b], [a < b], [a <= b] and [a === b] on numbers. *)
Definition num_gtb (a b : number) : bool :=
  match num_cmp a b with Some Gt => true | _ => false end.
Definition num_ltb (a b : number) : bool :=
  match num_cmp a b with Some Lt => true | _ => false end.
Definition num_leb (a b : number) : bool :=
  match num_cmp a b with Some Lt | Some Eq => true | _ => false end.
Definition num_eqb (a b : number) : bool :=
  match num_cmp a b with Some Eq => true | _ => false end.

Definition isNaN (a : number) : bool :=
  match a with NaN => true | _ => false end.

Definition of_Z (z : Z) : number := Dec z 0.

(** Removal of the trailing zeros of the fractional part. *)
Fixpoint strip_zeros (m : Z) (e : nat) : Z * nat :=
  match e with
  | O => (m, O)
  | S e' => if (m mod 10 =? 0) then strip_zeros (m / 10) e' else (m, e)
  end.

Fixpoint zeros (k : nat) : string :=
  match k with
  | O => EmptyString
  | S k' => String "0" (zeros k')
  end.

Definition digits_of (n : Z) : string := pretty (Z.to_N n).

(** [Number.prototype.toString] in plain decimal notation, which is what
    JavaScript prints for [1e-6 <= |x| < 1e21]; outside that range it prints
    an exponent, which the model does not. *)
Definition num_to_string (a : number) : string :=
  match a with
  | NaN => "NaN"
  | Inf false => "Infinity"
  | Inf true => "-Infinity"
  | Dec m e =>
      let '(m', e') := strip_zeros m e in
      let sign := if (m' <? 0) then "-" else EmptyString in
      let a := Z.abs m' in
      let ip := digits_of (a / pow10 e') in
      match e' with
      | O => sign +:+ ip
      | S _ =>
          let fp := digits_of (a mod pow10 e') in
          sign +:+ ip +:+ "." +:+ zeros (e' - String.length fp) +:+ fp
      end
  end.

(** The string conversion of a template literal.  Objects are the
    plain objects of a JSON body and print as [[object Object]]; an object
    that owns a [toString] or [valueOf] property which is not callable, for
    which the conversion throws a [TypeError], is outside the model, and so
    are arrays. *)
Definition to_string (v : jsval) : string :=
  match v with
  | JUndefined => "undefined"
  | JNull => "null"
  | JBool true => "true"
  | JBool false => "false"
  | JNum n => num_to_string n
  | JStr s => s
  | JObj _ _ => "[object Object]"
  end.

(** Truthiness, as tested by [!v], [v && _] and [v || _]. *)
Definition truthy (v : jsval) : bool :=
  match v with
  | JUndefined | JNull => false
  | JBool b => b
  | JNum NaN => false
  | JNum (Inf _) => true
  | JNum (Dec m _) => negb (m =? 0)
  | JStr s => negb (String.eqb s EmptyString)
  | JObj _ _ => true
  end.

(** [a || b] *)
Definition or_else (a b : jsval) : jsval := if truthy a then a else b.

Inductive jstype := TUndefined | TObject | TBoolean | TNumber | TString.

Definition typeof (v : jsval) : jstype :=
  match v with
  | JUndefined => TUndefined
  | JNull => TObject
  | JBool _ => TBoolean
  | JNum _ => TNumber
  | JStr _ => TString
  | JObj _ _ => TObject
  end.

Definition is_string (v : jsval) : bool :=
  match v with JStr _ => true | _ => false end.

(** Property access [o.k] and the test [k in o]. *)
Definition get (o : jsval) (k : string) : jsval :=
  match o with
  | JObj _ fields => default JUndefined (fields !! k)
  | _ => JUndefined
  end.

Definition has_field (o : jsval) (k : string) : bool :=
  match o with
  | JObj _ fields => bool_decide (is_Some (fields !! k))
  | _ => false
  end.

(** Strict equality [a === b]; objects are compared by reference. *)
Definition strict_eq (a b : jsval) : bool :=
  match a, b with
  | JUndefined, JUndefined => true
  | JNull, JNull => true
  | JBool x, JBool y => Bool.eqb x y
  | JNum x, JNum y => num_eqb x y
  | JStr x, JStr y => String.eqb x y
  | JObj x _, JObj y _ => Nat.eqb x y
  | _, _ => false
  end.

(** Subtraction [a - b] on numbers. *)
Definition num_sub (a b : number) : number :=
  match a, b with
  | NaN, _ | _, NaN => NaN
  | Inf n1, Inf n2 => if Bool.eqb n1 n2 then NaN else Inf n1
  | Inf n, Dec _ _ => Inf n
  | Dec _ _, Inf n => Inf (negb n)
  | Dec m1 e1, Dec m2 e2 => Dec (m1 * pow10 e2 - m2 * pow10 e1) (e1 + e2)
  end.

(** *** [parseInt] and [parseFloat] *)

Definition code (c : ascii) : Z := Z.of_N (N_of_ascii c).

Definition is_space (c : ascii) : bool :=
  let n := code c in ((9 <=? n) && (n <=? 13)) || (n =? 32).

Definition digit_val (c : ascii) : option Z :=
  let n := code c in
  if (48 <=? n) && (n <=? 57) then Some (n - 48) else None.

Definition hex_val (c : ascii) : option Z :=
  let n := code c in
  if (48 <=? n) && (n <=? 57) then Some (n - 48)
  else if (97 <=? n) && (n <=? 102) then Some (n - 87)
  else if (65 <=? n) && (n <=? 70) then Some (n - 55)
  else None.

Fixpoint skip_spaces (s : string) : string :=
  match s with
  | String c s' => if is_space c then skip_spaces s' else s
  | EmptyString => s
  end.

(** The longest prefix of digits of [s]: its value in the given radix,
    the number of digits read, and the rest of the string. *)
Fixpoint take_digits (val : ascii -> option Z) (radix : Z) (s : string)
    (acc : Z) (cnt : nat) : Z * nat * string :=
  match s with
  | String c s' =>
      match val c with
      | Some d => take_digits val radix s' (acc * radix + d) (S cnt)
      | None => (acc, cnt, s)
      end
  | EmptyString => (acc, cnt, s)
  end.

Definition take_sign (s : string) : bool * string :=
  match s with
  | String "-" s' => (true, s')
  | String "+" s' => (false, s')
  | _ => (false, s)
  end.

Definition strip_hex_prefix (s : string) : option string :=
  match s with
  | String "0" (String "x" s') => Some s'
  | String "0" (String "X" s') => Some s'
  | _ => None
  end.

(** [parseInt(s)] without a radix argument. *)
Definition parseInt_str (s : string) : number :=
  let '(neg, s1) := take_sign (skip_spaces s) in
  let '(v, cnt, _) :=
    match strip_hex_prefix s1 with
    | Some s2 => take_digits hex_val 16 s2 0 O
    | None => take_digits digit_val 10 s1 0 O
    end in
  match cnt with
  | O => NaN
  | S _ => of_Z (if neg then - v else v)
  end.

Definition parseInt (v : jsval) : number := parseInt_str (to_string v).

Definition is_prefix (p s : string) : bool := String.prefix p s.

(** The exponent part of a decimal literal, when it is well formed. *)
Definition take_exponent (s : string) : option Z :=
  match s with
  | String c s' =>
      if (code c =? 101) || (code c =? 69) then
        let '(neg, s2) := take_sign s' in
        let '(v, cnt, _) := take_digits digit_val 10 s2 0 O in
        match cnt with
        | O => None
        | S _ => Some (if neg then - v else v)
        end
      else None
  | EmptyString => None
  end.

(** [parseFloat(s)]: the longest prefix that is a decimal literal, with
    the exact value of that literal. *)
Definition parseFloat_str (s : string) : number :=
  let '(neg, s1) := take_sign (skip_spaces s) in
  if is_prefix "Infinity" s1 then Inf neg
  else
    let '(ip, icnt, s2) := take_digits digit_val 10 s1 0 O in
    let '(fp, fcnt, s3) :=
      match s2 with
      | String "." s2' => take_digits digit_val 10 s2' 0 O
      | _ => (0, O, s2)
      end in
    match (icnt + fcnt)%nat with
    | O => NaN
    | S _ =>
        let m := ip * pow10 fcnt + fp in
        let m := if neg then - m else m in
        match take_exponent s3 with
        | None => Dec m fcnt
        | Some k =>
            let sh := k - Z.of_nat fcnt in
            if (0 <=? sh) then Dec (m * 10 ^ sh) 0 else Dec m (Z.to_nat (- sh))
        end
    end.

Definition parseFloat (v : jsval) : number := parseFloat_str (to_string v).

(** *** [Number(v)], [String.prototype.trim] and [length] *)

(** [s.trim()], for the white space of the ASCII range. *)
Fixpoint trim_end (s : string) : string :=
  match s with
  | EmptyString => EmptyString
  | String c s' =>
      match trim_end s' with
      | EmptyString => if is_space c then EmptyString else String c EmptyString
      | r => String c r
      end
  end.

Definition trim (s : string) : string := trim_end (skip_spaces s).

(** [s.length]: the number of UTF-16 code units of a string kept in UTF-8
    (a continuation byte counts for none, the first byte of a four-byte
    sequence for two). *)
Fixpoint js_length (s : string) : Z :=
  match s with
  | EmptyString => 0
  | String c s' =>
      let n := code c in
      (if n <? 128 then 1 else if n <? 192 then 0 else if n <? 240 then 1 else 2)
      + js_length s'
  end.

Definition bin_val (c : ascii) : option Z :=
  let n := code c in if (n =? 48) || (n =? 49) then Some (n - 48) else None.

Definition oct_val (c : ascii) : option Z :=
  let n := code c in if (48 <=? n) && (n <=? 55) then Some (n - 48) else None.

(** The exponent part of a decimal literal and what follows it; without a
    well-formed exponent the string is returned as it is. *)
Definition take_exponent_rest (s : string) : option Z * string :=
  match s with
  | String c s' =>
      if (code c =? 101) || (code c =? 69) then
        let '(neg, s2) := take_sign s' in
        let '(v, cnt, s3) := take_digits digit_val 10 s2 0 O in
        match cnt with
        | O => (None, s)
        | S _ => (Some (if neg then - v else v), s3)
        end
      else (None, s)
  | EmptyString => (None, s)
  end.

(** A whole string read in the given radix. *)
Definition whole_int (val : ascii -> option Z) (radix : Z) (s : string) : number :=
  let '(v, cnt, rest) := take_digits val radix s 0 O in
  match cnt, rest with
  | S _, EmptyString => of_Z v
  | _, _ => NaN
  end.

(** [Number(s)]: the trimmed string must be empty or a numeric literal. *)
Definition to_number_str (s : string) : number :=
  let t := trim s in
  match t with
  | EmptyString => of_Z 0
  | String "0" (String "x" r) | String "0" (String "X" r) => whole_int hex_val 16 r
  | String "0" (String "o" r) | String "0" (String "O" r) => whole_int oct_val 8 r
  | String "0" (String "b" r) | String "0" (String "B" r) => whole_int bin_val 2 r
  | _ =>
      let '(neg, s1) := take_sign t in
      if String.eqb s1 "Infinity" then Inf neg
      else
        let '(ip, icnt, s2) := take_digits digit_val 10 s1 0 O in
        let '(fp, fcnt, s3) :=
          match s2 with
          | String "." s2' => take_digits digit_val 10 s2' 0 O
          | _ => (0, O, s2)
          end in
        match (icnt + fcnt)%nat with
        | O => NaN
        | S _ =>
            let m := ip * pow10 fcnt + fp in
            let m := if neg then - m else m in
            match take_exponent_rest s3 with
            | (None, EmptyString) => Dec m fcnt
            | (Some k, EmptyString) =>
                let sh := k - Z.of_nat fcnt in
                if (0 <=? sh) then Dec (m * 10 ^ sh) 0 else Dec m (Z.to_nat (- sh))
            | _ => NaN
            end
        end
  end.

(** [Number(v)], the conversion applied by [<] and [>] to an operand that is
    compared with a number. *)
Definition to_number (v : jsval) : number :=
  match v with
  | JUndefined => NaN
  | JNull => of_Z 0
  | JBool true => of_Z 1
  | JBool false => of_Z 0
  | JNum n => n
  | JStr s => to_number_str s
  | JObj _ _ => NaN
  end.

(** [v.length] *)
Definition length_of (v : jsval) : jsval :=
  match v with
  | JStr s => JNum (of_Z (js_length s))
  | JObj _ _ => get v "length"
  | _ => JUndefined
  end.

End JS.

Import JS.

(** [Array.prototype.join] *)
Fixpoint join (sep : string) (l : list string) : string :=
  match l with
  | [] => EmptyString
  | [x] => x
  | x :: l' => x +:+ sep +:+ join sep l'
  end.

(** The separator written ['\\n'] in both encoders: a backslash followed by
    the letter n. *)
Definition DELIMITER : string := "\n".

(** [Buffer.from(message, 'utf8')] and [new TextEncoder().encode(message)]:
    strings are kept in their UTF-8 form. *)
Definition utf8 (message : string) : list Byte.byte := list_byte_of_string message.

(** Exceptions. *)
Inductive outcome (A : Type) :=
  | Return (a : A)
  | Throw (message : string).
Arguments Return {A} a.
Arguments Throw {A} message.

(** The object returned by a validation step: [{ valid: true }] or
    [{ valid: false, error }]. *)
Inductive Validation :=
  | Ok
  | Fail (error : string).

(** ** Base 64, as [btoa] and [Buffer.prototype.toString('base64')] *)

Module Base64.

Definition char_of_index (i : Z) : ascii :=
  ascii_of_N (Z.to_N
    (if i <? 26 then 65 + i          (* A-Z *)
     else if i <? 52 then 71 + i     (* a-z *)
     else if i <? 62 then i - 4      (* 0-9 *)
     else if i =? 62 then 43         (* + *)
     else 47)).                      (* / *)

Definition byte_val (b : Byte.byte) : Z := Z.of_N (Byte.to_N b).

Fixpoint encode (l : list Byte.byte) : string :=
  match l with
  | [] => EmptyString
  | [a] =>
      let a := byte_val a in
      String (char_of_index (a / 4))
        (String (char_of_index ((a mod 4) * 16)) "==")
  | [a; b] =>
      let a := byte_val a in
      let b := byte_val b in
      String (char_of_index (a / 4))
        (String (char_of_index ((a mod 4) * 16 + b / 16))
           (String (char_of_index ((b mod 16) * 4)) "="))
  | a :: b :: c :: rest =>
      let a := byte_val a in
      let b := byte_val b in
      let c := byte_val c in
      String (char_of_index (a / 4))
        (String (char_of_index ((a mod 4) * 16 + b / 16))
           (String (char_of_index ((b mod 16) * 4 + c / 64))
              (String (char_of_index (c mod 64)) (encode rest))))
  end.

End Base64.

(** [s.replace(/c/g, d)] and [s.replace(/c/g, '')] for a single character. *)
Fixpoint replace_char (c d : ascii) (s : string) : string :=
  match s with
  | EmptyString => EmptyString
  | String x s' => String (if Ascii.eqb x c then d else x) (replace_char c d s')
  end.

Fixpoint remove_chars (p : ascii -> bool) (s : string) : string :=
  match s with
  | EmptyString => EmptyString
  | String x s' => if p x then remove_chars p s' else String x (remove_chars p s')
  end.

(** ** Signer side: [SecurityUtils] *)

Module SecurityUtils.

Definition createSignatureData (nonce : string) (now : Z) (host : string)
    (transferData : jsval) : jsval :=
  JObj 0%nat (list_to_map
    [ ("nonce", JStr nonce);
      ("timestamp", JNum (of_Z now));
      ("expiry", JNum (of_Z (now + 15 * 60 * 1000)));
      ("domain", JStr host);
      ("version", JStr "1.0");
      ("source", get transferData "source");
      ("destination", get transferData "destination");
      ("amount", get transferData "amount");
      ("token", or_else (get transferData "token") (JStr "SOL"));
      ("memo", or_else (get transferData "memo") (JStr EmptyString));
      ("maxSlippage", or_else (get transferData "maxSlippage") (JNum (Dec 1 2))) ]).

Definition createMessageToSign (signatureData : jsval) : list Byte.byte :=
  let message := join DELIMITER
    [ "nonce:" +:+ to_string (get signatureData "nonce");
      "timestamp:" +:+ to_string (get signatureData "timestamp");
      "expiry:" +:+ to_string (get signatureData "expiry");
      "domain:" +:+ to_string (get signatureData "domain");
      "version:" +:+ to_string (get signatureData "version");
      "source:" +:+ to_string (get signatureData "source");
      "destination:" +:+ to_string (get signatureData "destination");
      "amount:" +:+ to_string (get signatureData "amount");
      "token:" +:+ to_string (get signatureData "token");
      "memo:" +:+ to_string (get signatureData "memo");
      "maxSlippage:" +:+ to_string (get signatureData "maxSlippage") ] in
  utf8 message.

(** [generateNonce]; the 32 random bytes are an argument. *)
Definition generateNonce (randomBytes : list Byte.byte) : string :=
  remove_chars (fun x => Ascii.eqb x "=")
    (replace_char "/" "_" (replace_char "+" "-" (Base64.encode randomBytes))).

(** The characters removed by [sanitizeMemo], by their codes: less-than,
    greater-than, double quote, apostrophe and ampersand. *)
Definition markup_char (c : ascii) : bool :=
  let n := code c in
  (n =? 60) || (n =? 62) || (n =? 34) || (n =? 39) || (n =? 38).

(** [sanitizeMemo]; [substring] and [trim] are those of JavaScript on memos
    of the ASCII range. *)
Definition sanitizeMemo (memo : jsval) : string :=
  if negb (truthy memo) || negb (is_string memo) then EmptyString
  else trim (String.substring 0 200 (remove_chars markup_char (to_string memo))).

End SecurityUtils.

(** ** The external libraries [bs58] and [tweetnacl]

    Their code is not part of the repository: the verifier is parametrised
    by them.  [bs58_decode] throws on a character outside the alphabet. *)
Record Libraries := {
  bs58_decode : string -> outcome (list Byte.byte);
  nacl_verify : list Byte.byte -> list Byte.byte -> list Byte.byte -> bool
}.

(** [bs58.decode(v)]: a value that is not a string is refused. *)
Definition bs58_decode_val (lib : Libraries) (v : jsval) : outcome (list Byte.byte) :=
  match v with
  | JStr s => bs58_decode lib s
  | _ => Throw "Expected String"
  end.

(** ** The Redis server, as far as the service uses it

    A key holds a value and the instant (ms) at which it expires. *)
Module Redis.

Abbreviation store := (gmap string (string * Z)).

Definition get (r : store) (now : Z) (key : string) : option string :=
  match r !! key with
  | Some (v, expiresAt) => if (now <? expiresAt) then Some v else None
  | None => None
  end.

Definition setEx (r : store) (now : Z) (key : string) (seconds : Z)
    (value : string) : store :=
  <[ key := (value, now + seconds * 1000) ]> r.

Definition exists_ (r : store) (now : Z) (key : string) : Z :=
  match get r now key with Some _ => 1 | None => 0 end.

End Redis.

(** What one call observes of its environment: the clock readings and
    whether each Redis command resolves ([true]) or rejects ([false]). *)
Record Env := {
  t_check : Z;      (* Date.now() in validateTimestamp *)
  get_ok : bool;    (* redis.get *)
  t_read : Z;       (* instant at which the store answers the read *)
  setEx_ok : bool;  (* redis.setEx *)
  t_write : Z;      (* instant of the write (Date.now() in consumeNonce) *)
  t_clean : Z       (* Date.now() in cleanupNonceCache *)
}.

(** The verdict of [verifySignature]: [{ valid: true, data, verifiedAt }] or
    [{ valid: false, error }] (the [verifiedAt] string is left out). *)
Inductive Verdict :=
  | Valid (data : jsval)
  | Invalid (error : string).

(** ** Verifier side: [SignatureService] *)

Module SignatureService.

Record t := {
  SUPPORTED_DOMAINS : list string;
  redis : option Redis.store;          (* null when Redis is unavailable *)
  nonceCache : gmap string Z           (* fallback cache: nonce -> Date.now() *)
}.

Definition MAX_AMOUNT_SOL : number := of_Z 100.

Definition set_redis (this : t) (r : Redis.store) : t :=
  {| SUPPORTED_DOMAINS := SUPPORTED_DOMAINS this;
     redis := Some r;
     nonceCache := nonceCache this |}.

Definition set_nonceCache (this : t) (c : gmap string Z) : t :=
  {| SUPPORTED_DOMAINS := SUPPORTED_DOMAINS this;
     redis := redis this;
     nonceCache := c |}.

Definition requiredFields : list string :=
  ["nonce"; "timestamp"; "expiry"; "domain"; "source"; "destination"; "amount"].

(** The loop over [requiredFields]. *)
Fixpoint checkRequired (signatureData : jsval) (fields : list string) : Validation :=
  match fields with
  | [] => Ok
  | field :: rest =>
      if negb (has_field signatureData field)
      then Fail ("Missing required field: " +:+ field)
      else checkRequired signatureData rest
  end.

Definition is_object (v : jsval) : bool :=
  match typeof v with TObject => true | _ => false end.

Definition validateInputs (signatureData signature publicKey : jsval) : Validation :=
  if negb (truthy signatureData) || negb (is_object signatureData)
  then Fail "Invalid signature data format"
  else if negb (truthy signature) || negb (is_string signature)
  then Fail "Invalid signature format"
  else if negb (truthy publicKey) || negb (is_string publicKey)
  then Fail "Invalid public key format"
  else checkRequired signatureData requiredFields.

Definition maxClockSkew : Z := 5 * 60 * 1000.
Definition maxValidityWindow : Z := 24 * 60 * 60 * 1000.

Definition validateTimestamp (now : Z) (signatureData : jsval) : Validation :=
  let timestamp := parseInt (get signatureData "timestamp") in
  let expiry := parseInt (get signatureData "expiry") in
  if num_gtb timestamp (of_Z (now + maxClockSkew))
  then Fail "Signature timestamp is too far in the future"
  else if num_gtb (of_Z now) expiry
  then Fail "Signature has expired"
  else if num_gtb (num_sub expiry timestamp) (of_Z maxValidityWindow)
  then Fail "Signature validity window is too long"
  else Ok.

(** The character class [[A-Za-z0-9_-]]. *)
Definition base64url_char (c : ascii) : bool :=
  let n := code c in
  ((65 <=? n) && (n <=? 90)) || ((97 <=? n) && (n <=? 122))
  || ((48 <=? n) && (n <=? 57)) || (n =? 95) || (n =? 45).

Fixpoint all_chars (p : ascii -> bool) (s : string) : bool :=
  match s with
  | EmptyString => true
  | String c s' => p c && all_chars p s'
  end.

(** [/^[A-Za-z0-9_-]+$/.test(s)] *)
Definition base64UrlRegex (s : string) : bool :=
  negb (String.eqb s EmptyString) && all_chars base64url_char s.

Definition isNonceUsed (this : t) (env : Env) (nonce : string) : bool :=
  match redis this with
  | Some r =>
      if get_ok env
      then match Redis.get r (t_read env) ("nonce:" +:+ nonce) with
           | Some _ => true
           | None => false
           end
      else false   (* On error, assume nonce is unused but log the issue *)
  | None => bool_decide (is_Some (nonceCache this !! nonce))
  end.

Definition validateNonce (this : t) (env : Env) (nonce : jsval) : Validation :=
  if negb (truthy nonce) || negb (is_string nonce)
  then Fail "Invalid nonce format"
  else if negb (base64UrlRegex (to_string nonce))
  then Fail "Invalid nonce format"
  else if isNonceUsed this env (to_string nonce)
  then Fail "Nonce has already been used (replay attack detected)"
  else Ok.

Definition maxAge : Z := 24 * 60 * 60 * 1000.

Definition cleanupNonceCache (this : t) (now : Z) : t :=
  set_nonceCache this
    (filter (fun '(_, timestamp) => ¬ (now - timestamp > maxAge)) (nonceCache this)).

Definition consumeNonce (this : t) (env : Env) (nonce : string) : outcome t :=
  match redis this with
  | Some r =>
      if setEx_ok env
      then Return (set_redis this
             (Redis.setEx r (t_write env) ("nonce:" +:+ nonce) (24 * 60 * 60) "used"))
      else Throw "Failed to consume nonce - cannot prevent replay attacks"
  | None =>
      let this' := set_nonceCache this (<[ nonce := t_write env ]> (nonceCache this)) in
      Return (cleanupNonceCache this' (t_clean env))
  end.

Definition validateDomain (this : t) (domain : jsval) : Validation :=
  if negb (truthy domain) || negb (is_string domain)
  then Fail "Invalid domain format"
  else if negb (bool_decide (to_string domain ∈ SUPPORTED_DOMAINS this))
  then Fail ("Unsupported domain: " +:+ to_string domain)
  else Ok.

Definition createMessageToSign (signatureData : jsval) : list Byte.byte :=
  let message := join DELIMITER
    [ "nonce:" +:+ to_string (get signatureData "nonce");
      "timestamp:" +:+ to_string (get signatureData "timestamp");
      "expiry:" +:+ to_string (get signatureData "expiry");
      "domain:" +:+ to_string (get signatureData "domain");
      "version:" +:+ to_string (or_else (get signatureData "version") (JStr "1.0"));
      "source:" +:+ to_string (get signatureData "source");
      "destination:" +:+ to_string (get signatureData "destination");
      "amount:" +:+ to_string (get signatureData "amount");
      "token:" +:+ to_string (or_else (get signatureData "token") (JStr "SOL"));
      "memo:" +:+ to_string (or_else (get signatureData "memo") (JStr EmptyString));
      "maxSlippage:" +:+
        to_string (or_else (get signatureData "maxSlippage") (JNum (Dec 1 2))) ] in
  utf8 message.

Section WithLibraries.

Variable lib : Libraries.

Definition verifyCryptographicSignature (signatureData signature publicKey : jsval)
    : Validation :=
  let messageBytes := createMessageToSign signatureData in
  match bs58_decode_val lib signature with
  | Throw message => Fail ("Signature verification error: " +:+ message)
  | Return signatureBytes =>
      match bs58_decode_val lib publicKey with
      | Throw message => Fail ("Signature verification error: " +:+ message)
      | Return publicKeyBytes =>
          if negb (length signatureBytes =? 64)%nat
          then Fail "Invalid signature length"
          else if negb (length publicKeyBytes =? 32)%nat
          then Fail "Invalid public key length"
          else if negb (nacl_verify lib messageBytes signatureBytes publicKeyBytes)
          then Fail "Cryptographic signature verification failed"
          else Ok
      end
  end.

Definition isValidSolanaAddress (address : jsval) : bool :=
  match bs58_decode_val lib address with
  | Return decoded => (length decoded =? 32)%nat
  | Throw _ => false
  end.

Definition performSecurityChecks (signatureData : jsval) : Validation :=
  if strict_eq (get signatureData "token") (JStr "SOL")
     && num_gtb (parseFloat (get signatureData "amount")) MAX_AMOUNT_SOL
  then Fail ("Amount exceeds maximum limit of " +:+ num_to_string MAX_AMOUNT_SOL +:+ " SOL")
  else if negb (isValidSolanaAddress (get signatureData "source"))
          || negb (isValidSolanaAddress (get signatureData "destination"))
  then Fail "Invalid wallet address format"
  else if strict_eq (get signatureData "source") (get signatureData "destination")
  then Fail "Cannot transfer to same wallet"
  else
    let amount := parseFloat (get signatureData "amount") in
    if isNaN amount || num_leb amount (of_Z 0)
    then Fail "Invalid transfer amount"
    else
      let slippage := parseFloat (get signatureData "maxSlippage") in
      if isNaN slippage || num_ltb slippage (of_Z 0) || num_gtb slippage (Dec 1 1)
      then Fail "Invalid slippage value (must be between 0 and 10%)"
      else if truthy (get signatureData "version")
              && negb (strict_eq (get signatureData "version") (JStr "1.0"))
      then Fail "Unsupported signature version"
      else Ok.

(** The rules of [performSecurityChecks], one entry per [if] of the source
    in its order. *)
Definition businessRules (signatureData : jsval) : list Validation :=
  let amount := parseFloat (get signatureData "amount") in
  let slippage := parseFloat (get signatureData "maxSlippage") in
  [ if strict_eq (get signatureData "token") (JStr "SOL")
       && num_gtb (parseFloat (get signatureData "amount")) MAX_AMOUNT_SOL
    then Fail ("Amount exceeds maximum limit of " +:+ num_to_string MAX_AMOUNT_SOL +:+ " SOL")
    else Ok;
    if negb (isValidSolanaAddress (get signatureData "source"))
       || negb (isValidSolanaAddress (get signatureData "destination"))
    then Fail "Invalid wallet address format" else Ok;
    if strict_eq (get signatureData "source") (get signatureData "destination")
    then Fail "Cannot transfer to same wallet" else Ok;
    if isNaN amount || num_leb amount (of_Z 0)
    then Fail "Invalid transfer amount" else Ok;
    if isNaN slippage || num_ltb slippage (of_Z 0) || num_gtb slippage (Dec 1 1)
    then Fail "Invalid slippage value (must be between 0 and 10%)" else Ok;
    if truthy (get signatureData "version")
       && negb (strict_eq (get signatureData "version") (JStr "1.0"))
    then Fail "Unsupported signature version" else Ok ].

(** [verifySignature]: the steps of the source in their order.  Logging
    writes to the console only and is left out; the only exception that
    reaches the outer [catch] is the one thrown by [consumeNonce]. *)
Definition verifySignature (this : t) (env : Env)
    (signatureData signature publicKey : jsval) : t * Verdict :=
  (* Step 1: Validate input parameters *)
  match validateInputs signatureData signature publicKey with
  | Fail error => (this, Invalid error)
  | Ok =>
  (* Step 2: Check timestamp validity *)
  match validateTimestamp (t_check env) signatureData with
  | Fail error => (this, Invalid error)
  | Ok =>
  (* Step 3: Check nonce (prevent replay attacks) *)
  match validateNonce this env (get signatureData "nonce") with
  | Fail error => (this, Invalid error)
  | Ok =>
  (* Step 4: Validate domain *)
  match validateDomain this (get signatureData "domain") with
  | Fail error => (this, Invalid error)
  | Ok =>
  (* Step 5: Verify cryptographic signature *)
  match verifyCryptographicSignature signatureData signature publicKey with
  | Fail error => (this, Invalid error)
  | Ok =>
  (* Step 6: Perform business logic security checks *)
  match performSecurityChecks signatureData with
  | Fail error => (this, Invalid error)
  | Ok =>
  (* Step 7: Mark nonce as used (consume it) *)
  match consumeNonce this env (to_string (get signatureData "nonce")) with
  | Throw message => (this, Invalid ("Signature verification failed: " +:+ message))
  | Return this' => (this', Valid signatureData)
  end end end end end end end.

(** The two synchronous blocks of [verifySignature]: the code up to the
    suspension at [await this.validateNonce(...)], whose last action is the
    read of the nonce store, and the code that runs when that promise has
    resolved, whose last action is the write of [consumeNonce]. *)
Definition stepsUntilNonce (this : t) (env : Env)
    (signatureData signature publicKey : jsval) : Validation :=
  match validateInputs signatureData signature publicKey with
  | Fail error => Fail error
  | Ok =>
  match validateTimestamp (t_check env) signatureData with
  | Fail error => Fail error
  | Ok => validateNonce this env (get signatureData "nonce")
  end end.

Definition stepsAfterNonce (this : t) (env : Env)
    (signatureData signature publicKey : jsval) : t * Verdict :=
  match validateDomain this (get signatureData "domain") with
  | Fail error => (this, Invalid error)
  | Ok =>
  match verifyCryptographicSignature signatureData signature publicKey with
  | Fail error => (this, Invalid error)
  | Ok =>
  match performSecurityChecks signatureData with
  | Fail error => (this, Invalid error)
  | Ok =>
  match consumeNonce this env (to_string (get signatureData "nonce")) with
  | Throw message => (this, Invalid ("Signature verification failed: " +:+ message))
  | Return this' => (this', Valid signatureData)
  end end end end.

(** The checks of the pipeline in the order of the source, for a given
    state of the store. *)
Definition pipeline (this : t) (env : Env)
    (signatureData signature publicKey : jsval) : list Validation :=
  [ validateInputs signatureData signature publicKey;
    validateTimestamp (t_check env) signatureData;
    validateNonce this env (get signatureData "nonce");
    validateDomain this (get signatureData "domain");
    verifyCryptographicSignature signatureData signature publicKey;
    performSecurityChecks signatureData ].

(** A sequence of calls with the same arguments, one environment each. *)
Fixpoint replay (this : t) (envs : list Env)
    (signatureData signature publicKey : jsval) : t * list Verdict :=
  match envs with
  | [] => (this, [])
  | env :: rest =>
      let '(this', v) := verifySignature this env signatureData signature publicKey in
      let '(this'', vs) := replay this' rest signatureData signature publicKey in
      (this'', v :: vs)
  end.

End WithLibraries.

(** The error of the first failing check of a list, if any. *)
Fixpoint first_failure (checks : list Validation) : option string :=
  match checks with
  | [] => None
  | Fail error :: _ => Some error
  | Ok :: rest => first_failure rest
  end.

(** Whether the store holds an entry for the nonce. *)
Definition recorded (this : t) (nonce : string) : Prop :=
  match redis this with
  | Some r => is_Some (r !! ("nonce:" +:+ nonce))
  | None => is_Some (nonceCache this !! nonce)
  end.

Definition is_valid (v : Verdict) : bool :=
  match v with Valid _ => true | Invalid _ => false end.

(** The store still answers for a nonce written under [env1] when it is
    read under [env2]: Redis resolves the read before the key expires; the
    in-process cache keeps the entry. *)
Definition retained (this : t) (env1 env2 : Env) : Prop :=
  match redis this with
  | Some _ => get_ok env2 = true /\ t_read env2 < t_write env1 + 24 * 60 * 60 * 1000
  | None => True
  end.

(** The verdict of a repeated call on a record whose nonce is recorded. *)
Definition replay_verdict (signatureData : jsval) (env : Env) : Verdict :=
  match validateTimestamp (t_check env) signatureData with
  | Fail error => Invalid error
  | Ok => Invalid "Nonce has already been used (replay attack detected)"
  end.

End SignatureService.

(** ** A concrete instance of the libraries

    A base-58 decoder over the Bitcoin alphabet, and a signature oracle that
    accepts exactly the messages of a given list: it stands for "these
    messages were signed by the holder of the key". *)
Module Reference.

Definition ALPHABET : string :=
  "123456789ABCDEFGHJKLMNPQRSTUVWXYZabcdefghijkmnopqrstuvwxyz".

Fixpoint index_of (c : ascii) (s : string) (i : Z) : option Z :=
  match s with
  | EmptyString => None
  | String d s' => if Ascii.eqb c d then Some i else index_of c s' (i + 1)
  end.

Fixpoint b58_value (s : string) (acc : Z) : option Z :=
  match s with
  | EmptyString => Some acc
  | String c s' =>
      match index_of c ALPHABET 0 with
      | Some d => b58_value s' (acc * 58 + d)
      | None => None
      end
  end.

Fixpoint leading_ones (s : string) : nat :=
  match s with
  | String "1" s' => S (leading_ones s')
  | _ => O
  end.

Fixpoint be_bytes (fuel : nat) (n : Z) (acc : list Byte.byte) : list Byte.byte :=
  match fuel with
  | O => acc
  | S fuel' =>
      if (n =? 0) then acc
      else be_bytes fuel' (n / 256)
             (default Byte.x00 (Byte.of_N (Z.to_N (n mod 256))) :: acc)
  end.

Definition decode (s : string) : outcome (list Byte.byte) :=
  match b58_value s 0 with
  | None => Throw "Non-base58 character"
  | Some n => Return (app (repeat Byte.x00 (leading_ones s)) (be_bytes (String.length s) n []))
  end.

Definition bytes_eqb (a b : list Byte.byte) : bool :=
  String.eqb (string_of_list_byte a) (string_of_list_byte b).

Definition libraries (signed : list (list Byte.byte)) : Libraries :=
  {| bs58_decode := decode;
     nacl_verify := fun message _ _ => existsb (bytes_eqb message) signed |}.

(** The matching encoder, [bs58.encode]. *)
Fixpoint leading_zeros (l : list Byte.byte) : nat :=
  match l with
  | Byte.x00 :: l' => S (leading_zeros l')
  | _ => O
  end.

Definition be_value (l : list Byte.byte) : Z :=
  fold_left (fun acc b => acc * 256 + Z.of_N (Byte.to_N b)) l 0.

Definition alphabet_char (d : Z) : ascii :=
  match String.get (Z.to_nat d) ALPHABET with
  | Some c => c
  | None => "1"%char
  end.

Fixpoint b58_digits (fuel : nat) (n : Z) (acc : string) : string :=
  match fuel with
  | O => acc
  | S fuel' =>
      if (n =? 0) then acc
      else b58_digits fuel' (n / 58) (String (alphabet_char (n mod 58)) acc)
  end.

Definition encode (l : list Byte.byte) : string :=
  String.append (string_of_list_ascii (repeat "1"%char (leading_zeros l)))
    (b58_digits (2 * length l) (be_value l) EmptyString).

End Reference.

(** ** [NonceManager] *)

Module NonceManager.

Record t := {
  redis : option Redis.store;
  localCache : gmap string (string * Z)   (* nonce -> (nonceData, expiresAt) *)
}.

Definition NONCE_EXPIRY_HOURS : Z := 24.

Definition isValidNonceFormat (nonce : jsval) : bool :=
  if negb (truthy nonce) || negb (is_string nonce) then false
  else if negb (SignatureService.base64UrlRegex (to_string nonce)) then false
  else if negb (String.length (to_string nonce) =? 43)%nat then false
  else true.

(** [exists]: every exception, the one of an invalid format included, is
    caught and answered by [false]. *)
Definition exists_ (this : t) (env : Env) (nonce : jsval) : bool :=
  if negb (isValidNonceFormat nonce) then false
  else
    match redis this with
    | Some r =>
        if get_ok env
        then (Redis.exists_ r (t_read env) ("nonce:" +:+ to_string nonce) =? 1)
        else false   (* assume nonce doesn't exist to avoid blocking valid requests *)
    | None => bool_decide (is_Some (localCache this !! to_string nonce))
    end.

(** [store]; [nonceData] is the JSON text of [{ usedAt, metadata }]. *)
Definition store (this : t) (env : Env) (nonce : jsval) (nonceData : string)
    : outcome t :=
  if negb (isValidNonceFormat nonce)
  then Throw "Failed to store nonce - cannot prevent replay attacks"
  else
    match redis this with
    | Some r =>
        if setEx_ok env
        then Return {| redis := Some (Redis.setEx r (t_write env)
                                        ("nonce:" +:+ to_string nonce)
                                        (NONCE_EXPIRY_HOURS * 60 * 60) nonceData);
                       localCache := localCache this |}
        else Throw "Failed to store nonce - cannot prevent replay attacks"
    | None =>
        Return {| redis := None;
                  localCache :=
                    <[ to_string nonce :=
                         (nonceData, t_write env + NONCE_EXPIRY_HOURS * 60 * 60 * 1000) ]>
                      (localCache this) |}
    end.

(** The object returned by [validateAndConsume]. *)
Inductive ConsumeResult :=
  | Success (message : string)
  | Failure (error : string) (replayAttempt : bool).

Definition validateAndConsume (this : t) (env : Env) (nonce : jsval)
    (nonceData : string) : t * ConsumeResult :=
  if negb (isValidNonceFormat nonce)
  then (this, Failure "Invalid nonce format" false)
  else if exists_ this env nonce
  then (this, Failure "Nonce has already been used (replay attack detected)" true)
  else
    match store this env nonce nonceData with
    | Throw message => (this, Failure ("Nonce validation failed: " +:+ message) false)
    | Return this' => (this', Success "Nonce validated and consumed successfully")
    end.

(** [generateNonce]; the 32 random bytes are an argument. *)
Definition generateNonce (randomBytes : list Byte.byte) : string :=
  remove_chars (fun x => Ascii.eqb x "=")
    (replace_char "/" "_" (replace_char "+" "-" (Base64.encode randomBytes))).

(** What [getNonceInfo] returns: [null], the value parsed from the Redis
    entry, or the entry of the local cache. *)
Inductive NonceInfo :=
  | NoInfo
  | ParsedInfo (data : jsval)
  | CachedInfo (nonceData : string) (expiresAt : Z).

(** [getNonceInfo]; [JSON_parse] is the built-in [JSON.parse], which throws
    on a text that is not JSON.  The local cache is keyed by strings. *)
Definition getNonceInfo (JSON_parse : string -> outcome jsval)
    (this : t) (env : Env) (nonce : jsval) : NonceInfo :=
  match redis this with
  | Some r =>
      if get_ok env
      then match Redis.get r (t_read env) ("nonce:" +:+ to_string nonce) with
           | Some data =>
               if String.eqb data EmptyString then NoInfo
               else match JSON_parse data with
                    | Return v => ParsedInfo v
                    | Throw _ => NoInfo
                    end
           | None => NoInfo
           end
      else NoInfo
  | None =>
      match nonce with
      | JStr key =>
          match localCache this !! key with
          | Some (nonceData, expiresAt) =>
              if (t_read env <? expiresAt) then CachedInfo nonceData expiresAt
              else NoInfo
          | None => NoInfo
          end
      | _ => NoInfo
      end
  end.

(** [cleanupExpiredNonces] at the instant [now]. *)
Definition cleanupExpiredNonces (this : t) (now : Z) : t :=
  match redis this with
  | Some _ => this
  | None =>
      {| redis := None;
         localCache :=
           filter (fun '(_, (_, expiresAt)) => ¬ (expiresAt <> 0 /\ expiresAt < now))
                  (localCache this) |}
  end.

End NonceManager.

(** ** Concurrent calls

    An [async] function runs without interruption up to an [await]; the
    event loop then resumes any suspended call.  A pool of calls is run
    under a schedule, the list of the indices of the calls to resume. *)
Module Concurrent.

Section Pool.

Context {State Call : Type}.
Variable resume : State -> Call -> State * Call.

Fixpoint run (st : State) (pool : list Call) (schedule : list nat)
    : State * list Call :=
  match schedule with
  | [] => (st, pool)
  | k :: rest =>
      match pool !! k with
      | Some c =>
          let '(st', c') := resume st c in
          run st' (<[ k := c' ]> pool) rest
      | None => run st pool rest
      end
  end.

End Pool.

(** A call of [verifySignature]: not yet started, suspended at the [await]
    of the nonce check (which found the nonce unused), or returned. *)
Inductive VerifyCall :=
  | Started (env : Env) (signatureData signature publicKey : jsval)
  | NonceChecked (env : Env) (signatureData signature publicKey : jsval)
  | Settled (v : Verdict).

Definition resumeVerify (lib : Libraries) (this : SignatureService.t)
    (c : VerifyCall) : SignatureService.t * VerifyCall :=
  match c with
  | Started env sd sig pk =>
      match SignatureService.stepsUntilNonce this env sd sig pk with
      | Fail error => (this, Settled (Invalid error))
      | Ok => (this, NonceChecked env sd sig pk)
      end
  | NonceChecked env sd sig pk =>
      let '(this', v) := SignatureService.stepsAfterNonce lib this env sd sig pk in
      (this', Settled v)
  | Settled v => (this, Settled v)
  end.

Definition verdict_of (c : VerifyCall) : option Verdict :=
  match c with Settled v => Some v | _ => None end.

Definition settled_valid (c : VerifyCall) : bool :=
  match c with Settled (Valid _) => true | _ => false end.

(** A call of [NonceManager.validateAndConsume]: not yet started, suspended
    at [await this.exists(nonce)] (which answered [false]), or returned. *)
Inductive ConsumeCall :=
  | CStarted (env : Env) (nonce : jsval) (nonceData : string)
  | CChecked (env : Env) (nonce : jsval) (nonceData : string)
  | CSettled (r : NonceManager.ConsumeResult).

Definition resumeConsume (this : NonceManager.t) (c : ConsumeCall)
    : NonceManager.t * ConsumeCall :=
  match c with
  | CStarted env nonce nonceData =>
      if negb (NonceManager.isValidNonceFormat nonce)
      then (this, CSettled (NonceManager.Failure "Invalid nonce format" false))
      else if NonceManager.exists_ this env nonce
      then (this, CSettled (NonceManager.Failure
                    "Nonce has already been used (replay attack detected)" true))
      else (this, CChecked env nonce nonceData)
  | CChecked env nonce nonceData =>
      match NonceManager.store this env nonce nonceData with
      | Throw message =>
          (this, CSettled (NonceManager.Failure
                    ("Nonce validation failed: " +:+ message) false))
      | Return this' =>
          (this', CSettled (NonceManager.Success
                    "Nonce validated and consumed successfully"))
      end
  | CSettled r => (this, CSettled r)
  end.

Definition consumed (c : ConsumeCall) : bool :=
  match c with CSettled (NonceManager.Success _) => true | _ => false end.

(** Every call is started, then every call is resumed. *)
Definition round_robin (n : nat) : list nat := app (seq 0 n) (seq 0 n).

End Concurrent.

(** ** [SecurityUtils]: the functions that use the libraries *)

(** The signer's side of the libraries: [bs58.encode] and
    [nacl.sign.detached]. *)
Record SignerLibraries := {
  bs58_encode : list Byte.byte -> string;
  nacl_sign : list Byte.byte -> list Byte.byte -> list Byte.byte
}.

(** [nacl.sign.detached.verify], which refuses arrays of another size than
    64 (signature) and 32 (public key) by an exception. *)
Definition nacl_detached_verify (lib : Libraries)
    (message signature publicKey : list Byte.byte) : outcome bool :=
  if negb (length signature =? 64)%nat then Throw "bad signature size"
  else if negb (length publicKey =? 32)%nat then Throw "bad public key size"
  else Return (nacl_verify lib message signature publicKey).

(** Whether reading a property of [v] throws a [TypeError]. *)
Definition nullish (v : jsval) : bool :=
  match v with JUndefined | JNull => true | _ => false end.

Module SecurityUtilsCrypto.

Definition MAX_AMOUNT_SOL : number := of_Z 100.

Definition SUPPORTED_DOMAINS : list string :=
  ["localhost:3000"; "your-production-domain.com"].

Definition signTransferData (slib : SignerLibraries) (nonce : string) (now : Z)
    (host : string) (transferData : jsval) (privateKey : list Byte.byte)
    : jsval * string :=
  let signatureData := SecurityUtils.createSignatureData nonce now host transferData in
  let messageBytes := SecurityUtils.createMessageToSign signatureData in
  let signature := nacl_sign slib messageBytes privateKey in
  (signatureData, bs58_encode slib signature).

Section WithLibraries.

Variable lib : Libraries.

(** The message of the [TypeError] the engine throws when a property of
    [undefined] or [null] is read. *)
Variable typeErrorMessage : string.

Definition isValidSolanaAddress (address : jsval) : bool :=
  match bs58_decode_val lib address with
  | Return decoded => (length decoded =? 32)%nat
  | Throw _ => false
  end.

Definition performSecurityChecks (signatureData : jsval) : Validation :=
  if strict_eq (get signatureData "token") (JStr "SOL")
     && num_gtb (parseFloat (get signatureData "amount")) MAX_AMOUNT_SOL
  then Fail ("Amount exceeds maximum limit of " +:+ num_to_string MAX_AMOUNT_SOL +:+ " SOL")
  else if negb (isValidSolanaAddress (get signatureData "source"))
          || negb (isValidSolanaAddress (get signatureData "destination"))
  then Fail "Invalid wallet address format"
  else if strict_eq (get signatureData "source") (get signatureData "destination")
  then Fail "Cannot transfer to same wallet"
  else
    let amount := parseFloat (get signatureData "amount") in
    if isNaN amount || num_leb amount (of_Z 0)
    then Fail "Invalid transfer amount"
    else
      let slippage := parseFloat (get signatureData "maxSlippage") in
      if isNaN slippage || num_ltb slippage (of_Z 0) || num_gtb slippage (Dec 1 1)
      then Fail "Invalid slippage value (must be between 0 and 10%)"
      else Ok.

(** The signer-side [verifySignature] at the instant [now]. *)
Definition verifySignature (now : Z) (signatureData signature publicKey : jsval)
    : Verdict :=
  if nullish signatureData
  then Invalid ("Signature verification failed: " +:+ typeErrorMessage)
  else if num_ltb (of_Z now) (to_number (get signatureData "timestamp"))
          || num_gtb (of_Z now) (to_number (get signatureData "expiry"))
  then Invalid "Signature expired or timestamp invalid"
  else if negb (is_string (get signatureData "domain")
                && bool_decide (to_string (get signatureData "domain") ∈ SUPPORTED_DOMAINS))
  then Invalid "Invalid domain"
  else
    let messageBytes := SecurityUtils.createMessageToSign signatureData in
    match bs58_decode_val lib signature with
    | Throw message => Invalid ("Signature verification failed: " +:+ message)
    | Return signatureBytes =>
        match bs58_decode_val lib publicKey with
        | Throw message => Invalid ("Signature verification failed: " +:+ message)
        | Return publicKeyBytes =>
            match nacl_detached_verify lib messageBytes signatureBytes publicKeyBytes with
            | Throw message => Invalid ("Signature verification failed: " +:+ message)
            | Return false => Invalid "Invalid cryptographic signature"
            | Return true =>
                match performSecurityChecks signatureData with
                | Fail error => Invalid error
                | Ok => Valid signatureData
                end
            end
        end
    end.

End WithLibraries.

End SecurityUtilsCrypto.

(** ** [DeepLinkGenerator] *)

Module DeepLinkGenerator.

Definition supportedTokens : list string := ["SOL"; "USDC"; "USDT"].

(** A destructuring default: [{ k = d } = o]. *)
Definition get_default (o : jsval) (k : string) (d : jsval) : jsval :=
  match get o k with
  | JUndefined => d
  | v => v
  end.

(** [validateTransferData]; destructuring [undefined] or [null] throws. *)
Definition validateTransferData (lib : Libraries) (typeErrorMessage : string)
    (transferData : jsval) : outcome Validation :=
  if nullish transferData then Throw typeErrorMessage
  else
    let destination := get transferData "destination" in
    let amount := get transferData "amount" in
    let token := get_default transferData "token" (JStr "SOL") in
    let memo := get_default transferData "memo" (JStr EmptyString) in
    Return (
      if negb (truthy destination) || negb (truthy amount)
      then Fail "Destination address and amount are required"
      else if negb (SecurityUtilsCrypto.isValidSolanaAddress lib destination)
      then Fail "Invalid destination wallet address"
      else
        let numericAmount := parseFloat amount in
        if isNaN numericAmount || num_leb numericAmount (of_Z 0)
        then Fail "Amount must be a positive number"
        else if strict_eq token (JStr "SOL")
                && num_gtb numericAmount SecurityUtilsCrypto.MAX_AMOUNT_SOL
        then Fail ("Amount cannot exceed "
                   +:+ num_to_string SecurityUtilsCrypto.MAX_AMOUNT_SOL +:+ " SOL")
        else if truthy memo && num_gtb (to_number (length_of memo)) (of_Z 200)
        then Fail "Memo cannot exceed 200 characters"
        else if negb (is_string token
                      && bool_decide (to_string token ∈ supportedTokens))
        then Fail ("Unsupported token: " +:+ to_string token)
        else Ok).

(** [{ ...transferData, source: publicKey }] *)
Definition completeTransferData (ref : nat) (transferData publicKey : jsval) : jsval :=
  match transferData with
  | JObj _ fields => JObj ref (<[ "source" := publicKey ]> fields)
  | _ => JObj ref {[ "source" := publicKey ]}
  end.

(** [signTransferData]: the record is built twice, before and after the
    wallet signs, each time with a fresh nonce and clock reading. *)
Definition signTransferData (signMessage : list Byte.byte -> outcome jsval)
    (nonce1 : string) (now1 : Z) (nonce2 : string) (now2 : Z)
    (host : string) (transferData : jsval) : outcome (jsval * jsval) :=
  let message := SecurityUtils.createMessageToSign
                   (SecurityUtils.createSignatureData nonce1 now1 host transferData) in
  match signMessage message with
  | Throw m => Throw ("Failed to sign transfer data: " +:+ m)
  | Return signature =>
      let signatureData :=
        SecurityUtils.createSignatureData nonce2 now2 host transferData in
      Return (signatureData, signature)
  end.

End DeepLinkGenerator.

(** ** The verification routes

    The router holds one [SignatureService] and one [NonceManager]; the two
    share the Redis server when they are connected to it, and each has its
    own fallback cache. *)
Module VerificationRoutes.

Record t := {
  redisServer : Redis.store;
  signatureConnected : bool;     (* signatureService.redis is not null *)
  managerConnected : bool;       (* nonceManager.redis is not null *)
  domains : list string;
  nonceCache : gmap string Z;
  localCache : gmap string (string * Z)
}.

Definition signatureService (st : t) : SignatureService.t :=
  {| SignatureService.SUPPORTED_DOMAINS := domains st;
     SignatureService.redis :=
       if signatureConnected st then Some (redisServer st) else None;
     SignatureService.nonceCache := nonceCache st |}.

Definition nonceManager (st : t) : NonceManager.t :=
  {| NonceManager.redis :=
       if managerConnected st then Some (redisServer st) else None;
     NonceManager.localCache := localCache st |}.

(** The router after a call that left the signature service as [svc]. *)
Definition with_signatureService (st : t) (svc : SignatureService.t) : t :=
  {| redisServer := match SignatureService.redis svc with
                    | Some r => r
                    | None => redisServer st
                    end;
     signatureConnected := signatureConnected st;
     managerConnected := managerConnected st;
     domains := domains st;
     nonceCache := SignatureService.nonceCache svc;
     localCache := localCache st |}.

(** The JSON answer: status, [success], [error] and [code]. *)
Record Response := {
  status : Z;
  success : bool;
  error : option string;
  code : option string
}.

(** [crypto.createHash('sha256').update(data)] throws unless [data] is a
    string (or a buffer, which a JSON body cannot hold). *)
Definition hashForAudit_throws (data : jsval) : bool := negb (is_string data).

Definition serviceError : Response :=
  {| status := 500; success := false;
     error := Some "Verification service error"; code := Some "SERVICE_ERROR" |}.

(** [POST /verify-signature]; [validationPassed] is the outcome of the
    express-validator chain, the three arguments are the fields of the body.
    The audit logger catches its own errors. *)
Definition verifySignatureRoute (lib : Libraries) (st : t) (env : Env)
    (validationPassed : bool) (signatureData signature publicKey : jsval)
    : t * Response :=
  if negb validationPassed
  then (st, {| status := 400; success := false;
               error := Some "Validation failed"; code := None |})
  else if nullish signatureData then (st, serviceError)
  else if negb (strict_eq (get signatureData "source") publicKey)
  then (st, {| status := 400; success := false;
               error := Some "Public key does not match source address";
               code := None |})
  else
    let '(svc, verificationResult) :=
      SignatureService.verifySignature lib (signatureService st) env
        signatureData signature publicKey in
    let st' := with_signatureService st svc in
    if hashForAudit_throws (get signatureData "source")
       || hashForAudit_throws (get signatureData "destination")
    then (st', serviceError)
    else
      match verificationResult with
      | Invalid e =>
          (st', {| status := 400; success := false;
                   error := Some e; code := Some "VERIFICATION_FAILED" |})
      | Valid _ =>
          (st', {| status := 200; success := true; error := None; code := None |})
      end.

(** An entry of the answer of [POST /batch-verify]. *)
Record BatchResult := {
  index : nat;
  item_success : bool;
  item_error : option string
}.

(** The loop of [POST /batch-verify] from the index [i] on; an item is a
    non-null object, given by its three fields and the environment of its
    call. *)
Fixpoint batchLoop (lib : Libraries) (typeErrorMessage : string)
    (svc : SignatureService.t) (i : nat)
    (verifications : list (Env * jsval * jsval * jsval))
    : SignatureService.t * list BatchResult :=
  match verifications with
  | [] => (svc, [])
  | (env, signatureData, signature, publicKey) :: rest =>
      let '(svc', result) :=
        SignatureService.verifySignature lib svc env signatureData signature publicKey in
      let entry :=
        if nullish signatureData
        then {| index := i; item_success := false;
                item_error := Some typeErrorMessage |}
        else match result with
             | Valid _ => {| index := i; item_success := true; item_error := None |}
             | Invalid e => {| index := i; item_success := false; item_error := Some e |}
             end in
      let '(svc'', results) := batchLoop lib typeErrorMessage svc' (S i) rest in
      (svc'', entry :: results)
  end.

(** The summary of the batch answer: total, successful, failed. *)
Definition summary (total : nat) (results : list BatchResult) : nat * nat * nat :=
  (total,
   length (filter (fun r => item_success r = true) results),
   length (filter (fun r => item_success r = false) results)).

Definition batchVerifyRoute (lib : Libraries) (typeErrorMessage : string) (st : t)
    (verifications : list (Env * jsval * jsval * jsval))
    : t * list BatchResult * (nat * nat * nat) :=
  let '(svc, results) :=
    batchLoop lib typeErrorMessage (signatureService st) 0 verifications in
  (with_signatureService st svc, results, summary (length verifications) results).

(** The answer of [GET /nonce/:nonce]. *)
Inductive NonceStatus :=
  | BadNonce                                        (* 400 Invalid nonce format *)
  | Status (exists_ : bool) (info : NonceManager.NonceInfo).   (* 200 *)

Definition nonceStatusRoute (JSON_parse : string -> outcome jsval) (st : t)
    (env : Env) (nonce : string) : NonceStatus :=
  if negb (NonceManager.isValidNonceFormat (JStr nonce)) then BadNonce
  else
    let exists_ := NonceManager.exists_ (nonceManager st) env (JStr nonce) in
    let info := if exists_
                then NonceManager.getNonceInfo JSON_parse (nonceManager st) env
                       (JStr nonce)
                else NonceManager.NoInfo in
    Status exists_ info.

End VerificationRoutes.

(** ** Sample records *)

Module Demo.

Definition T0 : Z := 1700000000000.

Definition NONCE : string := "q83vEjRWeJCrze8SNFZ4kKvN7xI0VniQq83vEjRWeJA".

Definition record : jsval :=
  JObj 1%nat (list_to_map
    [ ("nonce", JStr NONCE);
      ("timestamp", JNum (of_Z T0));
      ("expiry", JNum (of_Z (T0 + 15 * 60 * 1000)));
      ("domain", JStr "localhost:3000");
      ("version", JStr "1.0");
      ("source", JStr "11111111111111111111111111111111");
      ("destination", JStr "11111111111111111111111111111112");
      ("amount", JStr "1.5");
      ("token", JStr "SOL");
      ("memo", JStr "Test transfer");
      ("maxSlippage", JNum (Dec 1 2)) ]).

Definition signature : jsval :=
  JStr "1111111111111111111111111111111111111111111111111111111111111111".

Definition publicKey : jsval := JStr "11111111111111111111111111111111".

(** [{ ...o, [k]: v }] and the object [o] without its property [k]. *)
Definition with_field (o : jsval) (k : string) (v : jsval) : jsval :=
  match o with
  | JObj ref fields => JObj ref (<[ k := v ]> fields)
  | _ => o
  end.

Definition without_field (o : jsval) (k : string) : jsval :=
  match o with
  | JObj ref fields => JObj ref (delete k fields)
  | _ => o
  end.

(** The libraries in which the holder of the key has signed [r]. *)
Definition lib_signing (r : jsval) : Libraries :=
  Reference.libraries [SignatureService.createMessageToSign r].

Definition lib : Libraries := lib_signing record.

(** An environment in which every clock reads [now] and Redis answers. *)
Definition env_at (now : Z) : Env :=
  {| t_check := now; get_ok := true; t_read := now;
     setEx_ok := true; t_write := now; t_clean := now |}.

Definition service_memory : SignatureService.t :=
  {| SignatureService.SUPPORTED_DOMAINS := ["localhost:3000"];
     SignatureService.redis := None;
     SignatureService.nonceCache := ∅ |}.

Definition service_redis : SignatureService.t :=
  {| SignatureService.SUPPORTED_DOMAINS := ["localhost:3000"];
     SignatureService.redis := Some ∅;
     SignatureService.nonceCache := ∅ |}.

Definition manager_redis : NonceManager.t :=
  {| NonceManager.redis := Some ∅; NonceManager.localCache := ∅ |}.

(** A record that names no version, token, memo or slippage. *)
Definition record_bare : jsval :=
  without_field (without_field (without_field (without_field record
    "version") "token") "memo") "maxSlippage".

Definition record_no_version : jsval := without_field record "version".

Definition record_no_memo : jsval := without_field record "memo".

Definition record_empty_memo : jsval := with_field record "memo" (JStr EmptyString).

Definition record_zero_slippage : jsval :=
  with_field record "maxSlippage" (JNum (of_Z 0)).

Definition record_evil_domain : jsval :=
  with_field record "domain" (JStr "evil.example").

Definition record_v2 : jsval := with_field record "version" (JStr "2.0").

(** A record created five minutes ahead of the verifier's clock, with the
    longest window allowed. *)
Definition record_long : jsval :=
  with_field (with_field record "timestamp" (JNum (of_Z (T0 + 5 * 60 * 1000))))
    "expiry" (JNum (of_Z (T0 + 5 * 60 * 1000 + 24 * 60 * 60 * 1000))).

(** The libraries in which nothing has been signed. *)
Definition lib_unsigned : Libraries := Reference.libraries [].

(** The libraries in which the signer has signed its own encoding of [r]. *)
Definition lib_signer (r : jsval) : Libraries :=
  Reference.libraries [SecurityUtils.createMessageToSign r].

(** A Redis server that already holds the nonce of [record]. *)
Definition service_redis_used : SignatureService.t :=
  {| SignatureService.SUPPORTED_DOMAINS := ["localhost:3000"];
     SignatureService.redis :=
       Some {[ "nonce:" +:+ NONCE := ("used", T0 + 24 * 60 * 60 * 1000) ]};
     SignatureService.nonceCache := ∅ |}.

(** Redis rejects the read and accepts the write. *)
Definition env_read_fails (now : Z) : Env :=
  {| t_check := now; get_ok := false; t_read := now;
     setEx_ok := true; t_write := now; t_clean := now |}.

Definition env_write_fails (now : Z) : Env :=
  {| t_check := now; get_ok := true; t_read := now;
     setEx_ok := false; t_write := now; t_clean := now |}.

End Demo.

(** ** Auxiliary notions for the proofs *)

(** A string that begins with a decimal digit which is not the [0] of a
    hexadecimal prefix. *)
Definition plain_digits (s : string) : Prop :=
  skip_spaces s = s /\ take_sign s = (false, s) /\ strip_hex_prefix s = None.

Definition digit_or_end (s : string) : Prop :=
  match s with
  | EmptyString => True
  | String c _ => exists d, (d < 10)%N /\ c = pretty_N_char d
  end.

(** ** More sample values *)

Module Samples.

(** The sample record without token and with an amount of 1000. *)
Definition record_no_token_big : jsval :=
  Demo.with_field (Demo.without_field Demo.record "token") "amount" (JStr "1000").

(** A second nonce of the format. *)
Definition NONCE2 : string := "AAAAAAAAAAAAAAAAAAAAAAAAAAAAAAAAAAAAAAAAAAA".

(** The fallback cache holding [NONCE2] since two days before [T0]. *)
Definition service_memory_old : SignatureService.t :=
  {| SignatureService.SUPPORTED_DOMAINS := ["localhost:3000"];
     SignatureService.redis := None;
     SignatureService.nonceCache := {[ NONCE2 := Demo.T0 - 2 * 24 * 60 * 60 * 1000 ]} |}.

(** A nonce manager without Redis whose cache holds [NONCE2], expired one
    hour before [T0]. *)
Definition manager_local_expired : NonceManager.t :=
  {| NonceManager.redis := None;
     NonceManager.localCache :=
       {[ NONCE2 := ("{}", Demo.T0 - 60 * 60 * 1000) ]} |}.

Definition manager_local : NonceManager.t :=
  {| NonceManager.redis := None; NonceManager.localCache := ∅ |}.

(** [JSON.parse] as far as the samples need it: the text of the empty object
    is read, anything else is refused. *)
Definition JSON_parse (text : string) : outcome jsval :=
  if String.eqb text "{}" then Return (JObj 9%nat ∅)
  else Throw "Unexpected token".


(** The transfer a user enters: a destination and an amount. *)
Definition transfer : jsval :=
  JObj 2%nat (list_to_map
    [ ("destination", JStr "11111111111111111111111111111112");
      ("amount", JStr "1.5") ]).

Definition wallet : string := "11111111111111111111111111111111".

(** A signer whose signatures are 64 bytes of value 1, with the encoder
    that matches the decoder of [Reference]. *)
Definition signer : SignerLibraries :=
  {| bs58_encode := Reference.encode;
     nacl_sign := fun _ _ => repeat Byte.x01 64 |}.

(** The record and the signature the signer produces for [transfer] at
    [T0], with the nonce drawn from 32 bytes of value 255, and the libraries
    in which that signature verifies for the message signed. *)
Definition signed_transfer : jsval * string :=
  SecurityUtilsCrypto.signTransferData signer
    (SecurityUtils.generateNonce (repeat Byte.xff 32)) Demo.T0 "localhost:3000"
    (DeepLinkGenerator.completeTransferData 3%nat transfer (JStr wallet)) [].

Definition lib_signed_transfer : Libraries :=
  Reference.libraries [SecurityUtils.createMessageToSign (fst signed_transfer)].

(** A wallet that signs whatever message it is given with [signer]. *)
Definition signMessage (message : list Byte.byte) : outcome jsval :=
  Return (JStr (bs58_encode signer (nacl_sign signer message []))).

(** The completed transfer, and the libraries in which the wallet's
    signature verifies for the one message built from the first nonce. *)
Definition complete_transfer : jsval :=
  DeepLinkGenerator.completeTransferData 3%nat transfer (JStr wallet).

Definition lib_first_nonce : Libraries :=
  Reference.libraries
    [SecurityUtils.createMessageToSign
       (SecurityUtils.createSignatureData Demo.NONCE Demo.T0 "localhost:3000"
          complete_transfer)].

(** A third address, and the sample record presented under it: the
    signature oracle of [Demo.lib] answers for the message, whatever the
    key. *)
Definition other_wallet : jsval := JStr "11111111111111111111111111111113".

(** The router with both services on the Redis server, and with neither. *)
Definition router_redis : VerificationRoutes.t :=
  {| VerificationRoutes.redisServer := ∅;
     VerificationRoutes.signatureConnected := true;
     VerificationRoutes.managerConnected := true;
     VerificationRoutes.domains := ["localhost:3000"];
     VerificationRoutes.nonceCache := ∅;
     VerificationRoutes.localCache := ∅ |}.

Definition router_memory : VerificationRoutes.t :=
  {| VerificationRoutes.redisServer := ∅;
     VerificationRoutes.signatureConnected := false;
     VerificationRoutes.managerConnected := false;
     VerificationRoutes.domains := ["localhost:3000"];
     VerificationRoutes.nonceCache := ∅;
     VerificationRoutes.localCache := ∅ |}.
(** The sample record with an expiry that [parseInt] does not read: a text
    without digits, and a text that starts with the decimal point. *)
Definition record_expiry_text : jsval :=
  Demo.with_field Demo.record "expiry" (JStr "abc").

Definition record_expiry_point : jsval :=
  Demo.with_field Demo.record "expiry" (JStr ".5").

(** Ten years, in milliseconds. *)
Definition TEN_YEARS : Z := 10 * 365 * 24 * 60 * 60 * 1000.

End Samples.

(** ** Key pairs

    What the signer's libraries owe the verifier's for one message: the
    detached signature has 64 bytes, its base-58 text is not empty and
    decodes to it, and it verifies under the public key. *)
Definition honest_signature (lib : Libraries) (slib : SignerLibraries)
    (privateKey publicKeyBytes : list Byte.byte) (message : list Byte.byte) : Prop :=
  let signature := nacl_sign slib message privateKey in
  length signature = 64%nat
  /\ bs58_encode slib signature <> EmptyString
  /\ bs58_decode lib (bs58_encode slib signature) = Return signature
  /\ nacl_verify lib message signature publicKeyBytes = true.

(** ** [SecurityUtils.generateTrackingId] *)

Module TrackingId.

Definition hex_digit (d : Z) : ascii :=
  match String.get (Z.to_nat d) "0123456789abcdef" with
  | Some c => c
  | None => "0"%char
  end.

(** [byte.toString(16)] for a byte. *)
Definition toString16 (n : Z) : string :=
  if n <? 16 then String (hex_digit n) EmptyString
  else String (hex_digit (n / 16)) (String (hex_digit (n mod 16)) EmptyString).

(** [s.padStart(targetLength, c)] *)
Definition padStart (targetLength : nat) (c : ascii) (s : string) : string :=
  string_of_list_ascii (repeat c (targetLength - String.length s)) +:+ s.

(** [generateTrackingId]; the 16 random bytes are an argument. *)
Definition generateTrackingId (bytes : list Byte.byte) : string :=
  join EmptyString
    (map (fun byte => padStart 2 "0" (toString16 (Base64.byte_val byte))) bytes).

(** The bytes a tracking ID is made of, read back two digits at a time. *)
Fixpoint bytes_of (id : string) : list Byte.byte :=
  match id with
  | String a (String b rest) =>
      default Byte.x00
        (Byte.of_N (Z.to_N (16 * default 0 (hex_val a) + default 0 (hex_val b))))
      :: bytes_of rest
  | _ => []
  end.

End TrackingId.

(** ** The health probe of the verification routes *)

Module VerificationHealth.

(** [testData]; the three readings of the clock are arguments. *)
Definition testData (t1 t2 t3 : Z) : jsval :=
  JObj 0%nat (list_to_map
    [ ("nonce", JStr ("test_nonce_" +:+ num_to_string (of_Z t1)));
      ("timestamp", JNum (of_Z t2));
      ("expiry", JNum (of_Z (t3 + 60000)));
      ("domain", JStr "localhost");
      ("version", JStr "1.0");
      ("source", JStr "11111111111111111111111111111111");
      ("destination", JStr "22222222222222222222222222222222");
      ("amount", JStr "1");
      ("token", JStr "SOL");
      ("memo", JStr EmptyString);
      ("maxSlippage", JStr "0.01") ]).

(** [testSignatureService]: [verifySignature] catches every exception, so
    the [catch] of the probe is never entered; the result is the router
    after the call and the [healthy] flag. *)
Definition testSignatureService (lib : Libraries) (st : VerificationRoutes.t)
    (env : Env) (t1 t2 t3 : Z) : VerificationRoutes.t * bool :=
  let '(svc, _) :=
    SignatureService.verifySignature lib (VerificationRoutes.signatureService st) env
      (testData t1 t2 t3) (JStr "invalid_signature")
      (JStr "11111111111111111111111111111111") in
  (VerificationRoutes.with_signatureService st svc, true).

(** The status of [GET /health]. *)
Definition healthRoute (lib : Libraries) (st : VerificationRoutes.t)
    (env : Env) (t1 t2 t3 : Z) : VerificationRoutes.t * Z :=
  let '(st', healthy) := testSignatureService lib st env t1 t2 t3 in
  (st', if healthy then 200 else 503).

End VerificationHealth.

(** ** The canonical layout of the specification

    Eleven [key:value] entries in a fixed order, joined by one delimiter;
    the encoders of the source are compared with it below. *)
Module Canonical.

Definition FIELD_ORDER : list string :=
  [ "nonce"; "timestamp"; "expiry"; "domain"; "version"; "source";
    "destination"; "amount"; "token"; "memo"; "maxSlippage" ].

Definition layout (value : string -> string) : list Byte.byte :=
  utf8 (join DELIMITER (map (fun k => k +:+ ":" +:+ value k) FIELD_ORDER)).

(** The defaults the verifier substitutes for falsy optional fields. *)
Definition DEFAULTS (k : string) : option jsval :=
  if String.eqb k "version" then Some (JStr "1.0")
  else if String.eqb k "token" then Some (JStr "SOL")
  else if String.eqb k "memo" then Some (JStr EmptyString)
  else if String.eqb k "maxSlippage" then Some (JNum (Dec 1 2))
  else None.

Definition signer_value (signatureData : jsval) (k : string) : string :=
  to_string (get signatureData k).

Definition verifier_value (signatureData : jsval) (k : string) : string :=
  match DEFAULTS k with
  | Some d => to_string (or_else (get signatureData k) d)
  | None => to_string (get signatureData k)
  end.

(** The record in which every falsy optional field holds its default. *)
Definition with_defaults (signatureData : jsval) : jsval :=
  match signatureData with
  | JObj ref fields =>
      JObj ref
        (<[ "version" := or_else (get signatureData "version") (JStr "1.0") ]>
        (<[ "token" := or_else (get signatureData "token") (JStr "SOL") ]>
        (<[ "memo" := or_else (get signatureData "memo") (JStr EmptyString) ]>
        (<[ "maxSlippage" :=
              or_else (get signatureData "maxSlippage") (JNum (Dec 1 2)) ]> fields))))
  | _ => signatureData
  end.

(** A record whose optional fields need no default: each is truthy, or is
    the empty memo. *)
Definition populated (signatureData : jsval) : Prop :=
  truthy (get signatureData "version") = true
  /\ truthy (get signatureData "token") = true
  /\ (truthy (get signatureData "memo") = true
      \/ get signatureData "memo" = JStr EmptyString)
  /\ truthy (get signatureData "maxSlippage") = true.

(** Field-for-field equality of two records on the canonical fields. *)
Definition same_fields (a b : jsval) : Prop :=
  Forall (fun k => get a k = get b k) FIELD_ORDER.

End Canonical.

(** * Properties *)

Import SignatureService.

(** ** The shape of [verifySignature] *)

Section Shape.

Variable lib : Libraries.

Lemma verifySignature_first_failure this env sd sig pk :
  verifySignature lib this env sd sig pk =
    match first_failure (pipeline lib this env sd sig pk) with
    | Some error => (this, Invalid error)
    | None =>
        match consumeNonce this env (to_string (get sd "nonce")) with
        | Throw message =>
            (this, Invalid ("Signature verification failed: " +:+ message))
        | Return this' => (this', Valid sd)
        end
    end.
Proof.
  unfold verifySignature, pipeline; cbn [first_failure].
  destruct (validateInputs sd sig pk); [|reflexivity].
  destruct (validateTimestamp (t_check env) sd); [|reflexivity].
  destruct (validateNonce this env (get sd "nonce")); [|reflexivity].
  destruct (validateDomain this (get sd "domain")); [|reflexivity].
  destruct (verifyCryptographicSignature lib sd sig pk); [|reflexivity].
  destruct (performSecurityChecks lib sd); reflexivity.
Qed.

Lemma verifySignature_stages this env sd sig pk :
  verifySignature lib this env sd sig pk =
    match stepsUntilNonce this env sd sig pk with
    | Fail error => (this, Invalid error)
    | Ok => stepsAfterNonce lib this env sd sig pk
    end.
Proof.
  unfold verifySignature, stepsUntilNonce, stepsAfterNonce.
  destruct (validateInputs sd sig pk); [|reflexivity].
  destruct (validateTimestamp (t_check env) sd); [|reflexivity].
  destruct (validateNonce this env (get sd "nonce")); reflexivity.
Qed.

Lemma performSecurityChecks_rules sd :
  performSecurityChecks lib sd =
    match first_failure (businessRules lib sd) with
    | Some error => Fail error
    | None => Ok
    end.
Proof.
  unfold performSecurityChecks, businessRules; cbn [first_failure].
  repeat match goal with
         | |- context [if ?b then Fail _ else _] => destruct b; cbn [first_failure]
         end; reflexivity.
Qed.

(** An invalid verdict never comes with a changed service. *)
Lemma verifySignature_invalid_same this env sd sig pk this' error :
  verifySignature lib this env sd sig pk = (this', Invalid error) -> this' = this.
Proof.
  rewrite verifySignature_first_failure.
  destruct (first_failure _); [congruence|].
  destruct (consumeNonce _ _ _); congruence.
Qed.

End Shape.

(** ** Numbers *)

Lemma num_gtb_int (a b : Z) : num_gtb (Dec a 0) (Dec b 0) = (b <? a).
Proof.
  unfold num_gtb, num_cmp, pow10. change (10 ^ Z.of_nat 0) with 1.
  rewrite !Z.mul_1_r.
  destruct (Z.compare_spec a b); symmetry; [apply Z.ltb_ge|apply Z.ltb_ge|apply Z.ltb_lt]; lia.
Qed.

Lemma num_sub_int (a b : Z) : num_sub (Dec a 0) (Dec b 0) = Dec (a - b) 0.
Proof.
  unfold num_sub, pow10. change (10 ^ Z.of_nat 0) with 1.
  rewrite !Z.mul_1_r. reflexivity.
Qed.

Lemma strict_eq_string v s : strict_eq v (JStr s) = true <-> v = JStr s.
Proof.
  destruct v; simpl; try (split; [discriminate|discriminate]).
  rewrite String.eqb_eq. split; congruence.
Qed.

(** ** The time window *)

(** X22: when [parseInt] reads the timestamp and the expiry as the
    integers [t] and [e], the check accepts exactly when
    [t <= now + 5 min], [now <= e] and [e - t <= 24 h]; a timestamp further
    ahead is refused as too far in the future, a record past its expiry as
    expired, and a window over the maximum as too long. *)
Theorem validateTimestamp_window (now : Z) (sd : jsval) (t e : Z) :
  parseInt (get sd "timestamp") = of_Z t ->
  parseInt (get sd "expiry") = of_Z e ->
  (validateTimestamp now sd = Ok <->
     t <= now + 5 * 60 * 1000 /\ now <= e /\ e - t <= 24 * 60 * 60 * 1000)
  /\ (now + 5 * 60 * 1000 < t ->
      validateTimestamp now sd = Fail "Signature timestamp is too far in the future")
  /\ (t <= now + 5 * 60 * 1000 -> e < now ->
      validateTimestamp now sd = Fail "Signature has expired")
  /\ (t <= now + 5 * 60 * 1000 -> now <= e -> 24 * 60 * 60 * 1000 < e - t ->
      validateTimestamp now sd = Fail "Signature validity window is too long").
Proof.
  intros Ht He. unfold validateTimestamp. rewrite Ht, He. unfold of_Z.
  rewrite num_sub_int, !num_gtb_int.
  unfold maxClockSkew, maxValidityWindow.
  destruct (Z.ltb_spec (now + 5 * 60 * 1000) t);
    destruct (Z.ltb_spec e now);
    destruct (Z.ltb_spec (24 * 60 * 60 * 1000) (e - t));
    repeat split; intros; try lia; try reflexivity; try discriminate.
Qed.

(** At [now = expiry] the sample record is accepted, one millisecond later it
    is expired. *)
Lemma validateTimestamp_window_witness :
  validateTimestamp (Demo.T0 + 900000) Demo.record = Ok
  /\ validateTimestamp (Demo.T0 + 900001) Demo.record = Fail "Signature has expired".
Proof.
  split.
  - apply (validateTimestamp_window (Demo.T0 + 900000) Demo.record
             Demo.T0 (Demo.T0 + 900000)); [reflexivity|reflexivity|].
    unfold Demo.T0; lia.
  - apply (validateTimestamp_window (Demo.T0 + 900001) Demo.record
             Demo.T0 (Demo.T0 + 900000)); [reflexivity|reflexivity| |];
      unfold Demo.T0; lia.
Defined.

(** A timestamp or an expiry that [parseInt] does not read is NaN, every
    comparison with it is false, and the time check lets the record pass. *)
Lemma validateTimestamp_nan_passes now sd :
  parseInt (get sd "timestamp") = NaN ->
  parseInt (get sd "expiry") = NaN ->
  validateTimestamp now sd = Ok.
Proof. intros Ht He. unfold validateTimestamp. rewrite Ht, He. reflexivity. Qed.

(** Whatever [parseInt] is given, it returns an integer or NaN. *)
Lemma parseInt_reading (v : jsval) :
  parseInt v = NaN \/ exists z, parseInt v = of_Z z.
Proof.
  unfold parseInt, parseInt_str.
  destruct (take_sign (skip_spaces (to_string v))) as [neg s1].
  destruct (match strip_hex_prefix s1 with
            | Some s2 => take_digits hex_val 16 s2 0 0
            | None => take_digits digit_val 10 s1 0 0
            end) as [[v0 cnt] rest].
  destruct cnt; [left; reflexivity|right; eauto].
Qed.

(** An unreadable expiry alone is enough: the record is accepted from the
    moment its timestamp is no more than five minutes ahead. *)
Lemma validateTimestamp_unreadable_expiry now sd (t : Z) :
  parseInt (get sd "timestamp") = of_Z t ->
  parseInt (get sd "expiry") = NaN ->
  (validateTimestamp now sd = Ok <-> t <= now + 5 * 60 * 1000).
Proof.
  intros Ht He. unfold validateTimestamp. rewrite Ht, He. unfold of_Z.
  rewrite num_gtb_int. unfold maxClockSkew.
  destruct (Z.ltb_spec (now + 5 * 60 * 1000) t); simpl; split;
    intros; try lia; try reflexivity; try discriminate.
Qed.

(** C5: the sample record whose expiry is the text [abc] (or [.5]) never
    expires.  [parseInt] reads the expiry as NaN, both comparisons with it
    are false, and the time check accepts the record at every clock from
    five minutes before its timestamp on; ten years after its timestamp
    [verifySignature] still returns a valid verdict for it. *)
Theorem unreadable_expiry_never_expires :
  parseInt (get Samples.record_expiry_text "expiry") = NaN
  /\ parseInt (get Samples.record_expiry_point "expiry") = NaN
  /\ (forall now, Demo.T0 - 5 * 60 * 1000 <= now ->
        validateTimestamp now Samples.record_expiry_text = Ok
        /\ validateTimestamp now Samples.record_expiry_point = Ok)
  /\ snd (verifySignature (Demo.lib_signing Samples.record_expiry_text)
            Demo.service_redis (Demo.env_at (Demo.T0 + Samples.TEN_YEARS))
            Samples.record_expiry_text Demo.signature Demo.publicKey)
     = Valid Samples.record_expiry_text.
Proof.
  split; [reflexivity|]. split; [reflexivity|]. split.
  - intros now Hnow.
    split; apply (validateTimestamp_unreadable_expiry _ _ Demo.T0);
      try reflexivity; lia.
  - vm_compute. reflexivity.
Qed.

(** The window boundary on the sample record of the longest window. *)
Lemma validateTimestamp_longest_window :
  validateTimestamp Demo.T0 Demo.record_long = Ok
  /\ validateTimestamp Demo.T0
       (Demo.with_field Demo.record_long "expiry"
          (JNum (of_Z (Demo.T0 + 5 * 60 * 1000 + 24 * 60 * 60 * 1000 + 1))))
     = Fail "Signature validity window is too long".
Proof. split; vm_compute; reflexivity. Qed.

(** ** The canonical encoders *)

Lemma verifier_layout sd :
  SignatureService.createMessageToSign sd = Canonical.layout (Canonical.verifier_value sd).
Proof. reflexivity. Qed.

Lemma signer_layout sd :
  SecurityUtils.createMessageToSign sd = Canonical.layout (Canonical.signer_value sd).
Proof. reflexivity. Qed.

Lemma layout_ext (f g : string -> string) :
  Forall (fun k => f k = g k) Canonical.FIELD_ORDER ->
  Canonical.layout f = Canonical.layout g.
Proof.
  intros H. unfold Canonical.layout. do 2 f_equal.
  induction H as [|k ks Hk _ IH]; simpl; [reflexivity|].
  rewrite Hk, IH. reflexivity.
Qed.

(** C9: both encoders emit the eleven entries [key:value] in the order
    nonce, timestamp, expiry, domain, version, source, destination, amount,
    token, memo, maxSlippage, joined by the same delimiter, and two records
    that agree on these fields have the same encoding. *)
Theorem canonical_order_deterministic :
  length Canonical.FIELD_ORDER = 11%nat
  /\ (forall sd, SignatureService.createMessageToSign sd =
        utf8 (join DELIMITER
               (map (fun k => k +:+ ":" +:+ Canonical.verifier_value sd k)
                    Canonical.FIELD_ORDER)))
  /\ (forall sd, SecurityUtils.createMessageToSign sd =
        utf8 (join DELIMITER
               (map (fun k => k +:+ ":" +:+ to_string (get sd k))
                    Canonical.FIELD_ORDER)))
  /\ (forall a b, Canonical.same_fields a b ->
        SignatureService.createMessageToSign a = SignatureService.createMessageToSign b
        /\ SecurityUtils.createMessageToSign a = SecurityUtils.createMessageToSign b).
Proof.
  split; [reflexivity|]. split; [reflexivity|]. split; [reflexivity|].
  intros a b H. rewrite !verifier_layout, !signer_layout.
  split; apply layout_ext; unfold Canonical.same_fields in H;
    eapply Forall_impl; try exact H; simpl; intros k Hk;
    unfold Canonical.verifier_value, Canonical.signer_value; rewrite Hk; reflexivity.
Qed.

(** Two distinct objects (another reference, one more property) with the
    same canonical fields. *)
Lemma canonical_order_deterministic_witness :
  SignatureService.createMessageToSign (JObj 7%nat (<[ "extra" := JNull ]>
      (match Demo.record with JObj _ f => f | _ => ∅ end)))
    = SignatureService.createMessageToSign Demo.record
  /\ SecurityUtils.createMessageToSign (JObj 7%nat (<[ "extra" := JNull ]>
      (match Demo.record with JObj _ f => f | _ => ∅ end)))
    = SecurityUtils.createMessageToSign Demo.record.
Proof.
  apply canonical_order_deterministic.
  unfold Canonical.same_fields, Canonical.FIELD_ORDER.
  repeat constructor.
Defined.

(** The signature check reads the record through its encoding only. *)
Lemma crypto_depends_on_message lib a b sig pk :
  SignatureService.createMessageToSign a = SignatureService.createMessageToSign b ->
  verifyCryptographicSignature lib a sig pk = verifyCryptographicSignature lib b sig pk.
Proof. intros H. unfold verifyCryptographicSignature. rewrite H. reflexivity. Qed.

(** C10: the verifier's encoder is not injective on legal records.  The
    sample record with [maxSlippage = 0] and the one with [maxSlippage = 0.01]
    pass the business rules and have the same encoding, as have the record
    with an empty memo and the one without memo; a signature accepted for
    one record of such a pair is accepted for the other. *)
Theorem verifier_encoder_not_injective :
  (get Demo.record_zero_slippage "maxSlippage" = JNum (of_Z 0)
   /\ get Demo.record "maxSlippage" = JNum (Dec 1 2)
   /\ strict_eq (get Demo.record_zero_slippage "maxSlippage")
                (get Demo.record "maxSlippage") = false
   /\ (forall k, k <> "maxSlippage" ->
         get Demo.record_zero_slippage k = get Demo.record k)
   /\ performSecurityChecks Demo.lib Demo.record_zero_slippage = Ok
   /\ performSecurityChecks Demo.lib Demo.record = Ok
   /\ SignatureService.createMessageToSign Demo.record_zero_slippage
      = SignatureService.createMessageToSign Demo.record)
  /\ (get Demo.record_empty_memo "memo" = JStr EmptyString
      /\ get Demo.record_no_memo "memo" = JUndefined
      /\ (forall k, k <> "memo" ->
            get Demo.record_empty_memo k = get Demo.record_no_memo k)
      /\ SignatureService.createMessageToSign Demo.record_empty_memo
         = SignatureService.createMessageToSign Demo.record_no_memo)
  /\ (forall lib sig pk,
        verifyCryptographicSignature lib Demo.record_zero_slippage sig pk
        = verifyCryptographicSignature lib Demo.record sig pk
        /\ verifyCryptographicSignature lib Demo.record_empty_memo sig pk
           = verifyCryptographicSignature lib Demo.record_no_memo sig pk).
Proof.
  assert (H1 : SignatureService.createMessageToSign Demo.record_zero_slippage
               = SignatureService.createMessageToSign Demo.record)
    by (vm_compute; reflexivity).
  assert (H2 : SignatureService.createMessageToSign Demo.record_empty_memo
               = SignatureService.createMessageToSign Demo.record_no_memo)
    by (vm_compute; reflexivity).
  split; [|split].
  - repeat split; try exact H1; try (vm_compute; reflexivity).
    intros k Hk. unfold Demo.record_zero_slippage, Demo.record, Demo.with_field, get.
    rewrite lookup_insert_ne by congruence. reflexivity.
  - repeat split; try exact H2; try (vm_compute; reflexivity).
    intros k Hk.
    unfold Demo.record_empty_memo, Demo.record_no_memo, Demo.record,
      Demo.with_field, Demo.without_field, get.
    rewrite lookup_insert_ne, lookup_delete_ne by congruence. reflexivity.
  - intros lib sig pk. split; apply crypto_depends_on_message; assumption.
Qed.

(** A falsy slippage is encoded as the default, whatever the record. *)
Lemma falsy_slippage_collides (ref : nat) (fields : gmap string jsval) :
  truthy (get (JObj ref fields) "maxSlippage") = false ->
  SignatureService.createMessageToSign (JObj ref fields)
  = SignatureService.createMessageToSign
      (JObj ref (<[ "maxSlippage" := JNum (Dec 1 2) ]> fields)).
Proof.
  intros H. rewrite !verifier_layout. apply layout_ext.
  unfold Canonical.FIELD_ORDER.
  repeat constructor; unfold Canonical.verifier_value; simpl;
    rewrite ?lookup_insert_ne by discriminate; try reflexivity.
  unfold or_else. simpl in H. rewrite H.
  rewrite lookup_insert_eq. reflexivity.
Qed.

(** The encoders agree on a record whose optional fields are populated. *)
Lemma encoders_agree_when_populated sd :
  truthy (get sd "version") = true ->
  truthy (get sd "token") = true ->
  truthy (get sd "memo") = true \/ get sd "memo" = JStr EmptyString ->
  truthy (get sd "maxSlippage") = true ->
  SecurityUtils.createMessageToSign sd = SignatureService.createMessageToSign sd.
Proof.
  intros Hv Ht Hm Hs.
  unfold SecurityUtils.createMessageToSign, SignatureService.createMessageToSign, or_else.
  rewrite Hv, Ht, Hs.
  destruct Hm as [Hm|Hm]; rewrite Hm; reflexivity.
Qed.

Lemma created_optional_fields nonce now host td :
  let sd := SecurityUtils.createSignatureData nonce now host td in
  get sd "version" = JStr "1.0"
  /\ get sd "token" = or_else (get td "token") (JStr "SOL")
  /\ get sd "memo" = or_else (get td "memo") (JStr EmptyString)
  /\ get sd "maxSlippage" = or_else (get td "maxSlippage") (JNum (Dec 1 2)).
Proof.
  unfold SecurityUtils.createSignatureData.
  generalize (get td "token") (get td "memo") (get td "maxSlippage")
    (get td "source") (get td "destination") (get td "amount").
  intros. cbv zeta. unfold get.
  rewrite !list_to_map_cons.
  repeat split; simplify_map_eq; reflexivity.
Qed.

Lemma or_else_truthy a b : truthy b = true -> truthy (or_else a b) = true.
Proof. unfold or_else. destruct (truthy a) eqn:E; auto. Qed.

(** In particular they agree on every record built by the signer. *)
Lemma encoders_agree_on_created nonce now host transferData :
  SecurityUtils.createMessageToSign
    (SecurityUtils.createSignatureData nonce now host transferData)
  = SignatureService.createMessageToSign
    (SecurityUtils.createSignatureData nonce now host transferData).
Proof.
  destruct (created_optional_fields nonce now host transferData) as (Hv & Ht & Hm & Hs).
  apply encoders_agree_when_populated.
  - rewrite Hv. reflexivity.
  - rewrite Ht. apply or_else_truthy. reflexivity.
  - rewrite Hm. unfold or_else.
    destruct (truthy (get transferData "memo")) eqn:E; auto.
  - rewrite Hs. apply or_else_truthy. reflexivity.
Qed.

(** The verifier encodes a record as the signer encodes the record with
    its defaults filled in. *)
Lemma verifier_is_signer_with_defaults (ref : nat) (fields : gmap string jsval) :
  SignatureService.createMessageToSign (JObj ref fields)
  = SecurityUtils.createMessageToSign (Canonical.with_defaults (JObj ref fields)).
Proof.
  rewrite verifier_layout, signer_layout. apply layout_ext.
  unfold Canonical.FIELD_ORDER, Canonical.verifier_value, Canonical.signer_value,
    Canonical.with_defaults.
  repeat (apply Forall_cons; split); try apply Forall_nil.
  all: cbn [Canonical.DEFAULTS String.eqb Ascii.eqb Bool.eqb].
  all: f_equal.
  all: match goal with
       | |- _ = get (JObj ?r ?m) ?k =>
           change (get (JObj r m) k) with (default JUndefined (m !! k))
       end.
  all: rewrite ?lookup_insert_ne by discriminate; rewrite ?lookup_insert_eq;
    reflexivity.
Qed.

(** C4 as the code has it: the signer's and the verifier's encoders give
    the same bytes on every record whose optional fields are populated
    (version, token and maxSlippage truthy, memo truthy or empty), and so on
    every record built by [createSignatureData]; in general the verifier's
    bytes are the signer's bytes of the record with the defaults filled in. *)
Theorem encoders_agree_on_populated :
  (forall sd, Canonical.populated sd ->
     SecurityUtils.createMessageToSign sd = SignatureService.createMessageToSign sd)
  /\ (forall nonce now host transferData,
       SecurityUtils.createMessageToSign
         (SecurityUtils.createSignatureData nonce now host transferData)
       = SignatureService.createMessageToSign
         (SecurityUtils.createSignatureData nonce now host transferData))
  /\ (forall ref fields,
       SignatureService.createMessageToSign (JObj ref fields)
       = SecurityUtils.createMessageToSign
           (Canonical.with_defaults (JObj ref fields))).
Proof.
  split; [|split].
  - intros sd (Hv & Ht & Hm & Hs). apply encoders_agree_when_populated; assumption.
  - apply encoders_agree_on_created.
  - apply verifier_is_signer_with_defaults.
Qed.

(** The sample record, and the sample record with an empty memo. *)
Lemma encoders_agree_on_populated_witness :
  SecurityUtils.createMessageToSign Demo.record
    = SignatureService.createMessageToSign Demo.record
  /\ SecurityUtils.createMessageToSign Demo.record_empty_memo
     = SignatureService.createMessageToSign Demo.record_empty_memo.
Proof.
  split; apply (proj1 encoders_agree_on_populated).
  - repeat split; try left; reflexivity.
  - split; [reflexivity|]. split; [reflexivity|]. split; [right|]; reflexivity.
Defined.

(** C4, the encoders differ when an optional field is absent: on the sample
    record without memo the signer writes [memo:undefined] and the verifier
    [memo:], so that a signature over the signer's bytes of this otherwise
    valid record is refused by the verifier. *)
Lemma encoders_disagree_without_memo :
  get Demo.record_no_memo "memo" = JUndefined
  /\ SecurityUtils.createMessageToSign Demo.record_no_memo
     <> SignatureService.createMessageToSign Demo.record_no_memo
  /\ verifySignature (Demo.lib_signer Demo.record_no_memo) Demo.service_memory
       (Demo.env_at Demo.T0) Demo.record_no_memo Demo.signature Demo.publicKey
     = (Demo.service_memory, Invalid "Cryptographic signature verification failed")
  /\ is_valid (snd (verifySignature (Demo.lib_signing Demo.record_no_memo)
       Demo.service_memory (Demo.env_at Demo.T0) Demo.record_no_memo
       Demo.signature Demo.publicKey)) = true.
Proof.
  split; [reflexivity|]. split; [|split].
  - intros H.
    apply (f_equal (fun b => Reference.bytes_eqb b
             (SignatureService.createMessageToSign Demo.record_no_memo))) in H.
    vm_compute in H. discriminate H.
  - vm_compute. reflexivity.
  - vm_compute. reflexivity.
Qed.

(** ** The order of the pipeline *)

Lemma first_failure_at (checks : list Validation) (n : nat) (error : string) :
  checks !! n = Some (Fail error) ->
  (forall m, (m < n)%nat -> checks !! m = Some Ok) ->
  first_failure checks = Some error.
Proof.
  revert n. induction checks as [|c cs IH]; intros n Hn Hlt.
  - rewrite lookup_nil in Hn. discriminate.
  - destruct n as [|n]; simpl in Hn.
    + injection Hn as ->. reflexivity.
    + specialize (Hlt 0%nat ltac:(lia)) as H0. simpl in H0. injection H0 as ->.
      simpl. apply (IH n Hn). intros m Hm.
      apply (Hlt (S m)). lia.
Qed.

Lemma first_failure_none (checks : list Validation) :
  Forall (fun c => c = Ok) checks -> first_failure checks = None.
Proof. induction 1 as [|c cs -> _ IH]; simpl; auto. Qed.

(** C3 as the code has it: the checks run in the order inputs, time
    window, nonce replay check, domain, signature, business rules (amount
    ceiling, addresses, self-transfer, amount, slippage, version); the first
    one that fails gives the verdict and leaves the service as it was, and
    the nonce is consumed only when all of them have passed. *)
Theorem pipeline_first_failure_wins lib this env sd sig pk :
  (forall n error,
      pipeline lib this env sd sig pk !! n = Some (Fail error) ->
      (forall m, (m < n)%nat -> pipeline lib this env sd sig pk !! m = Some Ok) ->
      verifySignature lib this env sd sig pk = (this, Invalid error))
  /\ (Forall (fun c => c = Ok) (pipeline lib this env sd sig pk) ->
      verifySignature lib this env sd sig pk =
        match consumeNonce this env (to_string (get sd "nonce")) with
        | Throw message =>
            (this, Invalid ("Signature verification failed: " +:+ message))
        | Return this' => (this', Valid sd)
        end)
  /\ (forall n error,
      businessRules lib sd !! n = Some (Fail error) ->
      (forall m, (m < n)%nat -> businessRules lib sd !! m = Some Ok) ->
      performSecurityChecks lib sd = Fail error).
Proof.
  split; [|split].
  - intros n error Hn Hlt. rewrite verifySignature_first_failure.
    rewrite (first_failure_at _ n error Hn Hlt). reflexivity.
  - intros Hall. rewrite verifySignature_first_failure.
    rewrite (first_failure_none _ Hall). reflexivity.
  - intros n error Hn Hlt. rewrite performSecurityChecks_rules.
    rewrite (first_failure_at _ n error Hn Hlt). reflexivity.
Qed.

(** On the sample record with a foreign domain and a nonce already
    recorded, the third check (nonce) fails first. *)
Lemma pipeline_first_failure_wins_witness :
  verifySignature Demo.lib Demo.service_redis_used (Demo.env_at Demo.T0)
    Demo.record_evil_domain Demo.signature Demo.publicKey
  = (Demo.service_redis_used,
     Invalid "Nonce has already been used (replay attack detected)").
Proof.
  apply (proj1 (pipeline_first_failure_wins Demo.lib Demo.service_redis_used
                  (Demo.env_at Demo.T0) Demo.record_evil_domain
                  Demo.signature Demo.publicKey) 2%nat).
  - vm_compute. reflexivity.
  - intros m Hm.
    destruct m as [|[|m]]; [vm_compute; reflexivity|vm_compute; reflexivity|lia].
Defined.

(** C3, the order the claim gives fails: with a foreign domain and a
    recorded nonce the verdict is the replay error, not the domain error; an
    expired record of version 2.0 is refused as expired; a record whose
    signature does not verify leaves the nonce unclaimed. *)
Lemma nonce_checked_before_domain :
  validateDomain Demo.service_redis_used (get Demo.record_evil_domain "domain")
    = Fail "Unsupported domain: evil.example"
  /\ snd (verifySignature Demo.lib Demo.service_redis_used (Demo.env_at Demo.T0)
            Demo.record_evil_domain Demo.signature Demo.publicKey)
     = Invalid "Nonce has already been used (replay attack detected)"
  /\ snd (verifySignature Demo.lib Demo.service_redis
            (Demo.env_at (Demo.T0 + 900001))
            Demo.record_v2 Demo.signature Demo.publicKey)
     = Invalid "Signature has expired"
  /\ verifySignature Demo.lib_unsigned Demo.service_redis (Demo.env_at Demo.T0)
       Demo.record Demo.signature Demo.publicKey
     = (Demo.service_redis, Invalid "Cryptographic signature verification failed").
Proof. repeat split; vm_compute; reflexivity. Qed.

(** ** The verdict and the nonce store *)

Lemma consumeNonce_recorded this env nonce this' :
  consumeNonce this env nonce = Return this' ->
  t_clean env - t_write env <= maxAge ->
  recorded this' nonce.
Proof.
  unfold consumeNonce, recorded. intros H Hage.
  destruct (redis this) as [r|] eqn:Hr.
  - destruct (setEx_ok env); [|discriminate].
    injection H as <-. simpl. unfold Redis.setEx.
    rewrite lookup_insert_eq. eauto.
  - injection H as <-. simpl. rewrite Hr.
    exists (t_write env). apply map_lookup_filter_Some. split.
    + apply lookup_insert_eq.
    + simpl. lia.
Qed.

(** C7: an invalid verdict leaves the service, and so the nonce store,
    exactly as it was; a valid verdict returns the record and comes with the
    state written by [consumeNonce], in which the nonce is recorded. *)
Theorem invalid_verdict_preserves_store lib this env sd sig pk :
  match verifySignature lib this env sd sig pk with
  | (this', Invalid _) => this' = this
  | (this', Valid data) =>
      data = sd
      /\ consumeNonce this env (to_string (get sd "nonce")) = Return this'
      /\ (t_clean env - t_write env <= maxAge ->
          recorded this' (to_string (get sd "nonce")))
  end.
Proof.
  rewrite verifySignature_first_failure.
  destruct (first_failure _); [reflexivity|].
  destruct (consumeNonce _ _ _) as [this'|] eqn:Hc; [|reflexivity].
  split; [reflexivity|]. split; [reflexivity|].
  intros Hage. eapply consumeNonce_recorded; eauto.
Qed.

(** After the sample record is accepted, its nonce is in the cache. *)
Lemma invalid_verdict_preserves_store_witness :
  recorded
    (fst (verifySignature Demo.lib Demo.service_memory (Demo.env_at Demo.T0)
            Demo.record Demo.signature Demo.publicKey))
    Demo.NONCE.
Proof.
  pose proof (invalid_verdict_preserves_store Demo.lib Demo.service_memory
                (Demo.env_at Demo.T0) Demo.record Demo.signature Demo.publicKey) as H.
  destruct (verifySignature Demo.lib Demo.service_memory (Demo.env_at Demo.T0)
              Demo.record Demo.signature Demo.publicKey) as [this' [data|error]] eqn:E.
  - destruct H as (_ & _ & H). apply H. vm_compute. discriminate.
  - exfalso. vm_compute in E. discriminate E.
Defined.

(** ** Failures of the store *)

(** C6 as the code has it: when Redis rejects the write of
    [consumeNonce], the verdict is invalid and the service unchanged; when
    Redis rejects the read of the replay check, the nonce counts as unused,
    in [isNonceUsed] as in [NonceManager.exists]. *)
Theorem consume_failure_fails_closed lib this env sd sig pk r :
  redis this = Some r ->
  (setEx_ok env = false ->
     exists error, verifySignature lib this env sd sig pk = (this, Invalid error))
  /\ (get_ok env = false -> forall nonce, isNonceUsed this env nonce = false)
  /\ (get_ok env = false -> forall manager nonce,
        is_Some (NonceManager.redis manager) ->
        NonceManager.exists_ manager env nonce = false).
Proof.
  intros Hr. split; [|split].
  - intros Hw. rewrite verifySignature_first_failure.
    destruct (first_failure _) as [e|]; [eauto|].
    unfold consumeNonce. rewrite Hr, Hw. eauto.
  - intros Hg nonce. unfold isNonceUsed. rewrite Hr, Hg. reflexivity.
  - intros Hg manager nonce [r' Hr']. unfold NonceManager.exists_.
    rewrite Hr', Hg. destruct (negb _); reflexivity.
Qed.

Lemma consume_failure_fails_closed_witness :
  (exists error,
      verifySignature Demo.lib Demo.service_redis (Demo.env_write_fails Demo.T0)
        Demo.record Demo.signature Demo.publicKey
      = (Demo.service_redis, Invalid error))
  /\ isNonceUsed Demo.service_redis_used (Demo.env_read_fails Demo.T0) Demo.NONCE = false.
Proof.
  split.
  - apply (proj1 (consume_failure_fails_closed Demo.lib Demo.service_redis
                    (Demo.env_write_fails Demo.T0) Demo.record Demo.signature
                    Demo.publicKey ∅ eq_refl)).
    reflexivity.
  - apply (proj1 (proj2 (consume_failure_fails_closed Demo.lib Demo.service_redis_used
                    (Demo.env_read_fails Demo.T0) Demo.record Demo.signature
                    Demo.publicKey _ eq_refl))).
    reflexivity.
Defined.

(** C6, fail-closed fails on the read: the nonce of the sample record is
    recorded in Redis, Redis rejects the read of the replay check and accepts
    the write, and the replayed record is accepted. *)
Lemma read_failure_accepts_replay :
  isNonceUsed Demo.service_redis_used (Demo.env_at Demo.T0) Demo.NONCE = true
  /\ get_ok (Demo.env_read_fails Demo.T0) = false
  /\ snd (verifySignature Demo.lib Demo.service_redis_used
            (Demo.env_read_fails Demo.T0)
            Demo.record Demo.signature Demo.publicKey)
     = Valid Demo.record.
Proof. repeat split; vm_compute; reflexivity. Qed.

(** ** The version gate *)

(** C8 as the code has it: a record is accepted only if its version is
    falsy (absent, empty) or the string 1.0; a record with another version
    is never accepted, and is refused as an unsupported version when every
    check before the version rule passes. *)
Theorem version_gate lib this env sd sig pk :
  (is_valid (snd (verifySignature lib this env sd sig pk)) = true ->
     truthy (get sd "version") = false \/ get sd "version" = JStr "1.0")
  /\ (truthy (get sd "version") = true -> get sd "version" <> JStr "1.0" ->
      exists error,
        verifySignature lib this env sd sig pk = (this, Invalid error)
        /\ (first_failure (firstn 5 (pipeline lib this env sd sig pk)) = None ->
            first_failure (firstn 5 (businessRules lib sd)) = None ->
            error = "Unsupported signature version")).
Proof.
  assert (Hgate : truthy (get sd "version") = true -> get sd "version" <> JStr "1.0" ->
                  last (businessRules lib sd) = Some (Fail "Unsupported signature version")).
  { intros Ht Hne. unfold businessRules; simpl. rewrite Ht.
    destruct (strict_eq (get sd "version") (JStr "1.0")) eqn:E; [|reflexivity].
    apply strict_eq_string in E. contradiction. }
  assert (Hrules : truthy (get sd "version") = true -> get sd "version" <> JStr "1.0" ->
                   exists e, performSecurityChecks lib sd = Fail e
                     /\ (first_failure (firstn 5 (businessRules lib sd)) = None ->
                         e = "Unsupported signature version")).
  { intros Ht Hne. specialize (Hgate Ht Hne).
    rewrite performSecurityChecks_rules.
    unfold businessRules in *. cbn [firstn first_failure last] in *.
    injection Hgate as Hgate. rewrite Hgate.
    repeat match goal with
           | |- context [if ?b then Fail _ else Ok] => destruct b
           end;
      eexists; (split; [reflexivity|]); intros; congruence. }
  split.
  - intros Hv.
    destruct (truthy (get sd "version")) eqn:Ht; [|auto].
    destruct (strict_eq (get sd "version") (JStr "1.0")) eqn:E.
    + right. apply strict_eq_string. exact E.
    + exfalso.
      assert (Hne : get sd "version" <> JStr "1.0").
      { intros Heq. apply strict_eq_string in Heq. congruence. }
      destruct (Hrules eq_refl Hne) as (e & He & _).
      rewrite verifySignature_first_failure in Hv.
      unfold pipeline in Hv. cbn [first_failure] in Hv. rewrite He in Hv.
      repeat match type of Hv with
             | context [match ?c with Ok => _ | Fail _ => _ end] =>
                 destruct c; cbn [first_failure snd is_valid] in Hv
             end; discriminate.
  - intros Ht Hne. destruct (Hrules Ht Hne) as (e & He & Hlast).
    rewrite verifySignature_first_failure.
    unfold pipeline. cbn [first_failure firstn]. rewrite He.
    repeat match goal with
           | |- context [match ?c with Ok => _ | Fail _ => _ end] =>
               destruct c; cbn [first_failure]
           end;
      eexists; (split; [reflexivity|]); intros; try congruence; auto.
Qed.

(** The sample record in version 2.0 is refused for its version. *)
Lemma version_gate_witness :
  verifySignature (Demo.lib_signing Demo.record_v2) Demo.service_memory (Demo.env_at Demo.T0)
    Demo.record_v2 Demo.signature Demo.publicKey
  = (Demo.service_memory, Invalid "Unsupported signature version").
Proof.
  destruct (proj2 (version_gate (Demo.lib_signing Demo.record_v2) Demo.service_memory (Demo.env_at Demo.T0)
                     Demo.record_v2 Demo.signature Demo.publicKey))
    as (error & Hv & He).
  - reflexivity.
  - vm_compute. discriminate.
  - rewrite Hv, He; [reflexivity| |]; vm_compute; reflexivity.
Defined.

(** C8, the gate lets an absent version through: the sample record without
    version is accepted. *)
Lemma absent_version_accepted :
  get Demo.record_no_version "version" = JUndefined
  /\ snd (verifySignature (Demo.lib_signing Demo.record_no_version)
            Demo.service_memory (Demo.env_at Demo.T0)
            Demo.record_no_version Demo.signature Demo.publicKey)
     = Valid Demo.record_no_version.
Proof. split; vm_compute; reflexivity. Qed.

(** ** Single use *)

Lemma validateNonce_ok this env v :
  validateNonce this env v = Ok ->
  (negb (truthy v) || negb (is_string v) = false)
  /\ negb (base64UrlRegex (to_string v)) = false
  /\ isNonceUsed this env (to_string v) = false.
Proof.
  unfold validateNonce.
  destruct (negb (truthy v) || negb (is_string v)); [discriminate|].
  destruct (negb (base64UrlRegex (to_string v))); [discriminate|].
  destruct (isNonceUsed this env (to_string v)); [discriminate|auto].
Qed.

Lemma consumeNonce_succeeds this env nonce :
  redis this = None \/ setEx_ok env = true ->
  exists this', consumeNonce this env nonce = Return this'.
Proof.
  unfold consumeNonce. intros [H|H].
  - rewrite H. eauto.
  - rewrite H. destruct (redis this); eauto.
Qed.

(** A nonce written by [consumeNonce] is seen by every read the store
    answers while it retains the entry. *)
Lemma consumed_nonce_is_used this env1 env2 nonce this1 :
  consumeNonce this env1 nonce = Return this1 ->
  t_clean env1 - t_write env1 <= maxAge ->
  retained this env1 env2 ->
  isNonceUsed this1 env2 nonce = true.
Proof.
  unfold consumeNonce, retained, isNonceUsed. intros Hc Hage Hret.
  destruct (redis this) as [r|] eqn:Hr.
  - destruct (setEx_ok env1); [|discriminate].
    injection Hc as <-. simpl. destruct Hret as [-> Hlt].
    unfold Redis.get, Redis.setEx. rewrite lookup_insert_eq.
    destruct (Z.ltb_spec (t_read env2) (t_write env1 + 24 * 60 * 60 * 1000));
      [reflexivity|lia].
  - injection Hc as <-. simpl. rewrite Hr.
    apply bool_decide_eq_true. exists (t_write env1).
    apply map_lookup_filter_Some. split; [apply lookup_insert_eq|simpl; lia].
Qed.

(** A call on a record whose nonce the store reports as used. *)
Lemma used_nonce_rejected lib this0 env0 this env sd sig pk :
  validateInputs sd sig pk = Ok ->
  validateNonce this0 env0 (get sd "nonce") = Ok ->
  isNonceUsed this env (to_string (get sd "nonce")) = true ->
  verifySignature lib this env sd sig pk = (this, replay_verdict sd env).
Proof.
  intros Hi Hn Hu. apply validateNonce_ok in Hn as (Hf1 & Hf2 & _).
  unfold verifySignature, replay_verdict. rewrite Hi.
  destruct (validateTimestamp (t_check env) sd); [|reflexivity].
  unfold validateNonce. rewrite Hf1, Hf2, Hu. reflexivity.
Qed.

Lemma replay_all_rejected lib this0 env0 this envs sd sig pk :
  validateInputs sd sig pk = Ok ->
  validateNonce this0 env0 (get sd "nonce") = Ok ->
  Forall (fun env => isNonceUsed this env (to_string (get sd "nonce")) = true) envs ->
  replay lib this envs sd sig pk = (this, map (replay_verdict sd) envs).
Proof.
  intros Hi Hn. induction 1 as [|env envs Hu _ IH]; simpl; [reflexivity|].
  rewrite (used_nonce_rejected lib this0 env0 this env sd sig pk Hi Hn Hu).
  rewrite IH. reflexivity.
Qed.

(** C1 as the code has it: a record that passes every check, on a store
    that accepts the write, is accepted by the first call; every later call
    with the same arguments that the store answers while it holds the nonce
    is refused and changes nothing: as a replay when the record is still in
    its time window, with the error of the time check otherwise. *)
Theorem single_use lib this env1 envs sd sig pk :
  Forall (fun c => c = Ok) (pipeline lib this env1 sd sig pk) ->
  redis this = None \/ setEx_ok env1 = true ->
  t_clean env1 - t_write env1 <= maxAge ->
  Forall (retained this env1) envs ->
  exists this1,
    verifySignature lib this env1 sd sig pk = (this1, Valid sd)
    /\ replay lib this (env1 :: envs) sd sig pk
       = (this1, Valid sd :: map (replay_verdict sd) envs).
Proof.
  intros Hall Hw Hage Hret.
  destruct (consumeNonce_succeeds this env1 (to_string (get sd "nonce")) Hw)
    as [this1 Hc].
  assert (H1 : verifySignature lib this env1 sd sig pk = (this1, Valid sd)).
  { rewrite verifySignature_first_failure, (first_failure_none _ Hall), Hc.
    reflexivity. }
  exists this1. split; [exact H1|].
  unfold pipeline in Hall.
  apply Forall_cons in Hall as [Hi Hall].
  apply Forall_cons in Hall as [_ Hall].
  apply Forall_cons in Hall as [Hn _].
  cbn [replay]. rewrite H1.
  rewrite (replay_all_rejected lib this env1 this1 envs sd sig pk Hi Hn);
    [reflexivity|].
  eapply Forall_impl; [exact Hret|].
  intros env2 H2. simpl. eapply consumed_nonce_is_used; eauto.
Qed.

(** The sample record: accepted, then refused as a replay one millisecond
    later, then refused as expired after its expiry. *)
Lemma single_use_witness :
  exists this1,
    replay Demo.lib Demo.service_redis
      [Demo.env_at Demo.T0; Demo.env_at (Demo.T0 + 1);
       Demo.env_at (Demo.T0 + 900001)]
      Demo.record Demo.signature Demo.publicKey
    = (this1,
       [Valid Demo.record;
        Invalid "Nonce has already been used (replay attack detected)";
        Invalid "Signature has expired"]).
Proof.
  destruct (single_use Demo.lib Demo.service_redis (Demo.env_at Demo.T0)
              [Demo.env_at (Demo.T0 + 1); Demo.env_at (Demo.T0 + 900001)]
              Demo.record Demo.signature Demo.publicKey)
    as (this1 & _ & H).
  - unfold pipeline. repeat constructor; vm_compute; reflexivity.
  - right. reflexivity.
  - vm_compute. discriminate.
  - repeat constructor; vm_compute; reflexivity.
  - exists this1. rewrite H. reflexivity.
Defined.

(** C1, a later call is not always refused as a replay: the sample record
    is accepted, and the same call after its expiry is refused as expired. *)
Lemma replay_after_expiry_is_expired :
  snd (replay Demo.lib Demo.service_redis
         [Demo.env_at Demo.T0; Demo.env_at (Demo.T0 + 900001)]
         Demo.record Demo.signature Demo.publicKey)
  = [Valid Demo.record; Invalid "Signature has expired"].
Proof. vm_compute. reflexivity. Qed.

(** The Redis entry lives 24 hours from the write, while a record is
    accepted until its expiry, which may lie 24 hours after a timestamp five
    minutes ahead of the clock: in between, the record is accepted again. *)
Lemma nonce_expires_before_record :
  map is_valid
    (snd (replay (Demo.lib_signing Demo.record_long) Demo.service_redis
            [Demo.env_at Demo.T0;
             Demo.env_at (Demo.T0 + 24 * 60 * 60 * 1000 + 1)]
            Demo.record_long Demo.signature Demo.publicKey))
  = [true; true].
Proof. vm_compute. reflexivity. Qed.

(** ** Concurrent calls *)

Section Sweep.

Context {State Call : Type}.
Variable resume : State -> Call -> State * Call.

Lemma run_app st pool (s1 s2 : list nat) :
  Concurrent.run resume st pool (s1 ++ s2)%list =
    let '(st', pool') := Concurrent.run resume st pool s1 in
    Concurrent.run resume st' pool' s2.
Proof.
  revert st pool. induction s1 as [|k s1 IH]; intros st pool; simpl.
  - reflexivity.
  - destruct (pool !! k) as [c|]; [|apply IH].
    destruct (resume st c) as [st' c']. apply IH.
Qed.

(** Resuming in turn [j] calls that are in the same state [a], when each
    of them moves to [b] and keeps the invariant [P] of the shared state. *)
Lemma run_sweep (P : State -> Prop) (a b : Call) :
  (forall st, P st -> exists st', resume st a = (st', b) /\ P st') ->
  forall j i st, P st ->
    exists st', P st'
      /\ Concurrent.run resume st (replicate i b ++ replicate j a)%list (seq i j)
         = (st', replicate (i + j) b).
Proof.
  intros Hstep. induction j as [|j IH]; intros i st HP.
  - exists st. split; [exact HP|]. simpl.
    rewrite app_nil_r, Nat.add_0_r. reflexivity.
  - destruct (Hstep st HP) as (st1 & Hr & HP1).
    destruct (IH (S i) st1 HP1) as (st' & HP' & Hrun).
    exists st'. split; [exact HP'|].
    cbn [seq Concurrent.run].
    rewrite lookup_app_r by (rewrite length_replicate; lia).
    rewrite length_replicate, Nat.sub_diag. cbn [replicate lookup list_lookup].
    rewrite Hr.
    rewrite insert_app_r_alt by (rewrite length_replicate; lia).
    rewrite length_replicate, Nat.sub_diag. cbn [insert list_insert].
    rewrite (cons_middle b), app_assoc, <- replicate_S_end.
    rewrite Hrun. f_equal. f_equal. lia.
Qed.

End Sweep.

(** For every number of concurrent calls carrying one valid record, the
    schedule that lets each call reach its nonce check before any call
    resumes makes every call return [Valid]. *)
Lemma concurrent_calls_all_accepted lib this env sd sig pk (n : nat) :
  Forall (fun c => c = Ok) (pipeline lib this env sd sig pk) ->
  redis this = None \/ setEx_ok env = true ->
  exists this',
    Concurrent.run (Concurrent.resumeVerify lib) this
      (replicate n (Concurrent.Started env sd sig pk)) (Concurrent.round_robin n)
    = (this', replicate n (Concurrent.Settled (Valid sd))).
Proof.
  intros Hall Hw. unfold pipeline in Hall.
  apply Forall_cons in Hall as [Hi Hall].
  apply Forall_cons in Hall as [Ht Hall].
  apply Forall_cons in Hall as [Hn Hall].
  apply Forall_cons in Hall as [Hd Hall].
  apply Forall_cons in Hall as [Hc Hall].
  apply Forall_cons in Hall as [Hs _].
  unfold Concurrent.round_robin. rewrite run_app.
  (* every call runs up to its nonce check: the store is only read *)
  destruct (run_sweep (Concurrent.resumeVerify lib) (fun st => st = this)
              (Concurrent.Started env sd sig pk)
              (Concurrent.NonceChecked env sd sig pk)) with (j := n) (i := 0%nat) (st := this)
    as (st1 & -> & Hrun1); [|reflexivity|].
  { intros st ->. exists this. split; [|reflexivity]. simpl.
    unfold stepsUntilNonce. rewrite Hi, Ht, Hn. reflexivity. }
  simpl in Hrun1. rewrite Hrun1.
  (* every call resumes: each one writes the nonce and returns Valid *)
  destruct (run_sweep (Concurrent.resumeVerify lib)
              (fun st => SUPPORTED_DOMAINS st = SUPPORTED_DOMAINS this
                         /\ (redis st = None \/ setEx_ok env = true))
              (Concurrent.NonceChecked env sd sig pk)
              (Concurrent.Settled (Valid sd))) with (j := n) (i := 0%nat) (st := this)
    as (st2 & _ & Hrun2); [|auto|].
  { intros st [Hdom Hmode]. simpl. unfold stepsAfterNonce.
    assert (Hd' : validateDomain st (get sd "domain") = Ok).
    { unfold validateDomain in *. rewrite Hdom. exact Hd. }
    rewrite Hd', Hc, Hs.
    unfold consumeNonce. destruct Hmode as [Hm|Hm].
    - rewrite Hm. eexists. split; [reflexivity|]. simpl. auto.
    - rewrite Hm. destruct (redis st); eexists; (split; [reflexivity|]); simpl; auto. }
  simpl in Hrun2. exists st2. exact Hrun2.
Qed.

(** C2: two concurrent calls of [verifySignature] carrying the sample
    record, each resumed after both have passed the nonce check, both return
    [Valid]; the same schedule lets two concurrent calls of
    [validateAndConsume] on one nonce both succeed. *)
Theorem concurrent_replay_both_valid :
  map Concurrent.verdict_of
    (snd (Concurrent.run (Concurrent.resumeVerify Demo.lib) Demo.service_redis
            [Concurrent.Started (Demo.env_at Demo.T0)
               Demo.record Demo.signature Demo.publicKey;
             Concurrent.Started (Demo.env_at Demo.T0)
               Demo.record Demo.signature Demo.publicKey]
            [0; 1; 0; 1]%nat))
  = [Some (Valid Demo.record); Some (Valid Demo.record)]
  /\ map Concurrent.consumed
       (snd (Concurrent.run Concurrent.resumeConsume Demo.manager_redis
               [Concurrent.CStarted (Demo.env_at Demo.T0) (JStr Demo.NONCE) "{}";
                Concurrent.CStarted (Demo.env_at Demo.T0) (JStr Demo.NONCE) "{}"]
               [0; 1; 0; 1]%nat))
     = [true; true].
Proof. split; vm_compute; reflexivity. Qed.

(** Run one after the other, the same two calls give one [Valid]. *)
Lemma sequential_replay_one_valid :
  map Concurrent.verdict_of
    (snd (Concurrent.run (Concurrent.resumeVerify Demo.lib) Demo.service_redis
            [Concurrent.Started (Demo.env_at Demo.T0)
               Demo.record Demo.signature Demo.publicKey;
             Concurrent.Started (Demo.env_at Demo.T0)
               Demo.record Demo.signature Demo.publicKey]
            [0; 0; 1; 1]%nat))
  = [Some (Valid Demo.record);
     Some (Invalid "Nonce has already been used (replay attack detected)")].
Proof. vm_compute. reflexivity. Qed.

(** A call resumed twice in a row is a call of [verifySignature]. *)
Lemma resume_twice_is_verifySignature lib this env sd sig pk :
  Concurrent.run (Concurrent.resumeVerify lib) this
    [Concurrent.Started env sd sig pk] [0; 0]%nat
  = (fst (verifySignature lib this env sd sig pk),
     [Concurrent.Settled (snd (verifySignature lib this env sd sig pk))]).
Proof.
  rewrite verifySignature_stages. simpl.
  destruct (stepsUntilNonce this env sd sig pk); simpl.
  - destruct (stepsAfterNonce lib this env sd sig pk). reflexivity.
  - reflexivity.
Qed.

(** * Further properties *)

(** ** Integers printed and read back *)

Lemma digit_val_pretty (d : N) :
  (d < 10)%N -> digit_val (pretty_N_char d) = Some (Z.of_N d).
Proof.
  intros H.
  assert (d = 0 \/ d = 1 \/ d = 2 \/ d = 3 \/ d = 4 \/ d = 5 \/ d = 6
          \/ d = 7 \/ d = 8 \/ d = 9)%N as Hd by lia.
  repeat (destruct Hd as [->|Hd]; [reflexivity|]). subst. reflexivity.
Qed.

Lemma plain_digits_cons (d : N) (s : string) :
  (d < 10)%N -> digit_or_end s -> plain_digits (String (pretty_N_char d) s).
Proof.
  intros Hd Hs.
  assert (d = 0 \/ d = 1 \/ d = 2 \/ d = 3 \/ d = 4 \/ d = 5 \/ d = 6
          \/ d = 7 \/ d = 8 \/ d = 9)%N as Hd' by lia.
  destruct s as [|c s].
  - repeat (destruct Hd' as [->|Hd']; [repeat split|]). subst. repeat split.
  - destruct Hs as (d2 & Hd2 & ->).
    assert (d2 = 0 \/ d2 = 1 \/ d2 = 2 \/ d2 = 3 \/ d2 = 4 \/ d2 = 5 \/ d2 = 6
            \/ d2 = 7 \/ d2 = 8 \/ d2 = 9)%N as Hd2' by lia.
    repeat (destruct Hd' as [->|Hd']; [
      repeat (destruct Hd2' as [->|Hd2']; [repeat split|]); subst; repeat split|]).
    subst.
    repeat (destruct Hd2' as [->|Hd2']; [repeat split|]); subst; repeat split.
Qed.

Lemma pretty_go_digits (x : N) :
  forall s acc cnt, (0 < x)%N -> digit_or_end s ->
    plain_digits (pretty_N_go x s)
    /\ exists k p, (0 < k)%nat /\ 0 < p
         /\ take_digits digit_val 10 (pretty_N_go x s) acc cnt
            = take_digits digit_val 10 s (acc * p + Z.of_N x) (cnt + k)%nat.
Proof.
  induction (N.lt_wf_0 x) as [x _ IH]. intros s acc cnt Hx Hs.
  rewrite pretty_N_go_step by exact Hx.
  assert (Hd : (x `mod` 10 < 10)%N) by (apply N.mod_lt; lia).
  assert (Hs' : digit_or_end (String (pretty_N_char (x `mod` 10)) s)).
  { simpl. eauto. }
  assert (Hstep : forall a c,
             take_digits digit_val 10 (String (pretty_N_char (x `mod` 10)) s) a c
             = take_digits digit_val 10 s (a * 10 + Z.of_N (x `mod` 10)) (S c)).
  { intros a c. simpl. rewrite (digit_val_pretty _ Hd). reflexivity. }
  destruct (decide (x `div` 10 = 0)%N) as [H0|H0].
  - rewrite H0, pretty_N_go_0. split.
    + apply plain_digits_cons; assumption.
    + exists 1%nat, 10. split; [lia|]. split; [lia|].
      rewrite Hstep. f_equal; [|lia].
      pose proof (N.div_mod x 10 ltac:(lia)) as E. rewrite H0 in E. lia.
  - assert (Hlt : (x `div` 10 < x)%N) by (apply N.div_lt; lia).
    assert (Hpos : (0 < x `div` 10)%N) by (apply N.neq_0_lt_0; exact H0).
    destruct (IH (x `div` 10)%N Hlt (String (pretty_N_char (x `mod` 10)) s)
                acc cnt Hpos Hs') as (Hp & k & p & Hk & Hpp & Ht).
    split; [exact Hp|].
    exists (S k), (p * 10). split; [lia|]. split; [lia|].
    rewrite Ht, Hstep. f_equal; [|lia].
    pose proof (N.div_mod x 10 ltac:(lia)) as E.
    generalize dependent (x `div` 10)%N. generalize dependent (x `mod` 10)%N.
    intros. lia.
Qed.

Lemma parseInt_str_digits (x : N) :
  (0 < x)%N -> parseInt_str (pretty_N_go x EmptyString) = of_Z (Z.of_N x)
  /\ parseInt_str (String "-" (pretty_N_go x EmptyString)) = of_Z (- Z.of_N x).
Proof.
  intros Hx.
  destruct (pretty_go_digits x EmptyString 0 O Hx I)
    as ((Hsp & Hsg & Hhex) & k & p & Hk & Hp & Ht).
  simpl in Ht. split.
  - unfold parseInt_str. rewrite Hsp, Hsg, Hhex, Ht.
    destruct k; [lia|]. reflexivity.
  - unfold parseInt_str.
    change (skip_spaces (String "-" (pretty_N_go x EmptyString)))
      with (String "-" (pretty_N_go x EmptyString)).
    change (take_sign (String "-" (pretty_N_go x EmptyString)))
      with (true, pretty_N_go x EmptyString).
    cbv iota beta. rewrite Hhex, Ht.
    destruct k; [lia|]. reflexivity.
Qed.

(** [parseInt] reads an integer number back as itself. *)
Lemma parseInt_int (z : Z) : parseInt (JNum (of_Z z)) = of_Z z.
Proof.
  unfold parseInt, to_string, of_Z, num_to_string, strip_zeros, digits_of, pow10.
  change (10 ^ Z.of_nat 0) with 1. rewrite Z.div_1_r.
  destruct z as [|q|q].
  - reflexivity.
  - change (Zpos q <? 0) with false. cbn [Z.abs].
    unfold pretty, pretty_N. change (Z.to_N (Z.pos q)) with (N.pos q).
    destruct (decide (N.pos q = 0%N)) as [E|_]; [discriminate|].
    apply (parseInt_str_digits (N.pos q)). lia.
  - change (Zneg q <? 0) with true. cbn [Z.abs].
    unfold pretty, pretty_N. change (Z.to_N (Z.pos q)) with (N.pos q).
    destruct (decide (N.pos q = 0%N)) as [E|_]; [discriminate|].
    apply (parseInt_str_digits (N.pos q)). lia.
Qed.

(** ** Generated nonces *)

Lemma byte_val_range (b : Byte.byte) : 0 <= Base64.byte_val b < 256.
Proof.
  unfold Base64.byte_val. pose proof (Byte.to_N_bounded b). lia.
Qed.

(** A character of the base-64 alphabet, made URL-safe, is in the class of
    the nonce format and is not the padding character. *)
Lemma url_safe_index (i : Z) :
  0 <= i < 64 ->
  let c := Base64.char_of_index i in
  let c1 := if Ascii.eqb c "+" then "-"%char else c in
  let c2 := if Ascii.eqb c1 "/" then "_"%char else c1 in
  Ascii.eqb c2 "=" = false /\ base64url_char c2 = true.
Proof.
  intros Hi.
  assert (exists n : nat, (n < 64)%nat /\ i = Z.of_nat n) as (n & Hn & ->).
  { exists (Z.to_nat i). split; lia. }
  do 64 (destruct n as [|n]; [split; reflexivity|]). lia.
Qed.

Lemma url_safe_class (i : Z) :
  0 <= i < 64 ->
  base64url_char
    (let c := Base64.char_of_index i in
     let c1 := if Ascii.eqb c "+" then "-"%char else c in
     if Ascii.eqb c1 "/" then "_"%char else c1) = true.
Proof. intros Hi. exact (proj2 (url_safe_index i Hi)). Qed.

Lemma url_safe_step (i : Z) (s : string) :
  0 <= i < 64 ->
  remove_chars (fun x => Ascii.eqb x "=")
    (replace_char "/" "_" (replace_char "+" "-" (String (Base64.char_of_index i) s)))
  = String (let c := Base64.char_of_index i in
            let c1 := if Ascii.eqb c "+" then "-"%char else c in
            if Ascii.eqb c1 "/" then "_"%char else c1)
      (remove_chars (fun x => Ascii.eqb x "=")
         (replace_char "/" "_" (replace_char "+" "-" s))).
Proof.
  intros Hi. destruct (url_safe_index i Hi) as [He _].
  cbn [replace_char remove_chars]. cbv zeta in He. rewrite He. reflexivity.
Qed.

Lemma generateNonce_shape (n : nat) :
  forall l : list Byte.byte, (length l <= n)%nat ->
    all_chars base64url_char (SecurityUtils.generateNonce l) = true
    /\ String.length (SecurityUtils.generateNonce l) = ((4 * length l + 2) / 3)%nat.
Proof.
  induction n as [n IH] using lt_wf_ind. intros l Hl.
  destruct l as [|a [|b [|c rest]]].
  - split; reflexivity.
  - pose proof (byte_val_range a) as Ha.
    unfold SecurityUtils.generateNonce. cbn [Base64.encode]. cbv zeta.
    rewrite !url_safe_step by (Z.div_mod_to_equations; lia).
    cbn [all_chars String.length length].
    split; [|reflexivity].
    rewrite !url_safe_class by (Z.div_mod_to_equations; lia).
    reflexivity.
  - pose proof (byte_val_range a) as Ha. pose proof (byte_val_range b) as Hb.
    unfold SecurityUtils.generateNonce. cbn [Base64.encode]. cbv zeta.
    rewrite !url_safe_step by (Z.div_mod_to_equations; lia).
    cbn [all_chars String.length length].
    split; [|reflexivity].
    rewrite !url_safe_class by (Z.div_mod_to_equations; lia).
    reflexivity.
  - pose proof (byte_val_range a) as Ha. pose proof (byte_val_range b) as Hb.
    pose proof (byte_val_range c) as Hc.
    destruct (IH (length rest) ltac:(simpl in Hl; lia) rest (le_n _)) as [IH1 IH2].
    unfold SecurityUtils.generateNonce in *. cbn [Base64.encode]. cbv zeta.
    rewrite !url_safe_step by (Z.div_mod_to_equations; lia).
    cbn [all_chars String.length length].
    rewrite !url_safe_class by (Z.div_mod_to_equations; lia).
    rewrite IH1, IH2. split; [reflexivity|].
    replace (4 * S (S (S (length rest))) + 2)%nat
      with (4 * 3 + (4 * length rest + 2))%nat by lia.
    rewrite Nat.div_add_l by lia. reflexivity.
Qed.

(** X1: a nonce generated from 32 random bytes, by the signer or by the
    nonce manager, has 43 characters of the URL-safe alphabet; both format
    checks accept it, so that the verifier refuses it only as a replay. *)
Theorem generated_nonce_is_well_formed (randomBytes : list Byte.byte) :
  length randomBytes = 32%nat ->
  let nonce := SecurityUtils.generateNonce randomBytes in
  NonceManager.generateNonce randomBytes = nonce
  /\ String.length nonce = 43%nat
  /\ base64UrlRegex nonce = true
  /\ NonceManager.isValidNonceFormat (JStr nonce) = true
  /\ (forall this env,
        validateNonce this env (JStr nonce)
        = if isNonceUsed this env nonce
          then Fail "Nonce has already been used (replay attack detected)"
          else Ok).
Proof.
  intros Hlen nonce.
  destruct (generateNonce_shape 32 randomBytes ltac:(lia)) as [Hc Hl].
  rewrite Hlen in Hl. change ((4 * 32 + 2) / 3)%nat with 43%nat in Hl.
  fold nonce in Hc, Hl.
  assert (Hne : String.eqb nonce EmptyString = false).
  { destruct nonce; [discriminate Hl|reflexivity]. }
  assert (Hre : base64UrlRegex nonce = true).
  { unfold base64UrlRegex. rewrite Hne, Hc. reflexivity. }
  split; [reflexivity|]. split; [exact Hl|]. split; [exact Hre|]. split.
  - unfold NonceManager.isValidNonceFormat. cbn [truthy is_string to_string].
    rewrite Hne, Hre, Hl. reflexivity.
  - intros this env. unfold validateNonce. cbn [truthy is_string to_string].
    rewrite Hne, Hre. reflexivity.
Qed.

Lemma generated_nonce_is_well_formed_witness :
  String.length (SecurityUtils.generateNonce (repeat Byte.xff 32)) = 43%nat
  /\ NonceManager.isValidNonceFormat
       (JStr (SecurityUtils.generateNonce (repeat Byte.xff 32))) = true.
Proof.
  pose proof (generated_nonce_is_well_formed (repeat Byte.xff 32) eq_refl)
    as (_ & Hl & _ & Hf & _).
  split; assumption.
Defined.

(** ** The input check *)

Lemma checkRequired_ok ref fields (l : list string) :
  checkRequired (JObj ref fields) l = Ok <-> forall k, k ∈ l -> is_Some (fields !! k).
Proof.
  induction l as [|k l IH]; simpl.
  - split; [intros _ k Hk; inversion Hk|reflexivity].
  - destruct (bool_decide (is_Some (fields !! k))) eqn:E; simpl.
    + apply bool_decide_eq_true in E. rewrite IH. split.
      * intros H j Hj. apply elem_of_cons in Hj as [->|Hj]; auto.
      * intros H j Hj. apply H. apply elem_of_cons. auto.
    + apply bool_decide_eq_false in E. split; [discriminate|].
      intros H. exfalso. apply E, H. apply elem_of_cons. auto.
Qed.

Lemma checkRequired_first_missing ref fields (pre post : list string) (k : string) :
  (forall j, j ∈ pre -> is_Some (fields !! j)) ->
  fields !! k = None ->
  checkRequired (JObj ref fields) (pre ++ k :: post)
  = Fail ("Missing required field: " +:+ k).
Proof.
  induction pre as [|j pre IH]; intros Hpre Hk; simpl.
  - rewrite Hk. rewrite bool_decide_eq_false_2; [reflexivity|].
    intros [x Hx]. discriminate.
  - rewrite bool_decide_eq_true_2 by (apply Hpre, elem_of_cons; auto). simpl.
    apply IH; [|exact Hk]. intros i Hi. apply Hpre, elem_of_cons. auto.
Qed.

Lemma truthy_string (v : jsval) :
  negb (truthy v) || negb (is_string v) = false <-> exists s, v = JStr s /\ s <> EmptyString.
Proof.
  destruct v as [| |b|n|s|r f]; simpl;
    try (split; [try destruct b; try destruct n; simpl; try discriminate;
                 rewrite ?orb_true_r; discriminate
                |intros (s0 & H & _); discriminate]).
  rewrite orb_false_r, negb_false_iff, negb_true_iff. split.
  - intros H. exists s. split; [reflexivity|].
    intros ->. discriminate.
  - intros (s0 & [= <-] & Hne). destruct s; [contradiction|reflexivity].
Qed.

(** X2: the input check accepts exactly an object that owns the seven
    required properties (whatever their values) together with a non-empty
    string for the signature and for the public key; the optional fields are
    not looked at, and the error names the first required field missing. *)
Theorem validateInputs_accepts_iff (sd sig pk : jsval) :
  (validateInputs sd sig pk = Ok <->
     (exists ref fields, sd = JObj ref fields
        /\ forall k, k ∈ requiredFields -> is_Some (fields !! k))
     /\ (exists s, sig = JStr s /\ s <> EmptyString)
     /\ (exists p, pk = JStr p /\ p <> EmptyString))
  /\ (forall ref fields pre k post,
        sd = JObj ref fields ->
        (exists s, sig = JStr s /\ s <> EmptyString) ->
        (exists p, pk = JStr p /\ p <> EmptyString) ->
        requiredFields = (pre ++ k :: post)%list ->
        (forall j, j ∈ pre -> is_Some (fields !! j)) ->
        fields !! k = None ->
        validateInputs sd sig pk = Fail ("Missing required field: " +:+ k)).
Proof.
  split.
  - unfold validateInputs.
    destruct (negb (truthy sd) || negb (is_object sd)) eqn:Eo.
    { split; [discriminate|]. intros ((ref & fields & -> & _) & _). discriminate. }
    destruct (negb (truthy sig) || negb (is_string sig)) eqn:Es.
    { split; [discriminate|]. intros (_ & Hs & _).
      apply truthy_string in Hs. congruence. }
    destruct (negb (truthy pk) || negb (is_string pk)) eqn:Ep.
    { split; [discriminate|]. intros (_ & _ & Hp).
      apply truthy_string in Hp. congruence. }
    apply truthy_string in Es, Ep.
    destruct sd as [| |b|n|s|ref fields];
      try (simpl in Eo; rewrite ?orb_true_r in Eo; discriminate Eo).
    rewrite checkRequired_ok. split.
    + intros H. split; [eauto|]. split; assumption.
    + intros ((r & f & [= <- <-] & H) & _). exact H.
  - intros ref fields pre k post -> Hs Hp Hreq Hpre Hk.
    apply truthy_string in Hs, Hp.
    unfold validateInputs. rewrite Hs, Hp. cbn [truthy is_object typeof negb orb].
    rewrite Hreq. apply checkRequired_first_missing; assumption.
Qed.

(** Without expiry the sample record is refused for that field. *)
Lemma validateInputs_accepts_iff_witness :
  validateInputs (Demo.without_field Demo.record "expiry") (JStr "s") (JStr "p")
  = Fail "Missing required field: expiry".
Proof.
  apply (proj2 (validateInputs_accepts_iff
                  (Demo.without_field Demo.record "expiry") (JStr "s") (JStr "p"))
           _ _ ["nonce"; "timestamp"] "expiry"
           ["domain"; "source"; "destination"; "amount"] eq_refl).
  - exists "s". split; [reflexivity|discriminate].
  - exists "p". split; [reflexivity|discriminate].
  - reflexivity.
  - intros j Hj.
    apply elem_of_cons in Hj as [->|Hj]; [vm_compute; eauto|].
    apply elem_of_cons in Hj as [->|Hj]; [vm_compute; eauto|].
    inversion Hj.
  - vm_compute. reflexivity.
Defined.

(** ** What a valid verdict guarantees *)

Lemma first_failure_none_inv (checks : list Validation) :
  first_failure checks = None -> Forall (fun c => c = Ok) checks.
Proof.
  induction checks as [|[|e] cs IH]; simpl; intros H.
  - constructor.
  - constructor; auto.
  - discriminate.
Qed.

Lemma validateDomain_ok this v :
  validateDomain this v = Ok ->
  exists d, v = JStr d /\ d <> EmptyString /\ d ∈ SUPPORTED_DOMAINS this.
Proof.
  unfold validateDomain.
  destruct (negb (truthy v) || negb (is_string v)) eqn:E; [discriminate|].
  apply truthy_string in E as (d & -> & Hd). simpl.
  destruct (bool_decide (d ∈ SUPPORTED_DOMAINS this)) eqn:Hin; [|discriminate].
  apply bool_decide_eq_true in Hin. eauto.
Qed.

Lemma address_ok lib v :
  SignatureService.isValidSolanaAddress lib v = true ->
  exists s b, v = JStr s /\ bs58_decode lib s = Return b /\ length b = 32%nat.
Proof.
  unfold SignatureService.isValidSolanaAddress, bs58_decode_val.
  destruct v; try discriminate.
  destruct (bs58_decode lib s) as [b|] eqn:E; [|discriminate].
  intros H. apply Nat.eqb_eq in H. eauto.
Qed.

Lemma crypto_ok lib sd sig pk :
  verifyCryptographicSignature lib sd sig pk = Ok ->
  exists s p sb pb,
    sig = JStr s /\ pk = JStr p
    /\ bs58_decode lib s = Return sb /\ bs58_decode lib p = Return pb
    /\ length sb = 64%nat /\ length pb = 32%nat
    /\ nacl_verify lib (SignatureService.createMessageToSign sd) sb pb = true.
Proof.
  unfold verifyCryptographicSignature, bs58_decode_val.
  destruct sig as [| | | |s|]; try discriminate.
  destruct (bs58_decode lib s) as [sb|] eqn:Es; [|discriminate].
  destruct pk as [| | | |p|]; try discriminate.
  destruct (bs58_decode lib p) as [pb|] eqn:Ep; [|discriminate].
  destruct (length sb =? 64)%nat eqn:Ls; [|discriminate].
  destruct (length pb =? 32)%nat eqn:Lp; [|discriminate].
  destruct (nacl_verify lib _ sb pb) eqn:Hv; [|discriminate].
  intros _. apply Nat.eqb_eq in Ls, Lp.
  exists s, p, sb, pb. repeat split; assumption.
Qed.

Lemma num_positive (a : number) :
  isNaN a || num_leb a (of_Z 0) = false -> num_gtb a (of_Z 0) = true.
Proof.
  unfold num_leb, num_gtb, of_Z.
  destruct a as [|[]|m e]; simpl; try discriminate; try reflexivity.
  destruct (m * pow10 0 ?= 0 * pow10 e); try discriminate; reflexivity.
Qed.

Lemma validateTimestamp_ok_readable now sd (t e : Z) :
  validateTimestamp now sd = Ok ->
  parseInt (get sd "timestamp") = of_Z t ->
  parseInt (get sd "expiry") = of_Z e ->
  t <= now + 5 * 60 * 1000 /\ now <= e /\ e - t <= 24 * 60 * 60 * 1000.
Proof.
  intros H Ht He. unfold validateTimestamp in H. rewrite Ht, He in H.
  unfold of_Z, maxClockSkew, maxValidityWindow in H.
  rewrite num_sub_int, !num_gtb_int in H.
  destruct (Z.ltb_spec (now + 5 * 60 * 1000) t); [discriminate|].
  destruct (Z.ltb_spec e now); [discriminate|].
  destruct (Z.ltb_spec (24 * 60 * 60 * 1000) (e - t)); [discriminate|].
  lia.
Qed.

Lemma isNonceUsed_false this env nonce :
  isNonceUsed this env nonce = false ->
  match redis this with
  | Some r => get_ok env = false
              \/ Redis.get r (t_read env) ("nonce:" +:+ nonce) = None
  | None => nonceCache this !! nonce = None
  end.
Proof.
  unfold isNonceUsed. destruct (redis this) as [r|].
  - destruct (get_ok env); [|auto].
    destruct (Redis.get r (t_read env) ("nonce:" +:+ nonce)); [discriminate|auto].
  - intros H. apply bool_decide_eq_false in H.
    destruct (nonceCache this !! nonce) eqn:E; [|reflexivity].
    exfalso. apply H. eauto.
Qed.

Lemma consumeNonce_redis_recorded this env nonce this' r :
  redis this = Some r ->
  consumeNonce this env nonce = Return this' ->
  recorded this' nonce.
Proof.
  unfold consumeNonce, recorded. intros Hr H. rewrite Hr in H.
  destruct (setEx_ok env); [|discriminate].
  injection H as <-. simpl. unfold Redis.setEx.
  rewrite lookup_insert_eq. eauto.
Qed.

(** X3: a valid verdict is returned only for a record that passed every
    check.  It returns the submitted record.  [validateTimestamp] accepted
    it at the clock of the call: whenever [parseInt] reads the timestamp and
    the expiry as integers [t] and [e], then [t <= now + 5 min], [now <= e]
    and [e - t <= 24 h].  Its nonce is a string of the URL-safe alphabet
    that [isNonceUsed] reported unused: the fallback cache did not hold it,
    or Redis held no live entry for it or rejected the read; and
    [consumeNonce] returned the new store, in which the nonce is recorded
    (with the fallback cache: if the clean-up clock is within 24 hours of
    the write).  Its domain is on the allow-list; the signature (64 bytes)
    verifies under the given key (32 bytes) on the verifier's encoding;
    source and destination are distinct 32-byte addresses; the amount, as
    [parseFloat] reads it, is positive and, when the token is SOL, not above
    100; the slippage, as [parseFloat] reads it, is a number between 0 and
    0.1; the version is falsy or 1.0. *)
Theorem valid_verdict_guarantees lib this env sd sig pk this' data :
  verifySignature lib this env sd sig pk = (this', Valid data) ->
  data = sd
  /\ (validateTimestamp (t_check env) sd = Ok
      /\ forall t e,
           parseInt (get sd "timestamp") = of_Z t ->
           parseInt (get sd "expiry") = of_Z e ->
           t <= t_check env + 5 * 60 * 1000 /\ t_check env <= e
           /\ e - t <= 24 * 60 * 60 * 1000)
  /\ (exists nonce, get sd "nonce" = JStr nonce
        /\ base64UrlRegex nonce = true
        /\ isNonceUsed this env nonce = false
        /\ match redis this with
           | Some r => get_ok env = false
                       \/ Redis.get r (t_read env) ("nonce:" +:+ nonce) = None
           | None => nonceCache this !! nonce = None
           end
        /\ consumeNonce this env nonce = Return this'
        /\ match redis this with
           | Some _ => recorded this' nonce
           | None => t_clean env - t_write env <= maxAge -> recorded this' nonce
           end)
  /\ (exists domain, get sd "domain" = JStr domain
        /\ domain ∈ SUPPORTED_DOMAINS this)
  /\ (exists s p sb pb,
        sig = JStr s /\ pk = JStr p
        /\ bs58_decode lib s = Return sb /\ bs58_decode lib p = Return pb
        /\ length sb = 64%nat /\ length pb = 32%nat
        /\ nacl_verify lib (SignatureService.createMessageToSign sd) sb pb = true)
  /\ (exists source destination sbytes dbytes,
        get sd "source" = JStr source /\ get sd "destination" = JStr destination
        /\ source <> destination
        /\ bs58_decode lib source = Return sbytes /\ length sbytes = 32%nat
        /\ bs58_decode lib destination = Return dbytes /\ length dbytes = 32%nat)
  /\ num_gtb (parseFloat (get sd "amount")) (of_Z 0) = true
  /\ (get sd "token" = JStr "SOL" ->
      num_gtb (parseFloat (get sd "amount")) MAX_AMOUNT_SOL = false)
  /\ (isNaN (parseFloat (get sd "maxSlippage")) = false
      /\ num_ltb (parseFloat (get sd "maxSlippage")) (of_Z 0) = false
      /\ num_gtb (parseFloat (get sd "maxSlippage")) (Dec 1 1) = false)
  /\ (truthy (get sd "version") = false \/ get sd "version" = JStr "1.0").
Proof.
  rewrite verifySignature_first_failure.
  destruct (first_failure _) eqn:Hff; [discriminate|].
  destruct (consumeNonce _ _ _) as [this1|] eqn:Hc; [|discriminate].
  intros [= <- <-].
  apply first_failure_none_inv in Hff. unfold pipeline in Hff.
  apply Forall_cons in Hff as [Hi Hff].
  apply Forall_cons in Hff as [Ht Hff].
  apply Forall_cons in Hff as [Hn Hff].
  apply Forall_cons in Hff as [Hd Hff].
  apply Forall_cons in Hff as [Hcr Hff].
  apply Forall_cons in Hff as [Hs _].
  split; [reflexivity|].
  split.
  { split; [exact Ht|]. intros t e Hpt Hpe.
    exact (validateTimestamp_ok_readable _ _ _ _ Ht Hpt Hpe). }
  (* nonce *)
  apply validateNonce_ok in Hn as (Hn1 & Hn2 & Hn3).
  apply truthy_string in Hn1 as (nonce & Hnonce & _).
  rewrite Hnonce in *. simpl in Hn2, Hn3, Hc.
  split.
  { exists nonce.
    split; [reflexivity|].
    split; [destruct (base64UrlRegex nonce); auto; discriminate|].
    split; [exact Hn3|].
    split; [exact (isNonceUsed_false _ _ _ Hn3)|].
    split; [exact Hc|].
    destruct (redis this) as [r|] eqn:Hr.
    - exact (consumeNonce_redis_recorded _ _ _ _ r Hr Hc).
    - intros Hclean. exact (consumeNonce_recorded _ _ _ _ Hc Hclean). }
  (* domain *)
  apply validateDomain_ok in Hd as (domain & Hdom & _ & Hin).
  split. { eauto. }
  split. { apply crypto_ok. exact Hcr. }
  (* business rules *)
  unfold performSecurityChecks in Hs.
  destruct (strict_eq (get sd "token") (JStr "SOL")
            && num_gtb (parseFloat (get sd "amount")) MAX_AMOUNT_SOL) eqn:E1;
    [discriminate|].
  destruct (negb (SignatureService.isValidSolanaAddress lib (get sd "source"))
            || negb (SignatureService.isValidSolanaAddress lib (get sd "destination")))
    eqn:E2; [discriminate|].
  destruct (strict_eq (get sd "source") (get sd "destination")) eqn:E3; [discriminate|].
  destruct (isNaN (parseFloat (get sd "amount"))
            || num_leb (parseFloat (get sd "amount")) (of_Z 0)) eqn:E4; [discriminate|].
  destruct (isNaN (parseFloat (get sd "maxSlippage"))
            || num_ltb (parseFloat (get sd "maxSlippage")) (of_Z 0)
            || num_gtb (parseFloat (get sd "maxSlippage")) (Dec 1 1)) eqn:E5;
    [discriminate|].
  destruct (truthy (get sd "version")
            && negb (strict_eq (get sd "version") (JStr "1.0"))) eqn:E6;
    [discriminate|].
  apply orb_false_iff in E2 as [A1 A2]. apply negb_false_iff in A1, A2.
  apply address_ok in A1 as (src & sb & Hsrc & Hsb & Lsb).
  apply address_ok in A2 as (dst & db & Hdst & Hdb & Ldb).
  split.
  { exists src, dst, sb, db. repeat split; auto.
    intros ->. rewrite Hsrc, Hdst in E3. simpl in E3.
    rewrite String.eqb_refl in E3. discriminate. }
  split. { apply num_positive. exact E4. }
  split.
  { intros Htok. rewrite Htok in E1. simpl in E1. exact E1. }
  split.
  { apply orb_false_iff in E5 as [E5 E5c]. apply orb_false_iff in E5 as [E5a E5b].
    auto. }
  apply andb_false_iff in E6 as [E6|E6]; [left; exact E6|].
  right. apply negb_false_iff in E6. apply strict_eq_string. exact E6.
Qed.

Lemma valid_verdict_guarantees_witness :
  exists domain, get Demo.record "domain" = JStr domain
    /\ domain ∈ SUPPORTED_DOMAINS Demo.service_memory.
Proof.
  assert (Hv : snd (verifySignature Demo.lib Demo.service_memory (Demo.env_at Demo.T0)
                      Demo.record Demo.signature Demo.publicKey) = Valid Demo.record)
    by (vm_compute; reflexivity).
  destruct (verifySignature Demo.lib Demo.service_memory (Demo.env_at Demo.T0)
              Demo.record Demo.signature Demo.publicKey) as [this' v] eqn:E.
  simpl in Hv. subst v.
  exact (proj1 (proj2 (proj2 (proj2
           (valid_verdict_guarantees _ _ _ _ _ _ _ _ E))))).
Defined.

(** ** The nonce store of the service *)

Lemma nonce_key_inj (m n : string) : "nonce:" +:+ m = "nonce:" +:+ n -> m = n.
Proof. simpl. intros H. injection H. auto. Qed.

(** X4: consuming a nonce does not touch the allow-list and never
    marks another nonce as used.  With Redis the status of every other nonce
    is unchanged; in the fallback cache another nonce stays used exactly
    when its entry is at most 24 hours old at the clean-up that follows the
    insertion, older entries being forgotten. *)
Theorem consumeNonce_frame this env n this' :
  consumeNonce this env n = Return this' ->
  SUPPORTED_DOMAINS this' = SUPPORTED_DOMAINS this
  /\ forall m env2, m <> n ->
       match redis this with
       | Some _ => isNonceUsed this' env2 m = isNonceUsed this env2 m
       | None =>
           isNonceUsed this' env2 m = true <->
           exists t, nonceCache this !! m = Some t /\ t_clean env - t <= maxAge
       end.
Proof.
  unfold consumeNonce. intros H.
  destruct (redis this) as [r|] eqn:Hr.
  - destruct (setEx_ok env); [|discriminate]. injection H as <-.
    split; [reflexivity|]. intros m env2 Hm.
    unfold isNonceUsed, set_redis; simpl. rewrite Hr.
    unfold Redis.get, Redis.setEx.
    rewrite lookup_insert_ne; [reflexivity|].
    intros Heq. apply nonce_key_inj in Heq. congruence.
  - injection H as <-. split; [reflexivity|]. intros m env2 Hm.
    unfold isNonceUsed, cleanupNonceCache, set_nonceCache; simpl. rewrite Hr.
    rewrite bool_decide_eq_true. split.
    + intros [t Ht]. apply map_lookup_filter_Some in Ht as [Ht Hage].
      rewrite lookup_insert_ne in Ht by congruence.
      exists t. split; [exact Ht|]. simpl in Hage. lia.
    + intros (t & Ht & Hage). exists t. apply map_lookup_filter_Some. split.
      * rewrite lookup_insert_ne by congruence. exact Ht.
      * simpl. lia.
Qed.

(** An older nonce is forgotten when the sample nonce is consumed. *)
Lemma consumeNonce_frame_witness :
  isNonceUsed Samples.service_memory_old (Demo.env_at Demo.T0) Samples.NONCE2 = true
  /\ match consumeNonce Samples.service_memory_old (Demo.env_at Demo.T0) Demo.NONCE with
     | Return this' =>
         isNonceUsed this' (Demo.env_at Demo.T0) Samples.NONCE2 <> true
     | Throw _ => False
     end.
Proof.
  split; [reflexivity|].
  destruct (consumeNonce Samples.service_memory_old (Demo.env_at Demo.T0) Demo.NONCE)
    as [this'|m] eqn:Hc; [|vm_compute in Hc; discriminate Hc].
  destruct (consumeNonce_frame _ _ _ _ Hc) as [_ Hframe].
  specialize (Hframe Samples.NONCE2 (Demo.env_at Demo.T0)).
  simpl in Hframe. intros Hused.
  apply Hframe in Hused as (t & Ht & Hage); [|vm_compute; discriminate].
  vm_compute in Ht. injection Ht as <-. vm_compute in Hage. apply Hage. reflexivity.
Defined.

(** X5: the clean-up of the fallback cache keeps exactly the entries at
    most 24 hours old and nothing else; cleaning up again at the same or a
    later instant gives what one clean-up at the later instant gives. *)
Theorem cleanupNonceCache_composes this (t1 t2 : Z) :
  t1 <= t2 ->
  (forall n t, nonceCache (cleanupNonceCache this t1) !! n = Some t <->
               nonceCache this !! n = Some t /\ t1 - t <= maxAge)
  /\ cleanupNonceCache (cleanupNonceCache this t1) t2 = cleanupNonceCache this t2
  /\ redis (cleanupNonceCache this t1) = redis this.
Proof.
  intros Hle. split; [|split].
  - intros n t. unfold cleanupNonceCache, set_nonceCache; simpl.
    rewrite map_lookup_filter_Some. simpl. split; intros [H1 H2]; split; auto; lia.
  - unfold cleanupNonceCache, set_nonceCache; simpl. f_equal.
    apply map_eq. intros n. apply option_eq. intros t.
    rewrite !map_lookup_filter_Some. simpl. split.
    + intros [[H1 H2] H3]. auto.
    + intros [H1 H2]. repeat split; auto. lia.
  - reflexivity.
Qed.

Lemma cleanupNonceCache_composes_witness :
  cleanupNonceCache (cleanupNonceCache Samples.service_memory_old Demo.T0)
    (Demo.T0 + 1)
  = cleanupNonceCache Samples.service_memory_old (Demo.T0 + 1).
Proof.
  apply (cleanupNonceCache_composes Samples.service_memory_old Demo.T0 (Demo.T0 + 1)).
  lia.
Defined.

(** ** The amount ceiling and the default token *)

Lemma get_insert_ne ref fields k j v :
  k <> j -> get (JObj ref (<[ k := v ]> fields)) j = get (JObj ref fields) j.
Proof. intros H. unfold get. rewrite lookup_insert_ne by exact H. reflexivity. Qed.

Lemma get_insert_eq ref fields k v :
  get (JObj ref (<[ k := v ]> fields)) k = v.
Proof. unfold get. rewrite lookup_insert_eq. reflexivity. Qed.

(** X6: the ceiling of 100 is applied only when the token is the string
    SOL.  A record whose token is absent (or falsy) is encoded, and so
    signed, as a SOL record, yet an amount above the ceiling is not refused
    for it: it is judged by the remaining rules alone, while the record that
    names SOL, with the same bytes to sign, is refused. *)
Theorem default_token_skips_ceiling lib ref fields :
  truthy (get (JObj ref fields) "token") = false ->
  num_gtb (parseFloat (get (JObj ref fields) "amount")) MAX_AMOUNT_SOL = true ->
  let bare := JObj ref fields in
  let sol := JObj ref (<[ "token" := JStr "SOL" ]> fields) in
  SignatureService.createMessageToSign bare = SignatureService.createMessageToSign sol
  /\ performSecurityChecks lib sol = Fail "Amount exceeds maximum limit of 100 SOL"
  /\ performSecurityChecks lib bare
     = match first_failure (tl (businessRules lib sol)) with
       | Some error => Fail error
       | None => Ok
       end.
Proof.
  intros Htok Hamt bare sol. split; [|split].
  - rewrite !verifier_layout. apply layout_ext.
    unfold Canonical.FIELD_ORDER.
    repeat (apply Forall_cons; split); try apply Forall_nil;
      unfold Canonical.verifier_value;
      cbn [Canonical.DEFAULTS String.eqb Ascii.eqb Bool.eqb];
      unfold sol; rewrite ?get_insert_ne by discriminate; try reflexivity.
    rewrite get_insert_eq. unfold or_else, bare. rewrite Htok. reflexivity.
  - unfold performSecurityChecks, sol.
    rewrite get_insert_eq, get_insert_ne by discriminate.
    fold bare. unfold bare. rewrite Hamt. reflexivity.
  - rewrite performSecurityChecks_rules. unfold businessRules, sol.
    cbn [tl first_failure].
    rewrite !get_insert_ne by discriminate. fold bare.
    assert (Hne : strict_eq (get bare "token") (JStr "SOL") = false).
    { destruct (strict_eq (get bare "token") (JStr "SOL")) eqn:E; [|reflexivity].
      apply strict_eq_string in E. unfold bare in E. rewrite E in Htok. discriminate. }
    rewrite Hne. reflexivity.
Qed.

Lemma default_token_skips_ceiling_witness :
  performSecurityChecks Demo.lib Samples.record_no_token_big = Ok
  /\ performSecurityChecks Demo.lib
       (Demo.with_field Samples.record_no_token_big "token" (JStr "SOL"))
     = Fail "Amount exceeds maximum limit of 100 SOL".
Proof.
  pose proof (default_token_skips_ceiling Demo.lib 1%nat
                (match Samples.record_no_token_big with JObj _ f => f | _ => ∅ end)
                eq_refl eq_refl) as (_ & H2 & H3).
  split; [|exact H2].
  etransitivity; [exact H3|]. vm_compute. reflexivity.
Defined.

(** ** The life of a Redis entry and the time window *)

(** X7: the Redis entry of a consumed nonce expires 24 hours after the
    write, while the time check looks only at the record: a record accepted
    once is accepted a second time by a call that Redis answers after the
    entry has expired and that still finds the record inside its window
    (possible for a record whose expiry lies more than 24 hours after its
    first verification). *)
Theorem replay_after_redis_expiry lib this env1 env2 sd sig pk r :
  redis this = Some r ->
  Forall (fun c => c = Ok) (pipeline lib this env1 sd sig pk) ->
  setEx_ok env1 = true -> setEx_ok env2 = true ->
  validateTimestamp (t_check env2) sd = Ok ->
  t_write env1 + 24 * 60 * 60 * 1000 <= t_read env2 ->
  exists this1 this2,
    verifySignature lib this env1 sd sig pk = (this1, Valid sd)
    /\ verifySignature lib this1 env2 sd sig pk = (this2, Valid sd).
Proof.
  intros Hr Hall Hw1 Hw2 Ht2 Hexp.
  assert (Hc1 : consumeNonce this env1 (to_string (get sd "nonce"))
                = Return (set_redis this (Redis.setEx r (t_write env1)
                            ("nonce:" +:+ to_string (get sd "nonce")) (24 * 60 * 60) "used"))).
  { unfold consumeNonce. rewrite Hr, Hw1. reflexivity. }
  set (this1 := set_redis this _) in Hc1.
  assert (H1 : verifySignature lib this env1 sd sig pk = (this1, Valid sd)).
  { rewrite verifySignature_first_failure, (first_failure_none _ Hall), Hc1.
    reflexivity. }
  unfold pipeline in Hall.
  apply Forall_cons in Hall as [Hi Hall].
  apply Forall_cons in Hall as [_ Hall].
  apply Forall_cons in Hall as [Hn Hall].
  apply Forall_cons in Hall as [Hd Hall].
  apply Forall_cons in Hall as [Hcr Hall].
  apply Forall_cons in Hall as [Hs _].
  apply validateNonce_ok in Hn as (Hn1 & Hn2 & _).
  assert (Hunused : isNonceUsed this1 env2 (to_string (get sd "nonce")) = false).
  { unfold isNonceUsed, this1, set_redis; simpl.
    destruct (get_ok env2); [|reflexivity].
    unfold Redis.get, Redis.setEx. rewrite lookup_insert_eq.
    destruct (Z.ltb_spec (t_read env2) (t_write env1 + 24 * 60 * 60 * 1000));
      [lia|reflexivity]. }
  assert (Hc2 : exists this2, consumeNonce this1 env2 (to_string (get sd "nonce"))
                              = Return this2).
  { apply consumeNonce_succeeds. right. exact Hw2. }
  destruct Hc2 as [this2 Hc2].
  exists this1, this2. split; [exact H1|].
  rewrite verifySignature_first_failure.
  rewrite first_failure_none; [rewrite Hc2; reflexivity|].
  unfold pipeline. repeat constructor; auto.
  unfold validateNonce. rewrite Hn1, Hn2, Hunused. reflexivity.
Qed.

Lemma replay_after_redis_expiry_witness :
  exists this1 this2,
    verifySignature (Demo.lib_signing Demo.record_long) Demo.service_redis
      (Demo.env_at Demo.T0) Demo.record_long Demo.signature Demo.publicKey
    = (this1, Valid Demo.record_long)
    /\ verifySignature (Demo.lib_signing Demo.record_long) this1
         (Demo.env_at (Demo.T0 + 24 * 60 * 60 * 1000))
         Demo.record_long Demo.signature Demo.publicKey
       = (this2, Valid Demo.record_long).
Proof.
  apply (replay_after_redis_expiry _ Demo.service_redis _ _ _ _ _ ∅ eq_refl).
  - unfold pipeline. repeat constructor; vm_compute; reflexivity.
  - reflexivity.
  - reflexivity.
  - vm_compute. reflexivity.
  - vm_compute. discriminate.
Defined.

(** ** The memo *)

Section StringFacts.

Variable P : ascii -> bool.

Lemma all_chars_remove (p : ascii -> bool) (s : string) :
  all_chars (fun c => negb (p c)) (remove_chars p s) = true.
Proof.
  induction s as [|c s IH]; simpl; [reflexivity|].
  destruct (p c) eqn:E; simpl; [exact IH|]. rewrite E, IH. reflexivity.
Qed.

Lemma remove_chars_id (p : ascii -> bool) (s : string) :
  all_chars (fun c => negb (p c)) s = true -> remove_chars p s = s.
Proof.
  induction s as [|c s IH]; simpl; [reflexivity|].
  intros H. apply andb_true_iff in H as [Hc Hs].
  apply negb_true_iff in Hc. rewrite Hc, (IH Hs). reflexivity.
Qed.

Lemma all_chars_substring (n : nat) (s : string) :
  all_chars P s = true -> all_chars P (String.substring 0 n s) = true.
Proof.
  revert s. induction n as [|n IH]; intros [|c s]; simpl; auto.
  intros H. apply andb_true_iff in H as [Hc Hs].
  rewrite Hc. simpl. auto.
Qed.

Lemma length_substring (n : nat) (s : string) :
  (String.length (String.substring 0 n s) <= n)%nat.
Proof.
  revert s. induction n as [|n IH]; intros [|c s]; simpl; try lia.
  specialize (IH s). lia.
Qed.

Lemma substring_whole (n : nat) (s : string) :
  (String.length s <= n)%nat -> String.substring 0 n s = s.
Proof.
  revert s. induction n as [|n IH]; intros [|c s]; simpl; intros H;
    try reflexivity; try lia.
  rewrite IH by lia. reflexivity.
Qed.

Lemma all_chars_skip_spaces (s : string) :
  all_chars P s = true -> all_chars P (skip_spaces s) = true.
Proof.
  induction s as [|c s IH]; simpl; [auto|].
  intros H. destruct (is_space c); [|exact H].
  apply andb_true_iff in H as [_ Hs]. auto.
Qed.

Lemma all_chars_trim_end (s : string) :
  all_chars P s = true -> all_chars P (trim_end s) = true.
Proof.
  induction s as [|c s IH]; simpl; [auto|].
  intros H. apply andb_true_iff in H as [Hc Hs]. specialize (IH Hs).
  destruct (trim_end s) as [|d r].
  - destruct (is_space c); simpl; [reflexivity|]. rewrite Hc. reflexivity.
  - simpl in *. rewrite Hc. exact IH.
Qed.

End StringFacts.

Lemma length_skip_spaces (s : string) :
  (String.length (skip_spaces s) <= String.length s)%nat.
Proof.
  induction s as [|c s IH]; simpl; [lia|].
  destruct (is_space c); simpl; lia.
Qed.

Lemma length_trim_end (s : string) :
  (String.length (trim_end s) <= String.length s)%nat.
Proof.
  induction s as [|c s IH]; simpl; [lia|].
  destruct (trim_end s) as [|d r]; [destruct (is_space c)|]; simpl in *; lia.
Qed.

Lemma trim_end_idem (s : string) : trim_end (trim_end s) = trim_end s.
Proof.
  induction s as [|c s IH]; simpl; [reflexivity|].
  destruct (trim_end s) as [|d r] eqn:E.
  - destruct (is_space c) eqn:Ec; simpl; [reflexivity|]. rewrite Ec. reflexivity.
  - change (trim_end (String c (String d r)))
      with (match trim_end (String d r) with
            | EmptyString => if is_space c then EmptyString else String c EmptyString
            | x => String c x
            end).
    rewrite IH. reflexivity.
Qed.

Lemma skip_spaces_head (s : string) :
  skip_spaces s = s ->
  match s with EmptyString => True | String c _ => is_space c = false end.
Proof.
  destruct s as [|c s]; simpl; [auto|].
  destruct (is_space c); [|auto].
  intros H. pose proof (length_skip_spaces s) as L. rewrite H in L. simpl in L. lia.
Qed.

Lemma skip_spaces_idem (s : string) : skip_spaces (skip_spaces s) = skip_spaces s.
Proof.
  induction s as [|c s IH]; simpl; [reflexivity|].
  destruct (is_space c) eqn:E; [exact IH|]. simpl. rewrite E. reflexivity.
Qed.

Lemma skip_spaces_trim_end (s : string) :
  skip_spaces s = s -> skip_spaces (trim_end s) = trim_end s.
Proof.
  intros H. apply skip_spaces_head in H.
  destruct s as [|c s]; [reflexivity|]. simpl.
  destruct (trim_end s) as [|d r].
  - destruct (is_space c) eqn:E; [discriminate|]. simpl. rewrite E. reflexivity.
  - simpl. rewrite H. reflexivity.
Qed.

Lemma trim_idem (s : string) : trim (trim s) = trim s.
Proof.
  unfold trim.
  rewrite (skip_spaces_trim_end (skip_spaces s) (skip_spaces_idem s)).
  apply trim_end_idem.
Qed.

(** X8: for a memo of the ASCII range the sanitised text holds none of
    the five markup characters, has at most 200 characters and no white
    space at either end, and sanitising it again changes nothing; a memo
    that is not a string, or is empty, gives the empty text. *)
Theorem sanitizeMemo_safe (memo : jsval) :
  (forall s, memo = JStr s -> all_chars (fun c => code c <? 128) s = true) ->
  let out := SecurityUtils.sanitizeMemo memo in
  all_chars (fun c => negb (SecurityUtils.markup_char c)) out = true
  /\ (String.length out <= 200)%nat
  /\ trim out = out
  /\ all_chars (fun c => code c <? 128) out = true
  /\ SecurityUtils.sanitizeMemo (JStr out) = out
  /\ (is_string memo = false -> out = EmptyString).
Proof.
  intros Hascii out.
  assert (Hshape : out = EmptyString
                   \/ exists s, memo = JStr s /\ out = trim (String.substring 0 200
                        (remove_chars SecurityUtils.markup_char s))).
  { unfold out, SecurityUtils.sanitizeMemo.
    destruct (negb (truthy memo) || negb (is_string memo)) eqn:E; [left; reflexivity|].
    apply truthy_string in E as (s & -> & _). right. eauto. }
  assert (H1 : all_chars (fun c => negb (SecurityUtils.markup_char c)) out = true).
  { destruct Hshape as [->|(s & _ & ->)]; [reflexivity|].
    apply all_chars_trim_end, all_chars_skip_spaces, all_chars_substring,
      all_chars_remove. }
  assert (H2 : (String.length out <= 200)%nat).
  { destruct Hshape as [->|(s & _ & ->)]; [simpl; lia|].
    unfold trim.
    pose proof (length_trim_end (skip_spaces (String.substring 0 200
                  (remove_chars SecurityUtils.markup_char s)))).
    pose proof (length_skip_spaces (String.substring 0 200
                  (remove_chars SecurityUtils.markup_char s))).
    pose proof (length_substring 200 (remove_chars SecurityUtils.markup_char s)).
    lia. }
  assert (H3 : trim out = out).
  { destruct Hshape as [->|(s & _ & ->)]; [reflexivity|]. apply trim_idem. }
  split; [exact H1|]. split; [exact H2|]. split; [exact H3|]. split; [|split].
  - destruct Hshape as [->|(s & -> & ->)]; [reflexivity|].
    apply all_chars_trim_end, all_chars_skip_spaces, all_chars_substring.
    specialize (Hascii s eq_refl).
    clear -Hascii. induction s as [|c s IH]; simpl in *; [reflexivity|].
    apply andb_true_iff in Hascii as [Hc Hs].
    destruct (SecurityUtils.markup_char c); simpl; [auto|].
    rewrite Hc. auto.
  - unfold SecurityUtils.sanitizeMemo at 1. cbn [truthy is_string to_string].
    destruct out as [|c out'] eqn:Eo; [reflexivity|].
    cbn [String.eqb negb orb]. rewrite <- Eo in *.
    rewrite (remove_chars_id _ _ H1), (substring_whole _ _ H2). exact H3.
  - intros Hns. destruct Hshape as [->|(s & -> & _)]; [reflexivity|discriminate].
Qed.

Lemma sanitizeMemo_safe_witness :
  SecurityUtils.sanitizeMemo (JStr "  <b>Rent & 'fees'</b>  ") = "bRent  fees/b"
  /\ SecurityUtils.sanitizeMemo
       (JStr (SecurityUtils.sanitizeMemo (JStr "  <b>Rent & 'fees'</b>  ")))
     = SecurityUtils.sanitizeMemo (JStr "  <b>Rent & 'fees'</b>  ").
Proof.
  split; [reflexivity|].
  apply (sanitizeMemo_safe (JStr "  <b>Rent & 'fees'</b>  ")).
  intros s [= <-]. reflexivity.
Defined.

(** ** The nonce manager *)



(** X10: in the local cache an entry blocks its nonce beyond its expiry.
    [exists] looks only for the key, so an expired entry still answers
    [true] and the nonce is still refused as a replay, while [getNonceInfo]
    already answers [null]; the nonce is free again only once
    [cleanupExpiredNonces] has run after the expiry, and a clean-up that
    runs no later than the expiry keeps the entry. *)
Theorem local_entry_outlives_expiry JSON_parse this env (nonce nonceData : string)
    (expiresAt : Z) :
  NonceManager.redis this = None ->
  NonceManager.isValidNonceFormat (JStr nonce) = true ->
  NonceManager.localCache this !! nonce = Some (nonceData, expiresAt) ->
  expiresAt <= t_read env ->
  NonceManager.exists_ this env (JStr nonce) = true
  /\ NonceManager.getNonceInfo JSON_parse this env (JStr nonce) = NonceManager.NoInfo
  /\ (forall data : string,
        NonceManager.validateAndConsume this env (JStr nonce) data
        = (this, NonceManager.Failure
                   "Nonce has already been used (replay attack detected)" true))
  /\ (forall now, expiresAt <> 0 -> expiresAt < now ->
        NonceManager.exists_ (NonceManager.cleanupExpiredNonces this now) env
          (JStr nonce) = false)
  /\ (forall now, now <= expiresAt ->
        NonceManager.exists_ (NonceManager.cleanupExpiredNonces this now) env
          (JStr nonce) = true).
Proof.
  intros Hr Hf Hl Hexp.
  assert (Hex : NonceManager.exists_ this env (JStr nonce) = true).
  { unfold NonceManager.exists_. rewrite Hf, Hr. simpl.
    apply bool_decide_eq_true. rewrite Hl. eauto. }
  split; [exact Hex|]. split; [|split; [|split]].
  - unfold NonceManager.getNonceInfo. rewrite Hr, Hl.
    destruct (Z.ltb_spec (t_read env) expiresAt); [lia|reflexivity].
  - intros data. unfold NonceManager.validateAndConsume. rewrite Hf, Hex. reflexivity.
  - intros now Hnz Hlt.
    unfold NonceManager.exists_, NonceManager.cleanupExpiredNonces.
    rewrite Hf, Hr. simpl. apply bool_decide_eq_false.
    intros [x Hx]. apply map_lookup_filter_Some in Hx as [Hx Hkeep].
    rewrite Hl in Hx. injection Hx as <-. simpl in Hkeep. apply Hkeep. auto.
  - intros now Hle.
    unfold NonceManager.exists_, NonceManager.cleanupExpiredNonces.
    rewrite Hf, Hr. simpl. apply bool_decide_eq_true.
    exists (nonceData, expiresAt). apply map_lookup_filter_Some. split; [exact Hl|].
    simpl. lia.
Qed.

Lemma local_entry_outlives_expiry_witness :
  NonceManager.exists_ Samples.manager_local_expired (Demo.env_at Demo.T0)
    (JStr Samples.NONCE2) = true
  /\ NonceManager.getNonceInfo Samples.JSON_parse Samples.manager_local_expired
       (Demo.env_at Demo.T0) (JStr Samples.NONCE2) = NonceManager.NoInfo.
Proof.
  destruct (local_entry_outlives_expiry Samples.JSON_parse
              Samples.manager_local_expired (Demo.env_at Demo.T0) Samples.NONCE2
              "{}" (Demo.T0 - 60 * 60 * 1000))
    as (H1 & H2 & _); try reflexivity.
  - vm_compute. discriminate.
  - split; assumption.
Defined.

(** ** From the signer to the verifier *)

Lemma created_required_fields nonce now host td :
  let sd := SecurityUtils.createSignatureData nonce now host td in
  get sd "nonce" = JStr nonce
  /\ get sd "timestamp" = JNum (of_Z now)
  /\ get sd "expiry" = JNum (of_Z (now + 15 * 60 * 1000))
  /\ get sd "domain" = JStr host
  /\ get sd "source" = get td "source"
  /\ get sd "destination" = get td "destination"
  /\ get sd "amount" = get td "amount".
Proof.
  unfold SecurityUtils.createSignatureData.
  generalize (or_else (get td "token") (JStr "SOL"))
    (or_else (get td "memo") (JStr EmptyString))
    (or_else (get td "maxSlippage") (JNum (Dec 1 2)))
    (get td "source") (get td "destination") (get td "amount").
  intros. cbv zeta. unfold get.
  rewrite !list_to_map_cons.
  repeat split; simplify_map_eq; reflexivity.
Qed.

Lemma created_passes_validateInputs nonce now host td (sig pk : string) :
  sig <> EmptyString -> pk <> EmptyString ->
  validateInputs (SecurityUtils.createSignatureData nonce now host td)
    (JStr sig) (JStr pk) = Ok.
Proof.
  intros Hs Hp. unfold validateInputs, SecurityUtils.createSignatureData.
  cbn [truthy is_object typeof negb orb is_string].
  destruct sig; [contradiction|]. destruct pk; [contradiction|].
  cbn [String.eqb negb orb].
  apply checkRequired_ok. intros k Hk.
  unfold requiredFields in Hk.
  rewrite !list_to_map_cons.
  repeat (apply elem_of_cons in Hk as [->|Hk]; [simplify_map_eq; eauto|]).
  inversion Hk.
Qed.

Lemma created_passes_validateTimestamp nonce now host td (clock : Z) :
  now - 5 * 60 * 1000 <= clock <= now + 15 * 60 * 1000 ->
  validateTimestamp clock (SecurityUtils.createSignatureData nonce now host td) = Ok.
Proof.
  intros Hc.
  destruct (created_required_fields nonce now host td) as (_ & Ht & He & _).
  unfold validateTimestamp. rewrite Ht, He, !parseInt_int.
  unfold of_Z, maxClockSkew, maxValidityWindow.
  rewrite !num_gtb_int, num_sub_int, num_gtb_int.
  destruct (Z.ltb_spec (clock + 5 * 60 * 1000) now); [lia|].
  destruct (Z.ltb_spec (now + 15 * 60 * 1000) clock); [lia|].
  destruct (Z.ltb_spec (24 * 60 * 60 * 1000) (now + 15 * 60 * 1000 - now)); [lia|].
  reflexivity.
Qed.

Lemma validated_transfer lib typeErrorMessage td :
  DeepLinkGenerator.validateTransferData lib typeErrorMessage td = Return Ok ->
  exists ref fields, td = JObj ref fields
  /\ SecurityUtilsCrypto.isValidSolanaAddress lib (get td "destination") = true
  /\ isNaN (parseFloat (get td "amount"))
     || num_leb (parseFloat (get td "amount")) (of_Z 0) = false
  /\ strict_eq (or_else (get td "token") (JStr "SOL")) (JStr "SOL")
     && num_gtb (parseFloat (get td "amount")) SecurityUtilsCrypto.MAX_AMOUNT_SOL
     = false.
Proof.
  unfold DeepLinkGenerator.validateTransferData.
  destruct (nullish td) eqn:Hn; [discriminate|].
  intros H. injection H as H.
  destruct (negb (truthy (get td "destination")) || negb (truthy (get td "amount")))
    eqn:Ht; [discriminate|].
  destruct (SecurityUtilsCrypto.isValidSolanaAddress lib (get td "destination"))
    eqn:Hd; [|discriminate]. cbn [negb] in H.
  destruct (isNaN (parseFloat (get td "amount"))
            || num_leb (parseFloat (get td "amount")) (of_Z 0)) eqn:Ha; [discriminate|].
  destruct (strict_eq (DeepLinkGenerator.get_default td "token" (JStr "SOL")) (JStr "SOL")
            && num_gtb (parseFloat (get td "amount")) SecurityUtilsCrypto.MAX_AMOUNT_SOL)
    eqn:Hc; [discriminate|].
  destruct (truthy (DeepLinkGenerator.get_default td "memo" (JStr EmptyString))
            && num_gtb (to_number (length_of
                 (DeepLinkGenerator.get_default td "memo" (JStr EmptyString)))) (of_Z 200));
    [discriminate|].
  destruct (is_string (DeepLinkGenerator.get_default td "token" (JStr "SOL"))
            && bool_decide (to_string (DeepLinkGenerator.get_default td "token" (JStr "SOL"))
                            ∈ DeepLinkGenerator.supportedTokens)) eqn:Hs; [|discriminate].
  assert (Hobj : exists ref fields, td = JObj ref fields).
  { destruct td; try discriminate Ht. eauto. }
  destruct Hobj as (ref & fields & ->). exists ref, fields.
  split; [reflexivity|]. split; [reflexivity|]. split; [reflexivity|].
  assert (Htok : or_else (get (JObj ref fields) "token") (JStr "SOL")
                 = DeepLinkGenerator.get_default (JObj ref fields) "token" (JStr "SOL")).
  { apply andb_true_iff in Hs as [Hs1 Hs2]. apply bool_decide_eq_true in Hs2.
    unfold DeepLinkGenerator.get_default, or_else in *.
    destruct (get (JObj ref fields) "token") as [| | | |s|]; try discriminate Hs1;
      try reflexivity.
    simpl in Hs2. destruct s; [|reflexivity].
    unfold DeepLinkGenerator.supportedTokens in Hs2.
    repeat (apply elem_of_cons in Hs2 as [Hs2|Hs2]; [discriminate|]).
    inversion Hs2. }
  rewrite Htok. exact Hc.
Qed.

(** X11: what the signer produces, the verifier accepts.  Take transfer
    data that [validateTransferData] accepts and that sets no slippage,
    complete it with the wallet's address (a 32-byte address other than the
    destination), and sign it with [SecurityUtils.signTransferData] at the
    instant [now] on an allow-listed host with a nonce drawn from 32 bytes.
    When the signature is that of the key pair, the record reaches
    [verifySignature] as it was built, the verifier's clock reads between
    [now] - 5 min and [now] + 15 min, the nonce is not yet in the store and
    the store accepts the write, the verdict is valid, it returns the
    record, and the nonce is recorded. *)
Theorem signed_transfer_is_accepted lib slib typeErrorMessage this env
    (randomBytes privateKey publicKeyBytes : list Byte.byte)
    (now : Z) (host publicKey : string) (ref : nat) (transferData : jsval) :
  let nonce := SecurityUtils.generateNonce randomBytes in
  let signed :=
    SecurityUtilsCrypto.signTransferData slib nonce now host
      (DeepLinkGenerator.completeTransferData ref transferData (JStr publicKey))
      privateKey in
  DeepLinkGenerator.validateTransferData lib typeErrorMessage transferData = Return Ok ->
  get transferData "maxSlippage" = JUndefined ->
  publicKey <> EmptyString ->
  bs58_decode lib publicKey = Return publicKeyBytes ->
  length publicKeyBytes = 32%nat ->
  get transferData "destination" <> JStr publicKey ->
  honest_signature lib slib privateKey publicKeyBytes
    (SecurityUtils.createMessageToSign (fst signed)) ->
  length randomBytes = 32%nat ->
  host <> EmptyString ->
  host ∈ SUPPORTED_DOMAINS this ->
  now - 5 * 60 * 1000 <= t_check env <= now + 15 * 60 * 1000 ->
  isNonceUsed this env nonce = false ->
  redis this = None \/ setEx_ok env = true ->
  t_clean env - t_write env <= maxAge ->
  exists this',
    verifySignature lib this env (fst signed) (JStr (snd signed)) (JStr publicKey)
    = (this', Valid (fst signed))
    /\ recorded this' nonce.
Proof.
  intros nonce signed Hval Hslip Hpkne Hpk Hpklen Hdst Hsig Hlen Hhost Hin Hclock
    Hunused Hwrite Hclean.
  unfold SecurityUtilsCrypto.signTransferData in signed.
  set (td := DeepLinkGenerator.completeTransferData ref transferData (JStr publicKey))
    in signed.
  set (sd := SecurityUtils.createSignatureData nonce now host td) in signed.
  subst signed. cbn [fst snd] in *.
  destruct Hsig as (Hslen & Hsne & Hsdec & Hsver).
  set (sigbytes := nacl_sign slib (SecurityUtils.createMessageToSign sd) privateKey) in *.
  destruct (validated_transfer _ _ _ Hval) as (r0 & fields & -> & Hd & Ha & Hc).
  assert (Htd : forall k, k <> "source" -> get td k = get (JObj r0 fields) k).
  { intros k Hk. unfold td, DeepLinkGenerator.completeTransferData.
    unfold get. rewrite lookup_insert_ne by congruence. reflexivity. }
  assert (Hsrc : get td "source" = JStr publicKey).
  { unfold td, DeepLinkGenerator.completeTransferData. apply get_insert_eq. }
  clearbody td.
  destruct (created_required_fields nonce now host td)
    as (Gn & _ & _ & Gd & Gs & Gdst & Ga).
  destruct (created_optional_fields nonce now host td) as (Gv & Gt & _ & Gm).
  fold sd in Gn, Gd, Gs, Gdst, Ga, Gv, Gt, Gm.
  rewrite Hsrc in Gs.
  rewrite Htd in Gdst by discriminate. rewrite Htd in Ga by discriminate.
  rewrite Htd in Gt by discriminate. rewrite Htd, Hslip in Gm by discriminate.
  change (or_else JUndefined (JNum (Dec 1 2))) with (JNum (Dec 1 2)) in Gm.
  (* the nonce *)
  destruct (generateNonce_shape 32 randomBytes ltac:(lia)) as [Hnc Hnl].
  rewrite Hlen in Hnl. change ((4 * 32 + 2) / 3)%nat with 43%nat in Hnl.
  fold nonce in Hnc, Hnl.
  assert (Hnne : String.eqb nonce EmptyString = false).
  { destruct nonce; [discriminate Hnl|reflexivity]. }
  destruct (consumeNonce_succeeds this env nonce Hwrite) as [this' Hcons].
  exists this'. split; [|exact (consumeNonce_recorded _ _ _ _ Hcons Hclean)].
  unfold verifySignature.
  assert (Hvi : validateInputs sd (JStr (bs58_encode slib sigbytes)) (JStr publicKey) = Ok)
    by (apply created_passes_validateInputs; assumption).
  assert (Hvt : validateTimestamp (t_check env) sd = Ok)
    by (apply created_passes_validateTimestamp; assumption).
  rewrite Hvi, Hvt, Gn, Gd.
  assert (Hvn : validateNonce this env (JStr nonce) = Ok).
  { unfold validateNonce, base64UrlRegex. cbn [truthy is_string to_string].
    rewrite Hnne, Hnc, Hunused. reflexivity. }
  rewrite Hvn.
  assert (Hvd : validateDomain this (JStr host) = Ok).
  { unfold validateDomain. cbn [truthy is_string to_string].
    destruct host; [contradiction|]. cbn [String.eqb negb orb].
    rewrite bool_decide_eq_true_2 by exact Hin. reflexivity. }
  rewrite Hvd.
  assert (Hvc : verifyCryptographicSignature lib sd (JStr (bs58_encode slib sigbytes))
                  (JStr publicKey) = Ok).
  { unfold verifyCryptographicSignature, bs58_decode_val.
    rewrite Hsdec, Hpk, Hslen, Hpklen. cbn [Nat.eqb negb].
    change ((64 =? 64)%nat) with true. change ((32 =? 32)%nat) with true. cbn [negb].
    assert (Henc : SignatureService.createMessageToSign sd
                   = SecurityUtils.createMessageToSign sd)
      by (symmetry; apply encoders_agree_on_created).
    rewrite Henc, Hsver. reflexivity. }
  rewrite Hvc.
  assert (Hvs : performSecurityChecks lib sd = Ok).
  { unfold performSecurityChecks. rewrite Gt, Ga, Gs, Gdst, Gm, Gv.
    unfold SecurityUtilsCrypto.MAX_AMOUNT_SOL in Hc. unfold MAX_AMOUNT_SOL.
    rewrite Hc.
    assert (Hps : SignatureService.isValidSolanaAddress lib (JStr publicKey) = true).
    { unfold SignatureService.isValidSolanaAddress, bs58_decode_val.
      rewrite Hpk, Hpklen. reflexivity. }
    rewrite Hps.
    change (SignatureService.isValidSolanaAddress lib (get (JObj r0 fields) "destination"))
      with (SecurityUtilsCrypto.isValidSolanaAddress lib (get (JObj r0 fields) "destination")).
    rewrite Hd. cbn [negb orb].
    assert (Hse : strict_eq (JStr publicKey) (get (JObj r0 fields) "destination") = false).
    { destruct (get (JObj r0 fields) "destination") as [| | | |s|]; try reflexivity.
      simpl. apply String.eqb_neq. congruence. }
    rewrite Hse, Ha.
    reflexivity. }
  rewrite Hvs. cbn [to_string]. rewrite Hcons. reflexivity.
Qed.

Lemma signed_transfer_is_accepted_witness :
  exists this',
    verifySignature Samples.lib_signed_transfer Demo.service_memory
      (Demo.env_at (Demo.T0 + 60 * 1000))
      (fst Samples.signed_transfer) (JStr (snd Samples.signed_transfer))
      (JStr Samples.wallet)
    = (this', Valid (fst Samples.signed_transfer))
    /\ recorded this' (SecurityUtils.generateNonce (repeat Byte.xff 32)).
Proof.
  apply (signed_transfer_is_accepted Samples.lib_signed_transfer Samples.signer
           "Cannot destructure" Demo.service_memory (Demo.env_at (Demo.T0 + 60 * 1000))
           (repeat Byte.xff 32) [] (repeat Byte.x00 32)
           Demo.T0 "localhost:3000" Samples.wallet 3%nat Samples.transfer).
  - vm_compute. reflexivity.
  - reflexivity.
  - discriminate.
  - vm_compute. reflexivity.
  - reflexivity.
  - vm_compute. discriminate.
  - repeat split; try (vm_compute; reflexivity). vm_compute. discriminate.
  - reflexivity.
  - discriminate.
  - apply elem_of_cons. left. reflexivity.
  - simpl. unfold Demo.T0. lia.
  - vm_compute. reflexivity.
  - left. reflexivity.
  - simpl. unfold maxAge. lia.
Defined.

(** ** The record the generator signs *)

Lemma append_same_length (a b r s : string) :
  String.length a = String.length b -> a +:+ r = b +:+ s -> a = b.
Proof.
  revert b. induction a as [|c a IH]; intros [|d b] Hl H; try discriminate.
  - reflexivity.
  - simpl in Hl, H. injection H as -> H. f_equal. apply IH; [lia|exact H].
Qed.

Lemma list_byte_of_string_inj (a b : string) :
  list_byte_of_string a = list_byte_of_string b -> a = b.
Proof.
  intros H. rewrite <- (string_of_list_byte_of_string a),
    <- (string_of_list_byte_of_string b), H. reflexivity.
Qed.

Lemma signer_message_nonce (a b : jsval) (m n : string) :
  get a "nonce" = JStr m -> get b "nonce" = JStr n ->
  String.length m = String.length n ->
  SecurityUtils.createMessageToSign a = SecurityUtils.createMessageToSign b -> m = n.
Proof.
  intros Ha Hb Hl H. unfold SecurityUtils.createMessageToSign, utf8 in H.
  apply list_byte_of_string_inj in H. rewrite Ha, Hb in H.
  cbn [join to_string] in H.
  apply nonce_key_inj.
  refine (append_same_length ("nonce:" +:+ m) ("nonce:" +:+ n) _ _ _ H).
  simpl. change ("" +:+ m) with m. change ("" +:+ n) with n.
  rewrite Hl. reflexivity.
Qed.

(** X12: [DeepLinkGenerator.signTransferData] returns a record the wallet
    did not sign.  It builds the record twice: the wallet signs the message
    of the first, and the second, with its own fresh nonce, is returned
    beside that signature.  When the two nonces differ (they have the same
    length) the message of the returned record, under either encoder, is not
    the message signed; so with libraries in which the signature verifies
    for no other message than the one signed, [verifySignature] never
    accepts what the generator returns. *)
Theorem generator_signs_another_record signMessage (nonce1 nonce2 : string)
    (now1 now2 : Z) (host : string) (transferData signatureData signature : jsval) :
  let signedMessage :=
    SecurityUtils.createMessageToSign
      (SecurityUtils.createSignatureData nonce1 now1 host transferData) in
  DeepLinkGenerator.signTransferData signMessage nonce1 now1 nonce2 now2 host
    transferData = Return (signatureData, signature) ->
  String.length nonce1 = String.length nonce2 ->
  nonce1 <> nonce2 ->
  signMessage signedMessage = Return signature
  /\ get signatureData "nonce" = JStr nonce2
  /\ SecurityUtils.createMessageToSign signatureData <> signedMessage
  /\ SignatureService.createMessageToSign signatureData <> signedMessage
  /\ (forall lib this env publicKey,
        (forall message signatureBytes publicKeyBytes,
            bs58_decode_val lib signature = Return signatureBytes ->
            nacl_verify lib message signatureBytes publicKeyBytes = true ->
            message = signedMessage) ->
        exists error,
          verifySignature lib this env signatureData signature publicKey
          = (this, Invalid error)).
Proof.
  intros signedMessage H Hl Hne.
  unfold DeepLinkGenerator.signTransferData in H. fold signedMessage in H.
  destruct (signMessage signedMessage) as [sg|m] eqn:Hs; [|discriminate].
  injection H as <- <-.
  set (sd1 := SecurityUtils.createSignatureData nonce1 now1 host transferData) in *.
  set (sd2 := SecurityUtils.createSignatureData nonce2 now2 host transferData).
  assert (G1 : get sd1 "nonce" = JStr nonce1)
    by apply (created_required_fields nonce1 now1 host transferData).
  assert (G2 : get sd2 "nonce" = JStr nonce2)
    by apply (created_required_fields nonce2 now2 host transferData).
  assert (Hsig : SecurityUtils.createMessageToSign sd2 <> signedMessage).
  { intros E. apply Hne. symmetry.
    exact (signer_message_nonce sd2 sd1 nonce2 nonce1 G2 G1 (eq_sym Hl) E). }
  assert (Hver : SignatureService.createMessageToSign sd2 <> signedMessage).
  { assert (E : SignatureService.createMessageToSign sd2
                = SecurityUtils.createMessageToSign sd2)
      by (symmetry; apply encoders_agree_on_created).
    rewrite E. exact Hsig. }
  split; [reflexivity|]. split; [exact G2|]. split; [exact Hsig|]. split; [exact Hver|].
  intros lib this env publicKey Hunf.
  destruct (verifySignature lib this env sd2 sg publicKey) as [this' [d|e]] eqn:Hv.
  - exfalso.
    rewrite verifySignature_first_failure in Hv.
    destruct (first_failure (pipeline lib this env sd2 sg publicKey)) eqn:Hf;
      [discriminate|].
    apply first_failure_none_inv in Hf. unfold pipeline in Hf.
    apply Forall_cons in Hf as [_ Hf]. apply Forall_cons in Hf as [_ Hf].
    apply Forall_cons in Hf as [_ Hf]. apply Forall_cons in Hf as [_ Hf].
    apply Forall_cons in Hf as [Hc _].
    apply crypto_ok in Hc as (s & p & sb & pb & -> & -> & Hds & _ & _ & _ & Hok).
    apply Hver. apply (Hunf _ sb pb); [exact Hds|exact Hok].
  - exists e. f_equal.
    exact (verifySignature_invalid_same lib this env sd2 sg publicKey this' e Hv).
Qed.

Lemma oracle_verifies_only (signed message : list Byte.byte) sb pb :
  nacl_verify (Reference.libraries [signed]) message sb pb = true -> message = signed.
Proof.
  simpl. rewrite orb_false_r. unfold Reference.bytes_eqb. intros H.
  apply String.eqb_eq in H.
  rewrite <- (list_byte_of_string_of_list_byte message),
    <- (list_byte_of_string_of_list_byte signed), H. reflexivity.
Qed.

Lemma generator_signs_another_record_witness :
  exists error,
    verifySignature Samples.lib_first_nonce Demo.service_memory (Demo.env_at Demo.T0)
      (SecurityUtils.createSignatureData Samples.NONCE2 Demo.T0 "localhost:3000"
         Samples.complete_transfer)
      (JStr (bs58_encode Samples.signer (repeat Byte.x01 64)))
      (JStr Samples.wallet)
    = (Demo.service_memory, Invalid error).
Proof.
  destruct (generator_signs_another_record Samples.signMessage
              Demo.NONCE Samples.NONCE2 Demo.T0 Demo.T0 "localhost:3000"
              Samples.complete_transfer
              (SecurityUtils.createSignatureData Samples.NONCE2 Demo.T0 "localhost:3000"
                 Samples.complete_transfer)
              (JStr (bs58_encode Samples.signer (repeat Byte.x01 64))))
    as (_ & _ & _ & _ & H).
  - reflexivity.
  - reflexivity.
  - discriminate.
  - apply (H Samples.lib_first_nonce Demo.service_memory (Demo.env_at Demo.T0)
             (JStr Samples.wallet)).
    intros message sb pb _ Hv.
    exact (oracle_verifies_only _ _ _ _ Hv).
Defined.

(** ** The verification routes *)

Lemma with_own_signatureService st :
  VerificationRoutes.with_signatureService st (VerificationRoutes.signatureService st) = st.
Proof.
  destruct st as [r sc mc d nc lc].
  unfold VerificationRoutes.with_signatureService, VerificationRoutes.signatureService.
  simpl. destruct sc; reflexivity.
Qed.

Lemma valid_addresses_are_strings lib this env sd sig pk this' data :
  verifySignature lib this env sd sig pk = (this', Valid data) ->
  is_string (get sd "source") = true /\ is_string (get sd "destination") = true
  /\ nullish sd = false /\ data = sd.
Proof.
  intros Hv. rewrite verifySignature_first_failure in Hv.
  destruct (first_failure (pipeline lib this env sd sig pk)) eqn:Hf; [discriminate|].
  apply first_failure_none_inv in Hf. unfold pipeline in Hf.
  apply Forall_cons in Hf as [Hi Hf]. apply Forall_cons in Hf as [_ Hf].
  apply Forall_cons in Hf as [_ Hf]. apply Forall_cons in Hf as [_ Hf].
  apply Forall_cons in Hf as [_ Hf]. apply Forall_cons in Hf as [Hs _].
  destruct (consumeNonce this env (to_string (get sd "nonce"))); [|discriminate].
  injection Hv as _ <-.
  unfold performSecurityChecks in Hs.
  destruct (strict_eq (get sd "token") (JStr "SOL") && _); [discriminate|].
  destruct (SignatureService.isValidSolanaAddress lib (get sd "source")) eqn:Ha;
    [|discriminate].
  destruct (SignatureService.isValidSolanaAddress lib (get sd "destination")) eqn:Hb;
    [|discriminate].
  apply address_ok in Ha as (s & b & -> & _).
  apply address_ok in Hb as (s' & b' & -> & _).
  repeat split. destruct sd; try discriminate Hi; reflexivity.
Qed.

(** X13: the answers of [POST /verify-signature].  The status is 200, 400
    or 500.  It is 200 exactly when the request passed the validator chain,
    [signatureData.source] is the public key submitted, and
    [verifySignature] returned a valid verdict; so a 200 is never sent for a
    record signed under another key than its source.  Every other answer
    leaves the router, and so both nonce stores, as they were.  A 500 is
    sent only for a body whose [signatureData] is null or undefined or whose
    source or destination is not a string. *)
Theorem verify_route_answers lib st env (validationPassed : bool) sd sig pk :
  let answer := VerificationRoutes.verifySignatureRoute lib st env validationPassed
                  sd sig pk in
  let response := snd answer in
  (VerificationRoutes.status response = 200
   <-> validationPassed = true
       /\ strict_eq (get sd "source") pk = true
       /\ exists svc, verifySignature lib (VerificationRoutes.signatureService st)
                        env sd sig pk = (svc, Valid sd))
  /\ (VerificationRoutes.status response = 200 ->
      VerificationRoutes.success response = true
      /\ fst answer
         = VerificationRoutes.with_signatureService st
             (fst (verifySignature lib (VerificationRoutes.signatureService st)
                     env sd sig pk)))
  /\ (VerificationRoutes.status response <> 200 ->
      fst answer = st /\ VerificationRoutes.success response = false)
  /\ (VerificationRoutes.status response = 200
      \/ VerificationRoutes.status response = 400
      \/ VerificationRoutes.status response = 500)
  /\ (VerificationRoutes.status response = 500 ->
      nullish sd = true
      \/ is_string (get sd "source") = false
      \/ is_string (get sd "destination") = false).
Proof.
  cbv zeta. unfold VerificationRoutes.verifySignatureRoute.
  destruct validationPassed; cbn [negb].
  2:{ simpl. split; [split; [discriminate|intros (H & _); discriminate]|].
      split; [discriminate|]. split; [auto|]. split; [auto|discriminate]. }
  destruct (nullish sd) eqn:Hn.
  { simpl. split; [split; [discriminate|]|].
    - intros (_ & _ & svc & Hv).
      apply valid_addresses_are_strings in Hv as (_ & _ & Hn' & _). congruence.
    - split; [discriminate|]. split; [auto|]. split; auto. }
  destruct (strict_eq (get sd "source") pk) eqn:Hk; cbn [negb].
  2:{ simpl. split; [split; [discriminate|intros (_ & H & _); discriminate]|].
      split; [discriminate|]. split; [auto|]. split; [auto|discriminate]. }
  destruct (verifySignature lib (VerificationRoutes.signatureService st) env sd sig pk)
    as [svc v] eqn:Hv.
  destruct v as [d|e].
  - destruct (valid_addresses_are_strings _ _ _ _ _ _ _ _ Hv) as (Hs1 & Hs2 & _ & ->).
    unfold VerificationRoutes.hashForAudit_throws. rewrite Hs1, Hs2. simpl.
    split; [split; [intros _; eauto|reflexivity]|].
    split; [auto|]. split; [congruence|]. split; [auto|discriminate].
  - assert (Hsame : svc = VerificationRoutes.signatureService st)
      by exact (verifySignature_invalid_same lib _ env sd sig pk svc e Hv).
    subst svc. rewrite with_own_signatureService.
    destruct (VerificationRoutes.hashForAudit_throws (get sd "source")
              || VerificationRoutes.hashForAudit_throws (get sd "destination")) eqn:Hh;
      simpl.
    + split; [split; [discriminate|intros (_ & _ & svc & Hv'); discriminate]|].
      split; [discriminate|]. split; [auto|]. split; [auto|].
      intros _. unfold VerificationRoutes.hashForAudit_throws in Hh.
      apply orb_true_iff in Hh as [Hh|Hh]; apply negb_true_iff in Hh; auto.
    + split; [split; [discriminate|intros (_ & _ & svc & Hv'); discriminate]|].
      split; [discriminate|]. split; [auto|]. split; [auto|discriminate].
Qed.

Lemma batch_counts (results : list VerificationRoutes.BatchResult) :
  (length (filter (fun r => VerificationRoutes.item_success r = true) results)
   + length (filter (fun r => VerificationRoutes.item_success r = false) results)
   = length results)%nat.
Proof.
  induction results as [|r l IH]; [reflexivity|].
  rewrite !filter_cons.
  destruct (decide (VerificationRoutes.item_success r = true)) as [E|E];
    destruct (decide (VerificationRoutes.item_success r = false)) as [F|F];
    simpl; try lia.
  - congruence.
  - destruct (VerificationRoutes.item_success r); congruence.
Qed.

Lemma batchLoop_results lib typeErrorMessage verifications :
  forall svc (i : nat),
    let results :=
      snd (VerificationRoutes.batchLoop lib typeErrorMessage svc i verifications) in
    length results = length verifications
    /\ map VerificationRoutes.index results = seq i (length verifications).
Proof.
  induction verifications as [|[[[env sd] sig] pk] rest IH]; intros svc i; simpl.
  - split; reflexivity.
  - destruct (verifySignature lib svc env sd sig pk) as [svc' v].
    specialize (IH svc' (S i)). simpl in IH.
    destruct (VerificationRoutes.batchLoop lib typeErrorMessage svc' (S i) rest)
      as [svc'' results].
    simpl in *. destruct IH as [IH1 IH2]. split.
    + rewrite IH1. reflexivity.
    + rewrite IH2. f_equal. destruct (nullish sd); [reflexivity|].
      destruct v; reflexivity.
Qed.

(** X14: the answer of [POST /batch-verify] has one entry per item, in the
    order of the request and numbered from 0, and the three counts of its
    summary add up: successful + failed = total = the number of items. *)
Theorem batch_summary_adds_up lib typeErrorMessage st verifications :
  let answer :=
    VerificationRoutes.batchVerifyRoute lib typeErrorMessage st verifications in
  let results := snd (fst answer) in
  let '(total, successful, failed) := snd answer in
  total = length verifications
  /\ length results = total
  /\ map VerificationRoutes.index results = seq 0 total
  /\ (successful + failed)%nat = total.
Proof.
  unfold VerificationRoutes.batchVerifyRoute.
  pose proof (batchLoop_results lib typeErrorMessage verifications
                (VerificationRoutes.signatureService st) 0%nat) as H.
  destruct (VerificationRoutes.batchLoop lib typeErrorMessage
              (VerificationRoutes.signatureService st) 0 verifications)
    as [svc results].
  simpl in *. destruct H as [H1 H2].
  split; [reflexivity|]. split; [exact H1|]. split; [exact H2|].
  rewrite batch_counts. exact H1.
Qed.

(** X15: the batch route does not compare the public key with the source.
    A record that [verifySignature] accepts under a key other than its
    source is refused by [POST /verify-signature] with status 400, leaving
    the router as it was, while [POST /batch-verify] reports it successful
    and keeps the state in which its nonce is consumed. *)
Theorem batch_skips_key_check lib typeErrorMessage st env sd sig pk svc :
  verifySignature lib (VerificationRoutes.signatureService st) env sd sig pk
    = (svc, Valid sd) ->
  strict_eq (get sd "source") pk = false ->
  t_clean env - t_write env <= maxAge ->
  VerificationRoutes.verifySignatureRoute lib st env true sd sig pk
    = (st, {| VerificationRoutes.status := 400;
              VerificationRoutes.success := false;
              VerificationRoutes.error :=
                Some "Public key does not match source address";
              VerificationRoutes.code := None |})
  /\ VerificationRoutes.batchVerifyRoute lib typeErrorMessage st [(env, sd, sig, pk)]
     = (VerificationRoutes.with_signatureService st svc,
        [ {| VerificationRoutes.index := 0;
             VerificationRoutes.item_success := true;
             VerificationRoutes.item_error := None |} ],
        (1, 1, 0)%nat)
  /\ recorded svc (to_string (get sd "nonce")).
Proof.
  intros Hv Hk Hclean.
  destruct (valid_addresses_are_strings _ _ _ _ _ _ _ _ Hv) as (_ & _ & Hn & _).
  split; [|split].
  - unfold VerificationRoutes.verifySignatureRoute. rewrite Hn, Hk. reflexivity.
  - unfold VerificationRoutes.batchVerifyRoute, VerificationRoutes.batchLoop.
    rewrite Hv, Hn. reflexivity.
  - rewrite verifySignature_first_failure in Hv.
    destruct (first_failure _); [discriminate|].
    destruct (consumeNonce _ env _) as [this'|] eqn:Hc; [|discriminate].
    injection Hv as ->.
    exact (consumeNonce_recorded _ _ _ _ Hc Hclean).
Qed.

Lemma batch_skips_key_check_witness :
  VerificationRoutes.status
    (snd (VerificationRoutes.verifySignatureRoute Demo.lib Samples.router_memory
            (Demo.env_at Demo.T0) true Demo.record Demo.signature
            Samples.other_wallet))
  = 400
  /\ snd (VerificationRoutes.batchVerifyRoute Demo.lib "TypeError"
            Samples.router_memory
            [(Demo.env_at Demo.T0, Demo.record, Demo.signature, Samples.other_wallet)])
     = (1, 1, 0)%nat.
Proof.
  destruct (verifySignature Demo.lib
              (VerificationRoutes.signatureService Samples.router_memory)
              (Demo.env_at Demo.T0) Demo.record Demo.signature Samples.other_wallet)
    as [svc v] eqn:Hv.
  assert (E : v = Valid Demo.record).
  { apply (f_equal snd) in Hv. simpl in Hv. rewrite <- Hv. vm_compute. reflexivity. }
  subst v.
  destruct (batch_skips_key_check Demo.lib "TypeError" Samples.router_memory
              (Demo.env_at Demo.T0) Demo.record Demo.signature Samples.other_wallet
              svc Hv) as (H1 & H2 & _).
  - reflexivity.
  - simpl. unfold maxAge. lia.
  - rewrite H1, H2. split; reflexivity.
Defined.

Lemma route_200_inv lib st env (validationPassed : bool) sd sig pk :
  VerificationRoutes.status
    (snd (VerificationRoutes.verifySignatureRoute lib st env validationPassed sd sig pk))
  = 200 ->
  exists svc,
    verifySignature lib (VerificationRoutes.signatureService st) env sd sig pk
    = (svc, Valid sd)
    /\ fst (VerificationRoutes.verifySignatureRoute lib st env validationPassed sd sig pk)
       = VerificationRoutes.with_signatureService st svc.
Proof.
  unfold VerificationRoutes.verifySignatureRoute.
  destruct validationPassed; [|discriminate]. cbn [negb].
  destruct (nullish sd); [discriminate|].
  destruct (strict_eq (get sd "source") pk); [|discriminate]. cbn [negb].
  destruct (verifySignature lib (VerificationRoutes.signatureService st) env sd sig pk)
    as [svc v] eqn:Hv.
  destruct (VerificationRoutes.hashForAudit_throws (get sd "source")
            || VerificationRoutes.hashForAudit_throws (get sd "destination"));
    [discriminate|].
  destruct v as [d|e]; [|discriminate].
  intros _. exists svc.
  apply valid_addresses_are_strings in Hv as Hd. destruct Hd as (_ & _ & _ & ->).
  split; reflexivity.
Qed.

(** X16: what [GET /nonce/:nonce] reports after a verification answered
    with 200.  When the signature service and the nonce manager are both
    connected to Redis, the nonce (of 43 characters) is reported as existing
    for as long as Redis keeps the key, and its [info] is [null], because
    the value written by the service, the text [used], is not JSON.  In
    every other case (either component on its fallback cache) the
    verification is invisible to the route: it answers as it did before,
    the two components keeping their used nonces in separate places. *)
Theorem nonce_status_after_verification JSON_parse lib st env env2 sd sig pk
    (nonce message : string) :
  let answer := VerificationRoutes.verifySignatureRoute lib st env true sd sig pk in
  VerificationRoutes.status (snd answer) = 200 ->
  get sd "nonce" = JStr nonce ->
  NonceManager.isValidNonceFormat (JStr nonce) = true ->
  JSON_parse "used" = Throw message ->
  get_ok env2 = true ->
  t_read env2 < t_write env + 24 * 60 * 60 * 1000 ->
  VerificationRoutes.nonceStatusRoute JSON_parse (fst answer) env2 nonce
  = if VerificationRoutes.signatureConnected st && VerificationRoutes.managerConnected st
    then VerificationRoutes.Status true NonceManager.NoInfo
    else VerificationRoutes.nonceStatusRoute JSON_parse st env2 nonce.
Proof.
  intros answer H200 Hnonce Hfmt Hjson Hget Hread.
  destruct (route_200_inv _ _ _ _ _ _ _ H200) as (svc & Hv & Hst).
  subst answer. rewrite Hst. clear Hst H200.
  rewrite verifySignature_first_failure in Hv.
  destruct (first_failure _); [discriminate|].
  rewrite Hnonce in Hv. cbn [to_string] in Hv.
  destruct (consumeNonce (VerificationRoutes.signatureService st) env nonce)
    as [this'|] eqn:Hc; [|discriminate].
  injection Hv as ->.
  unfold consumeNonce in Hc.
  destruct st as [r sc mc d nc lc]. simpl in Hc |- *.
  destruct sc; simpl in Hc.
  - destruct (setEx_ok env); [|discriminate]. injection Hc as <-.
    destruct mc; simpl.
    + unfold VerificationRoutes.nonceStatusRoute. rewrite Hfmt. cbn [negb].
      unfold NonceManager.exists_, NonceManager.getNonceInfo,
        VerificationRoutes.nonceManager. simpl.
      rewrite Hfmt, Hget. cbn [negb].
      unfold Redis.exists_, Redis.get, Redis.setEx. rewrite lookup_insert_eq.
      destruct (Z.ltb_spec (t_read env2) (t_write env + 24 * 60 * 60 * 1000)); [|lia].
      simpl. rewrite Hjson. reflexivity.
    + reflexivity.
  - injection Hc as <-. reflexivity.
Qed.

Lemma nonce_status_after_verification_witness :
  VerificationRoutes.nonceStatusRoute Samples.JSON_parse
    (fst (VerificationRoutes.verifySignatureRoute Demo.lib Samples.router_redis
            (Demo.env_at Demo.T0) true Demo.record Demo.signature Demo.publicKey))
    (Demo.env_at (Demo.T0 + 1000)) Demo.NONCE
  = VerificationRoutes.Status true NonceManager.NoInfo.
Proof.
  apply (nonce_status_after_verification Samples.JSON_parse Demo.lib
           Samples.router_redis (Demo.env_at Demo.T0) (Demo.env_at (Demo.T0 + 1000))
           Demo.record Demo.signature Demo.publicKey Demo.NONCE "Unexpected token").
  - vm_compute. reflexivity.
  - reflexivity.
  - vm_compute. reflexivity.
  - reflexivity.
  - reflexivity.
  - simpl. unfold Demo.T0. lia.
Defined.

(** On the fallback caches the same verification leaves the route
    answering that the nonce does not exist. *)
Lemma nonce_status_in_memory :
  VerificationRoutes.status
    (snd (VerificationRoutes.verifySignatureRoute Demo.lib Samples.router_memory
            (Demo.env_at Demo.T0) true Demo.record Demo.signature Demo.publicKey))
  = 200
  /\ VerificationRoutes.nonceStatusRoute Samples.JSON_parse
       (fst (VerificationRoutes.verifySignatureRoute Demo.lib Samples.router_memory
               (Demo.env_at Demo.T0) true Demo.record Demo.signature Demo.publicKey))
       (Demo.env_at (Demo.T0 + 1000)) Demo.NONCE
     = VerificationRoutes.Status false NonceManager.NoInfo.
Proof. split; vm_compute; reflexivity. Qed.

(** ** The signer-side verifier *)

Lemma num_ltb_int (a b : Z) : num_ltb (Dec a 0) (Dec b 0) = (a <? b).
Proof.
  unfold num_ltb, num_cmp, pow10. change (10 ^ Z.of_nat 0) with 1.
  rewrite !Z.mul_1_r.
  destruct (Z.compare_spec a b); symmetry; [apply Z.ltb_ge|apply Z.ltb_lt|apply Z.ltb_ge]; lia.
Qed.

(** X17: what the signer-side [verifySignature] accepts, the verifier's
    stateless checks accept.  For a record with integer [timestamp] and
    [expiry] whose optional fields are populated and whose version is 1.0,
    a valid verdict of [SecurityUtils.verifySignature] at the instant [now]
    means that [now] lies between the timestamp and the expiry, with no
    allowance for clock skew, and that the domain is one of the signer's
    two; and if the window is at most 24 hours, [SignatureService] at the
    same instant passes the record through [validateTimestamp],
    [verifyCryptographicSignature] and [performSecurityChecks]. *)
Theorem signer_verdict_passes_verifier_checks lib typeErrorMessage (now t e : Z)
    sd sig pk data :
  SecurityUtilsCrypto.verifySignature lib typeErrorMessage now sd sig pk = Valid data ->
  get sd "timestamp" = JNum (of_Z t) ->
  get sd "expiry" = JNum (of_Z e) ->
  Canonical.populated sd ->
  get sd "version" = JStr "1.0" ->
  data = sd
  /\ t <= now <= e
  /\ (exists d, get sd "domain" = JStr d /\ d ∈ SecurityUtilsCrypto.SUPPORTED_DOMAINS)
  /\ (e - t <= 24 * 60 * 60 * 1000 ->
      validateTimestamp now sd = Ok
      /\ verifyCryptographicSignature lib sd sig pk = Ok
      /\ performSecurityChecks lib sd = Ok).
Proof.
  intros H Ht He Hpop Hver.
  unfold SecurityUtilsCrypto.verifySignature in H.
  destruct (nullish sd); [discriminate|].
  rewrite Ht, He in H. cbn [to_number] in H.
  unfold of_Z in H. rewrite num_ltb_int, num_gtb_int in H.
  destruct (Z.ltb_spec now t); [discriminate|].
  destruct (Z.ltb_spec e now); [discriminate|]. cbn [orb] in H.
  destruct (is_string (get sd "domain")) eqn:Hd; [|discriminate].
  destruct (bool_decide (to_string (get sd "domain") ∈ SecurityUtilsCrypto.SUPPORTED_DOMAINS))
    eqn:Hin; [|discriminate]. cbn [andb negb] in H.
  apply bool_decide_eq_true in Hin.
  destruct (bs58_decode_val lib sig) as [sb|] eqn:Hsb; [|discriminate].
  destruct (bs58_decode_val lib pk) as [pb|] eqn:Hpb; [|discriminate].
  unfold nacl_detached_verify in H.
  destruct (length sb =? 64)%nat eqn:Ls; [|discriminate].
  destruct (length pb =? 32)%nat eqn:Lp; [|discriminate]. cbn [negb] in H.
  destruct (nacl_verify lib (SecurityUtils.createMessageToSign sd) sb pb) eqn:Hv;
    [|discriminate].
  destruct (SecurityUtilsCrypto.performSecurityChecks lib sd) eqn:Hs; [|discriminate].
  injection H as <-.
  split; [reflexivity|]. split; [lia|]. split.
  { destruct (get sd "domain") as [| | | |d|]; try discriminate Hd. eauto. }
  intros Hwin. split; [|split].
  - unfold validateTimestamp. rewrite Ht, He, !parseInt_int.
    unfold of_Z, maxClockSkew, maxValidityWindow.
    rewrite !num_gtb_int, num_sub_int, num_gtb_int.
    destruct (Z.ltb_spec (now + 5 * 60 * 1000) t); [lia|].
    destruct (Z.ltb_spec e now); [lia|].
    destruct (Z.ltb_spec (24 * 60 * 60 * 1000) (e - t)); [lia|]. reflexivity.
  - unfold verifyCryptographicSignature. rewrite Hsb, Hpb, Ls, Lp. cbn [negb].
    destruct Hpop as (P1 & P2 & P3 & P4).
    rewrite <- (encoders_agree_when_populated sd P1 P2 P3 P4), Hv. reflexivity.
  - unfold SecurityUtilsCrypto.performSecurityChecks in Hs.
    unfold performSecurityChecks.
    change SecurityUtilsCrypto.MAX_AMOUNT_SOL with MAX_AMOUNT_SOL in Hs.
    change (SecurityUtilsCrypto.isValidSolanaAddress lib)
      with (SignatureService.isValidSolanaAddress lib) in Hs.
    destruct (strict_eq (get sd "token") (JStr "SOL")
              && num_gtb (parseFloat (get sd "amount")) MAX_AMOUNT_SOL); [discriminate|].
    destruct (negb (SignatureService.isValidSolanaAddress lib (get sd "source"))
              || negb (SignatureService.isValidSolanaAddress lib (get sd "destination")));
      [discriminate|].
    destruct (strict_eq (get sd "source") (get sd "destination")); [discriminate|].
    destruct (isNaN (parseFloat (get sd "amount"))
              || num_leb (parseFloat (get sd "amount")) (of_Z 0)); [discriminate|].
    destruct (isNaN (parseFloat (get sd "maxSlippage"))
              || num_ltb (parseFloat (get sd "maxSlippage")) (of_Z 0)
              || num_gtb (parseFloat (get sd "maxSlippage")) (Dec 1 1)); [discriminate|].
    rewrite Hver. reflexivity.
Qed.

Lemma signer_verdict_passes_verifier_checks_witness :
  validateTimestamp (Demo.T0 + 1000) Demo.record = Ok
  /\ verifyCryptographicSignature (Demo.lib_signer Demo.record) Demo.record
       Demo.signature Demo.publicKey = Ok
  /\ performSecurityChecks (Demo.lib_signer Demo.record) Demo.record = Ok.
Proof.
  destruct (signer_verdict_passes_verifier_checks (Demo.lib_signer Demo.record)
              "TypeError" (Demo.T0 + 1000) Demo.T0 (Demo.T0 + 15 * 60 * 1000)
              Demo.record Demo.signature Demo.publicKey Demo.record)
    as (_ & _ & _ & H).
  - vm_compute. reflexivity.
  - reflexivity.
  - reflexivity.
  - repeat split; try (left; reflexivity); reflexivity.
  - reflexivity.
  - apply H. lia.
Defined.

(** The signer-side verifier has no version rule: it accepts the record of
    version 2.0 that the verifier refuses. *)
Lemma signer_side_accepts_any_version :
  SecurityUtilsCrypto.verifySignature (Demo.lib_signer Demo.record_v2) "TypeError"
    (Demo.T0 + 1000) Demo.record_v2 Demo.signature Demo.publicKey
  = Valid Demo.record_v2
  /\ performSecurityChecks (Demo.lib_signer Demo.record_v2) Demo.record_v2
     = Fail "Unsupported signature version".
Proof. split; vm_compute; reflexivity. Qed.

(** ** Concurrent calls of the nonce manager *)

(** X18: [validateAndConsume], documented as an atomic operation, is a
    check followed by a write with a suspension in between.  For every
    number of concurrent calls on one well-formed, unused nonce, the
    schedule in which each call has received the answer of [exists] before
    any call stores makes every one of them succeed. *)
Theorem concurrent_consume_all_succeed this env nonce (nonceData : string) (n : nat) :
  NonceManager.isValidNonceFormat nonce = true ->
  NonceManager.exists_ this env nonce = false ->
  NonceManager.redis this = None \/ setEx_ok env = true ->
  exists this',
    Concurrent.run Concurrent.resumeConsume this
      (replicate n (Concurrent.CStarted env nonce nonceData)) (Concurrent.round_robin n)
    = (this', replicate n (Concurrent.CSettled
                (NonceManager.Success "Nonce validated and consumed successfully"))).
Proof.
  intros Hf He Hw.
  unfold Concurrent.round_robin. rewrite run_app.
  destruct (run_sweep Concurrent.resumeConsume (fun st => st = this)
              (Concurrent.CStarted env nonce nonceData)
              (Concurrent.CChecked env nonce nonceData)) with (j := n) (i := 0%nat) (st := this)
    as (st1 & -> & Hrun1); [|reflexivity|].
  { intros st ->. exists this. split; [|reflexivity]. simpl.
    rewrite Hf, He. reflexivity. }
  simpl in Hrun1. rewrite Hrun1.
  destruct (run_sweep Concurrent.resumeConsume
              (fun st => NonceManager.redis st = None \/ setEx_ok env = true)
              (Concurrent.CChecked env nonce nonceData)
              (Concurrent.CSettled
                 (NonceManager.Success "Nonce validated and consumed successfully")))
    with (j := n) (i := 0%nat) (st := this)
    as (st2 & _ & Hrun2); [|auto|].
  { intros st Hmode. simpl. unfold NonceManager.store. rewrite Hf. cbn [negb].
    destruct Hmode as [Hm|Hm].
    - rewrite Hm. eexists. split; [reflexivity|]. simpl. auto.
    - rewrite Hm. destruct (NonceManager.redis st); eexists;
        (split; [reflexivity|]); simpl; auto. }
  simpl in Hrun2. exists st2. exact Hrun2.
Qed.

Lemma concurrent_consume_all_succeed_witness :
  exists this',
    Concurrent.run Concurrent.resumeConsume Demo.manager_redis
      (replicate 3 (Concurrent.CStarted (Demo.env_at Demo.T0) (JStr Demo.NONCE) "{}"))
      [0; 1; 2; 0; 1; 2]%nat
    = (this', replicate 3 (Concurrent.CSettled
                (NonceManager.Success "Nonce validated and consumed successfully"))).
Proof.
  apply (concurrent_consume_all_succeed Demo.manager_redis (Demo.env_at Demo.T0)
           (JStr Demo.NONCE) "{}" 3).
  - vm_compute. reflexivity.
  - vm_compute. reflexivity.
  - right. reflexivity.
Defined.

(** ** The two nonce formats *)

(** X19: the signature service accepts nonces the nonce manager refuses.
    [validateNonce] asks for a non-empty string of the URL-safe alphabet of
    any length, [isValidNonceFormat] for exactly 43 characters in addition.
    So every nonce of the manager's format has the service's; and a nonce of
    another length that the service accepts (and goes on to consume) is one
    the manager will not consume, never reports as existing, and whose
    status [GET /nonce/:nonce] refuses to give. *)
Theorem service_nonce_format_is_wider JSON_parse this env manager env' st
    (nonce nonceData : string) :
  base64UrlRegex nonce = true ->
  String.length nonce <> 43%nat ->
  isNonceUsed this env nonce = false ->
  validateNonce this env (JStr nonce) = Ok
  /\ NonceManager.isValidNonceFormat (JStr nonce) = false
  /\ NonceManager.validateAndConsume manager env' (JStr nonce) nonceData
     = (manager, NonceManager.Failure "Invalid nonce format" false)
  /\ NonceManager.exists_ manager env' (JStr nonce) = false
  /\ VerificationRoutes.nonceStatusRoute JSON_parse st env' nonce
     = VerificationRoutes.BadNonce
  /\ (forall v, NonceManager.isValidNonceFormat v = true ->
        validateNonce this env v
        = if isNonceUsed this env (to_string v)
          then Fail "Nonce has already been used (replay attack detected)"
          else Ok).
Proof.
  intros Hre Hlen Hunused.
  assert (Hne : String.eqb nonce EmptyString = false).
  { destruct nonce; [discriminate Hre|reflexivity]. }
  assert (Hfmt : NonceManager.isValidNonceFormat (JStr nonce) = false).
  { unfold NonceManager.isValidNonceFormat. cbn [truthy is_string to_string].
    rewrite Hne, Hre. cbn [negb orb].
    destruct (Nat.eqb_spec (String.length nonce) 43); [contradiction|reflexivity]. }
  split; [|split; [exact Hfmt|split; [|split; [|split]]]].
  - unfold validateNonce. cbn [truthy is_string to_string].
    rewrite Hne, Hre, Hunused. reflexivity.
  - unfold NonceManager.validateAndConsume. rewrite Hfmt. reflexivity.
  - unfold NonceManager.exists_. rewrite Hfmt. reflexivity.
  - unfold VerificationRoutes.nonceStatusRoute. rewrite Hfmt. reflexivity.
  - intros v Hv. unfold NonceManager.isValidNonceFormat in Hv. unfold validateNonce.
    destruct (negb (truthy v) || negb (is_string v)); [discriminate|].
    destruct (negb (base64UrlRegex (to_string v))); [discriminate|]. reflexivity.
Qed.

Lemma service_nonce_format_is_wider_witness :
  validateNonce Demo.service_memory (Demo.env_at Demo.T0) (JStr "abc") = Ok
  /\ VerificationRoutes.nonceStatusRoute Samples.JSON_parse Samples.router_memory
       (Demo.env_at Demo.T0) "abc"
     = VerificationRoutes.BadNonce.
Proof.
  destruct (service_nonce_format_is_wider Samples.JSON_parse Demo.service_memory
              (Demo.env_at Demo.T0) Samples.manager_local (Demo.env_at Demo.T0)
              Samples.router_memory "abc" "{}")
    as (H1 & _ & _ & _ & H2 & _).
  - reflexivity.
  - simpl. lia.
  - reflexivity.
  - split; assumption.
Defined.

(** ** Tracking IDs *)

Lemma join_empty_cons (x : string) (l : list string) :
  join EmptyString (x :: l) = x +:+ join EmptyString l.
Proof.
  destruct l as [|y l]; simpl.
  - induction x as [|c x IH]; [reflexivity|].
    change (String c x = String c (x +:+ EmptyString)). f_equal. exact IH.
  - reflexivity.
Qed.

Lemma tracking_byte (b : Byte.byte) :
  exists c d,
    TrackingId.padStart 2 "0" (TrackingId.toString16 (Base64.byte_val b))
    = String c (String d EmptyString)
    /\ (let lower_hex := fun x => ((48 <=? code x) && (code x <=? 57))
                                  || ((97 <=? code x) && (code x <=? 102)) in
        lower_hex c = true /\ lower_hex d = true)
    /\ default Byte.x00
         (Byte.of_N (Z.to_N (16 * default 0 (hex_val c) + default 0 (hex_val d)))) = b.
Proof.
  destruct b; do 2 eexists; (split; [vm_compute; reflexivity|]);
    split; vm_compute; auto.
Qed.

(** X20: a tracking ID is the list of its bytes written with two lower-case
    hexadecimal digits each: it has twice as many characters as there are
    bytes (32 for the 16 the source draws), all of them in [0-9a-f], the
    bytes can be read back from it, and so different bytes never give the
    same ID. *)
Theorem tracking_id_is_hex (bytes : list Byte.byte) :
  let id := TrackingId.generateTrackingId bytes in
  String.length id = (2 * length bytes)%nat
  /\ all_chars (fun x => ((48 <=? code x) && (code x <=? 57))
                         || ((97 <=? code x) && (code x <=? 102))) id = true
  /\ TrackingId.bytes_of id = bytes
  /\ (forall bytes', TrackingId.generateTrackingId bytes' = id -> bytes' = bytes).
Proof.
  assert (H : forall l,
             String.length (TrackingId.generateTrackingId l) = (2 * length l)%nat
             /\ all_chars (fun x => ((48 <=? code x) && (code x <=? 57))
                                    || ((97 <=? code x) && (code x <=? 102)))
                  (TrackingId.generateTrackingId l) = true
             /\ TrackingId.bytes_of (TrackingId.generateTrackingId l) = l).
  { induction l as [|b l (IH1 & IH2 & IH3)]; [repeat split|].
    unfold TrackingId.generateTrackingId in *. rewrite map_cons, join_empty_cons.
    destruct (tracking_byte b) as (c & d & -> & [Hc Hd] & Hb).
    cbn [String.append]. change (String c (String d EmptyString) +:+ ?s)
      with (String c (String d s)).
    split; [|split].
    - cbn [String.length]. rewrite IH1. simpl. lia.
    - cbn [all_chars]. rewrite Hc, Hd, IH2. reflexivity.
    - cbn [TrackingId.bytes_of]. rewrite Hb, IH3. reflexivity. }
  intros id. destruct (H bytes) as (H1 & H2 & H3).
  split; [exact H1|]. split; [exact H2|]. split; [exact H3|].
  intros bytes' E. destruct (H bytes') as (_ & _ & H3').
  rewrite <- H3', E. exact H3.
Qed.

(** ** The health probe *)

(** X21: the health probe consumes nothing.  With a [bs58] that refuses
    the text [invalid_signature] (it holds characters outside the base-58
    alphabet), the verification run by [GET /health] is always refused,
    whatever the clock, the allow-list and the store: the route answers 200
    and leaves the router, and so the nonce stores, as they were. *)
Theorem health_probe_consumes_nothing lib st env (t1 t2 t3 : Z) (message : string) :
  bs58_decode lib "invalid_signature" = Throw message ->
  VerificationHealth.healthRoute lib st env t1 t2 t3 = (st, 200)
  /\ exists error,
       verifySignature lib (VerificationRoutes.signatureService st) env
         (VerificationHealth.testData t1 t2 t3) (JStr "invalid_signature")
         (JStr "11111111111111111111111111111111")
       = (VerificationRoutes.signatureService st, Invalid error).
Proof.
  intros Hdec.
  unfold VerificationHealth.healthRoute, VerificationHealth.testSignatureService.
  destruct (verifySignature lib (VerificationRoutes.signatureService st) env
              (VerificationHealth.testData t1 t2 t3) (JStr "invalid_signature")
              (JStr "11111111111111111111111111111111")) as [svc [d|e]] eqn:Hv.
  - exfalso. rewrite verifySignature_first_failure in Hv.
    destruct (first_failure _) eqn:Hf; [discriminate|].
    apply first_failure_none_inv in Hf. unfold pipeline in Hf.
    apply Forall_cons in Hf as [_ Hf]. apply Forall_cons in Hf as [_ Hf].
    apply Forall_cons in Hf as [_ Hf]. apply Forall_cons in Hf as [_ Hf].
    apply Forall_cons in Hf as [Hc _].
    apply crypto_ok in Hc as (s & p & sb & pb & Hs & _ & Hds & _).
    injection Hs as <-. congruence.
  - assert (Hsame : svc = VerificationRoutes.signatureService st)
      by exact (verifySignature_invalid_same lib _ env _ _ _ svc e Hv).
    subst svc. rewrite with_own_signatureService. split; [reflexivity|eauto].
Qed.

Lemma health_probe_consumes_nothing_witness :
  VerificationHealth.healthRoute Demo.lib Samples.router_redis (Demo.env_at Demo.T0)
    Demo.T0 Demo.T0 Demo.T0
  = (Samples.router_redis, 200).
Proof.
  apply (health_probe_consumes_nothing Demo.lib Samples.router_redis
           (Demo.env_at Demo.T0) Demo.T0 Demo.T0 Demo.T0 "Non-base58 character").
  vm_compute. reflexivity.
Defined.
